(** * ImportModel: the model import pipeline of the content importers

    A shallow embedding of [Source/Engine/ContentImporters/ImportModel.cpp]:
    option restore, mesh grouping, object splitting, object selection,
    material slot consolidation, lightmap UV repacking and chunk packing.

    The translation unit talks to many engine services through pointers
    and references.  The embedding keeps that shape:

    - [MeshData*] is a [MeshPtr] into a heap of meshes, [ModelData*] a
      [DataRef] into a store of model records, so that aliasing between
      LOD lists, mesh groups and the deletion list is kept;
    - every function runs in the monad [M]: explicit state passing over
      [State], with [None] for a failed [ASSERT] or an invalid dereference;
    - engine code that lives outside this translation unit is a field of
      the classes [EngineTypes] and [Engine];
    - calls into collaborators whose number and order matter (the
      import orchestrator, chunk allocation and chunk writes, the
      rectangle packer) leave an [Event] in the state. *)

From Stdlib Require Import ZArith QArith String Ascii List Permutation Sorted.
From stdpp Require Import base gmap strings list sorting pretty.
From Equations Require Import Equations.

Close Scope Q_scope.
Local Open Scope Z_scope.

(** ** Engine types that this translation unit only passes around *)

Class EngineTypes := {
  (** [float]: only the operations the source applies to it. *)
  Float : Type;
  flit : Q → Float;
  fadd : Float → Float → Float;
  fsub : Float → Float → Float;
  fmul : Float → Float → Float;
  fdiv : Float → Float → Float;
  fsqrt : Float → Float;
  fgt : Float → Float → bool;
  ZeroTolerance : Float;
  (** vertex and index buffers of a mesh *)
  MeshBuffers : Type;
  SkeletonData : Type;
  SkeletonData_empty : SkeletonData;
  NodeData : Type;
  AnimationData : Type;
  (** the file system and the content database *)
  Platform : Type;
  FlaxStorage : Type;
  Asset : Type;
  (** what a [JsonWriter] has been asked to write, what a
      [rapidjson_flax::Document] holds after a parse *)
  JsonMembers : Type;
  JsonMembers_append : JsonMembers → JsonMembers → JsonMembers;
  RectPackNode : Type;
}.

Definition bytes := list Byte.byte.
Definition MeshPtr := nat.
Definition DataRef := nat.

Section DataModel.
Context `{T : EngineTypes}.

Record Float2 := mkFloat2 { F2X : Float; F2Y : Float }.

(** [Float2 operator*] and [operator+] are component-wise. *)
Definition Float2_mul (a b : Float2) : Float2 :=
  mkFloat2 (fmul (F2X a) (F2X b)) (fmul (F2Y a) (F2Y b)).
Definition Float2_add (a b : Float2) : Float2 :=
  mkFloat2 (fadd (F2X a) (F2X b)) (fadd (F2Y a) (F2Y b)).

Record MeshData := mkMeshData {
  Name : string;
  MaterialSlotIndex : Z;
  LightmapUVs : list Float2;
  Buffers : MeshBuffers;
}.

Definition MeshData_setMaterialSlotIndex (m : MeshData) (i : Z) : MeshData :=
  mkMeshData (Name m) i (LightmapUVs m) (Buffers m).
Definition MeshData_setLightmapUVs (m : MeshData) (uvs : list Float2) : MeshData :=
  mkMeshData (Name m) (MaterialSlotIndex m) uvs (Buffers m).

Record MaterialSlotEntry := mkMaterialSlotEntry {
  SlotName : string;
  ShadowsMode : Z;
  AssetID : Z;
}.

Record ModelLodData := mkModelLodData {
  ScreenSize : Float;
  Meshes : list MeshPtr;
}.

Definition ModelLodData_setMeshes (l : ModelLodData) (ms : list MeshPtr) : ModelLodData :=
  mkModelLodData (ScreenSize l) ms.

Record ModelData := mkModelData {
  LODs : list ModelLodData;
  Materials : list MaterialSlotEntry;
  Skeleton : SkeletonData;
  Nodes : list NodeData;
  Animations : list AnimationData;
}.

Definition ModelData_setLODs (d : ModelData) (lods : list ModelLodData) : ModelData :=
  mkModelData lods (Materials d) (Skeleton d) (Nodes d) (Animations d).
Definition ModelData_setMaterials (d : ModelData) (ms : list MaterialSlotEntry) : ModelData :=
  mkModelData (LODs d) ms (Skeleton d) (Nodes d) (Animations d).
Definition ModelData_setSkeleton (d : ModelData) (s : SkeletonData) : ModelData :=
  mkModelData (LODs d) (Materials d) s (Nodes d) (Animations d).
Definition ModelData_setNodes (d : ModelData) (n : list NodeData) : ModelData :=
  mkModelData (LODs d) (Materials d) (Skeleton d) n (Animations d).

(** A default-constructed [ModelData], as the local [dataThis]. *)
Definition ModelData_empty : ModelData :=
  mkModelData [] [] SkeletonData_empty [] [].

(** [IGrouping<TKey, TSource>]: a key and the members in insertion order. *)
Record IGrouping (K A : Type) := mkIGrouping {
  GetKey : K;
  Members : list A;
}.
Global Arguments mkIGrouping {K A} _ _.
Global Arguments GetKey {K A} _.
Global Arguments Members {K A} _.

Definition MeshGroups := list (IGrouping string MeshPtr).

Inductive ModelType := Model | SkinnedModel | Animation.

Inductive ModelLightmapUVsSource :=
| LightmapDisable
| Generate
| LightmapChannel (channel : nat).

(** [ModelTool::Options::CachedData]: a pointer to the parsed model of
    the call that splits, and a pointer to its groups.  The groups are
    never written after their creation, so the second pointer is
    modelled by the array it points to. *)
Record CachedData := mkCachedData {
  Data : option DataRef;
  MeshesByName : option MeshGroups;
}.

Record Options := mkOptions {
  Type_ : ModelType;
  SplitObjects : bool;
  ObjectIndex : Z;
  RestoreMaterialsOnReimport : bool;
  LightmapUVsSource : ModelLightmapUVsSource;
  GenerateSDF : bool;
  SDFResolution : Float;
  SubAssetFolder : string;
  Cached : option CachedData;
}.

Definition Options_setSplitObjects (o : Options) (b : bool) : Options :=
  mkOptions (Type_ o) b (ObjectIndex o) (RestoreMaterialsOnReimport o)
    (LightmapUVsSource o) (GenerateSDF o) (SDFResolution o) (SubAssetFolder o) (Cached o).
Definition Options_setObjectIndex (o : Options) (i : Z) : Options :=
  mkOptions (Type_ o) (SplitObjects o) i (RestoreMaterialsOnReimport o)
    (LightmapUVsSource o) (GenerateSDF o) (SDFResolution o) (SubAssetFolder o) (Cached o).
Definition Options_setCached (o : Options) (c : option CachedData) : Options :=
  mkOptions (Type_ o) (SplitObjects o) (ObjectIndex o) (RestoreMaterialsOnReimport o)
    (LightmapUVsSource o) (GenerateSDF o) (SDFResolution o) (SubAssetFolder o) c.

(** [AssetInitData], with [Header.TypeName] and [Header.Chunks] flattened. *)
Record AssetInitData := mkAssetInitData {
  Header_TypeName : string;
  Header_Chunks : gmap Z bytes;
  SerializedVersion : Z;
  Metadata : bytes;
}.

Record CreateAssetContext := mkCreateAssetContext {
  InputPath : string;
  TargetAssetPath : string;
  Data_ : AssetInitData;
}.

Definition context_setData (c : CreateAssetContext) (d : AssetInitData) : CreateAssetContext :=
  mkCreateAssetContext (InputPath c) (TargetAssetPath c) d.
Definition context_setChunks (c : CreateAssetContext) (ch : gmap Z bytes) : CreateAssetContext :=
  context_setData c (mkAssetInitData (Header_TypeName (Data_ c)) ch
                       (SerializedVersion (Data_ c)) (Metadata (Data_ c))).
Definition context_setMetadata (c : CreateAssetContext) (m : bytes) : CreateAssetContext :=
  context_setData c (mkAssetInitData (Header_TypeName (Data_ c)) (Header_Chunks (Data_ c))
                       (SerializedVersion (Data_ c)) m).
Definition context_setType (c : CreateAssetContext) (t : string) (v : Z) : CreateAssetContext :=
  context_setData c (mkAssetInitData t (Header_Chunks (Data_ c)) v (Metadata (Data_ c))).

Inductive CreateAssetResult := Ok | Error | CannotAllocateChunk | InvalidTypeID.

(** A slot handed out by the rectangle packer. *)
Record RectSlot := mkRectSlot {
  SlotX : Float;
  SlotY : Float;
  SlotWidth : Float;
  SlotHeight : Float;
}.

(** What the scene parser hands back: the meshes are still values, the
    pipeline places them on the heap. *)
Record ParsedLod := mkParsedLod {
  ParsedScreenSize : Float;
  ParsedMeshes : list MeshData;
}.

Record ParsedModel := mkParsedModel {
  ParsedLODs : list ParsedLod;
  ParsedMaterials : list MaterialSlotEntry;
  ParsedSkeleton : SkeletonData;
  ParsedNodes : list NodeData;
  ParsedAnimations : list AnimationData;
}.

(** Calls into collaborators, in the order they are made. *)
Inductive Event :=
| EvImport (inputPath outputPath : string) (splitOptions : Options)
| EvAllocateChunk (index : Z) (failed : bool)
| EvChunkCopy (index : Z) (data : bytes)
| EvRectPack (x y width height : Float).

Record State := mkState {
  heap : gmap MeshPtr MeshData;
  frames : gmap DataRef ModelData;
  platform : Platform;
  events : list Event;
}.

Definition State_setHeap (s : State) (h : gmap MeshPtr MeshData) : State :=
  mkState h (frames s) (platform s) (events s).
Definition State_setFrames (s : State) (f : gmap DataRef ModelData) : State :=
  mkState (heap s) f (platform s) (events s).
Definition State_setPlatform (s : State) (p : Platform) : State :=
  mkState (heap s) (frames s) p (events s).
Definition State_addEvent (s : State) (e : Event) : State :=
  mkState (heap s) (frames s) (platform s) (events s ++ [e]).

End DataModel.

(** ** Engine code outside this translation unit *)

Class Engine `{T : EngineTypes} := {
  (** [FileSystem::FileExists] *)
  FileExists : Platform → string → bool;
  (** [ContentStorageManager::GetStorage]; [None] is a null storage. *)
  GetStorage : Platform → string → option FlaxStorage;
  GetEntriesCount : FlaxStorage → Z;
  (** [GetEntry(i).TypeName] *)
  GetEntry_TypeName : FlaxStorage → Z → string;
  (** [LoadAssetHeader] returns true on failure: [None] here. *)
  LoadAssetHeader : FlaxStorage → Z → option AssetInitData;
  Model_TypeName : string;
  SkinnedModel_TypeName : string;
  Animation_TypeName : string;
  Model_SerializedVersion : Z;
  SkinnedModel_SerializedVersion : Z;
  Animation_SerializedVersion : Z;
  (** [Document::Parse]; [None] when [HasParseError()]. *)
  Document_Parse : bytes → option JsonMembers;
  Options_Deserialize : JsonMembers → Options → Options;
  Options_Serialize : Options → JsonMembers;
  CreateAssetContext_AddMeta : CreateAssetContext → JsonMembers;
  (** the text a [CompactJsonWriter] holds after [StartObject], the
      members and [EndObject] *)
  CompactJsonWriter_GetString : JsonMembers → bytes;
  Options_default : Options;
  (** [StringUtils] and [String] helpers used to build paths *)
  GetDirectoryName : string → string;
  GetFileNameWithoutExtension : string → string;
  GetPathWithoutExtension : string → string;
  TrimTrailing : string → string;
  PathCombine : string → string → string;
  (** [ModelTool::ImportModel]: the scene parser; [inl] is the error
      message of a failed parse. *)
  ModelTool_ImportModel :
    Platform → string → Options → string → Platform * (string + ParsedModel);
  (** [AssetsImportingManager::Import]: the import orchestrator.  It may
      change everything but the record of events. *)
  AssetsImportingManager_Import :
    string → string → Options →
    gmap MeshPtr MeshData * gmap DataRef ModelData * Platform →
    bool * (gmap MeshPtr MeshData * gmap DataRef ModelData * Platform);
  (** [Content::LoadAsync<Asset>]; [None] is a null reference. *)
  Content_LoadAsync : Platform → string → option Asset;
  (** [Asset::WaitForLoaded] returns true on failure. *)
  Asset_WaitForLoaded : Asset → bool;
  Asset_GetTypeName : Asset → string;
  (** [ModelBase::MaterialSlots], each slot as its name, shadows mode
      and [Material.GetID()] *)
  ModelBase_MaterialSlots : Asset → list MaterialSlotEntry;
  MeshData_CalculateTrianglesArea : MeshData → Float;
  (** [RectPack]: a fresh root, and [Insert], which answers a slot or
      null and leaves the tree changed. *)
  RectPack_new : Float → Float → Float → Float → RectPackNode;
  RectPack_Insert : RectPackNode → Float → Float → Float → option RectSlot * RectPackNode;
  ModelData_CalculateLODsScreenSizes : ModelData → ModelData;
  (** the packers return true on failure ([None] here), else the bytes
      they append to the stream *)
  ModelData_Pack2ModelHeader : gmap MeshPtr MeshData → ModelData → option bytes;
  ModelData_Pack2SkinnedModelHeader : gmap MeshPtr MeshData → ModelData → option bytes;
  ModelData_Pack2AnimationHeader : gmap MeshPtr MeshData → ModelData → Z → option bytes;
  MeshData_Pack2Model : MeshData → option bytes;
  MeshData_Pack2SkinnedModel : MeshData → option bytes;
  (** [ModelTool::GenerateModelSDF] returns true on failure. *)
  ModelTool_GenerateModelSDF :
    gmap MeshPtr MeshData → ModelData → Float → Z → string → option bytes;
  (** whether [CreateAssetContext::AllocateChunk(index)] fails on the
      given chunk table *)
  AllocateChunk_fails : gmap Z bytes → Z → bool;
  Animation_Name : AnimationData → string;
}.

(** ** The state monad of the embedding *)

Section Monad.
Context `{T : EngineTypes}.

Definition M (A : Type) : Type := State → option (A * State).

Definition ret {A} (a : A) : M A := λ s, Some (a, s).

Definition bind {A B} (m : M A) (k : A → M B) : M B :=
  λ s, match m s with
       | Some (a, s') => k a s'
       | None => None
       end.

(** A failed [ASSERT], an index out of range, a null or dangling pointer. *)
Definition crash {A} : M A := λ _, None.

Definition get : M State := λ s, Some (s, s).
Definition put (s : State) : M unit := λ _, Some (tt, s).
Definition modify (f : State → State) : M unit := λ s, Some (tt, f s).

Definition liftOpt {A} (o : option A) : M A :=
  match o with
  | Some a => ret a
  | None => crash
  end.

End Monad.

Declare Scope M_scope.
Delimit Scope M_scope with M.
Notation "x <- c ;; k" := (bind c (λ x, k))
  (at level 100, c at next level, right associativity) : M_scope.
Notation "c ;;; k" := (bind c (λ _, k))
  (at level 100, right associativity) : M_scope.
Local Open Scope M_scope.

Section Monad_loops.
Context `{T : EngineTypes}.

Fixpoint forM_ {A} (l : list A) (f : A → M unit) : M unit :=
  match l with
  | [] => ret tt
  | x :: l' => f x ;;; forM_ l' f
  end.

Fixpoint foldM {A B} (f : B → A → M B) (l : list A) (b : B) : M B :=
  match l with
  | [] => ret b
  | x :: l' => b' <- f b x ;; foldM f l' b'
  end.

(** [array[index]] with the bounds [ASSERT] of [Array::operator[]]. *)
Definition Array_at {A} (l : list A) (index : Z) : M A :=
  if (0 <=? index) && (index <? Z.of_nat (length l))
  then liftOpt (l !! Z.to_nat index)
  else crash.

Definition readMesh (p : MeshPtr) : M MeshData :=
  s <- get ;; liftOpt (heap s !! p).

Definition writeMesh (p : MeshPtr) (m : MeshData) : M unit :=
  modify (λ s, State_setHeap s (<[p := m]> (heap s))).

Definition readModel (r : DataRef) : M ModelData :=
  s <- get ;; liftOpt (frames s !! r).

Definition writeModel (r : DataRef) (d : ModelData) : M unit :=
  modify (λ s, State_setFrames s (<[r := d]> (frames s))).

Definition logEvent (e : Event) : M unit :=
  modify (λ s, State_addEvent s e).

End Monad_loops.

(** ** Collections, sorting and strings of the engine core *)

(** Modelled from the spec: [StringView::Compare] is missing from the
    sources at hand; the spec calls it ordinal string comparison.  The
    result is negative, zero or positive: the difference of the first
    pair of code units that differ, else the order of the lengths. *)
Fixpoint Compare (a b : string) : Z :=
  match a, b with
  | EmptyString, EmptyString => 0
  | EmptyString, String _ _ => -1
  | String _ _, EmptyString => 1
  | String c a', String d b' =>
      if Ascii.eqb c d then Compare a' b'
      else Z.of_N (N_of_ascii c) - Z.of_N (N_of_ascii d)
  end.

(** Modelled from the spec: [ArrayExtensions::GroupBy] is missing from
    the sources at hand; the spec has it group by exact equality of the
    key.  A group is created when its key is first met and members keep
    their order. *)
Fixpoint GroupBy_add {K A} `{EqDecision K} (key : K) (x : A)
    (groups : list (IGrouping K A)) : list (IGrouping K A) :=
  match groups with
  | [] => [mkIGrouping key [x]]
  | g :: rest =>
      if decide (GetKey g = key)
      then mkIGrouping (GetKey g) (Members g ++ [x]) :: rest
      else g :: GroupBy_add key x rest
  end.

Definition GroupBy {K A} `{EqDecision K} (keySelector : A → K) (obj : list A)
    : list (IGrouping K A) :=
  fold_left (λ groups x, GroupBy_add (keySelector x) x groups) obj [].

(** Modelled from the spec: [Sorting::QuickSort] is missing from the
    sources at hand; the spec has the groups sorted ascending under the
    comparer.  [less a b] is the comparer: true when [a] goes before [b]. *)
#[local] Obligation Tactic :=
  intros; simpl; apply Nat.lt_succ_r, List.filter_length_le.

Equations QuickSort {A} (less : A → A → bool) (l : list A) : list A by wf (length l) lt :=
QuickSort less [] := [];
QuickSort less (pivot :: rest) :=
  QuickSort less (List.filter (λ x, less x pivot) rest)
  ++ pivot :: QuickSort less (List.filter (λ x, negb (less x pivot)) rest).

(** [Array::Remove]: the first element equal to [item] goes away.  The
    header is missing from the sources at hand; the order of the
    remaining elements is kept here. *)
Fixpoint Array_Remove (item : MeshPtr) (l : list MeshPtr) : list MeshPtr :=
  match l with
  | [] => []
  | x :: rest => if Nat.eqb x item then rest else x :: Array_Remove item rest
  end.

(** [String::FindLast(c)]: the index of the last [c], or -1. *)
Fixpoint FindLast_from (s : string) (c : ascii) (index last : Z) : Z :=
  match s with
  | EmptyString => last
  | String d s' => FindLast_from s' c (index + 1) (if Ascii.eqb d c then index else last)
  end.

Definition FindLast (s : string) (c : ascii) : Z := FindLast_from s c 0 (-1).

(** [String::Substring(startIndex)]: the rest of the string. *)
Definition Substring (s : string) (startIndex : Z) : string :=
  String.substring (Z.to_nat startIndex) (String.length s - Z.to_nat startIndex) s.

(** [MemoryWriteStream]: a buffer and a write position; writing
    overwrites from the position on and grows the buffer at its end. *)
Record MemoryWriteStream := mkMemoryWriteStream {
  stream_buffer : bytes;
  stream_position : nat;
}.

Definition stream_new : MemoryWriteStream := mkMemoryWriteStream [] 0.

Definition stream_Write (st : MemoryWriteStream) (data : bytes) : MemoryWriteStream :=
  mkMemoryWriteStream
    (take (stream_position st) (stream_buffer st) ++ data
     ++ drop (stream_position st + length data) (stream_buffer st))
    (stream_position st + length data).

Definition stream_SetPosition (st : MemoryWriteStream) (position : nat) : MemoryWriteStream :=
  mkMemoryWriteStream (stream_buffer st) position.

(** The bytes between [GetHandle()] and [GetHandle() + GetPosition()]. *)
Definition stream_data (st : MemoryWriteStream) : bytes :=
  take (stream_position st) (stream_buffer st).

(** ** ImportModel.cpp *)

Section ImportModel.
Context `{E : Engine}.

(** [SetupMaterialSlots] (lines 173-191).  [materialSlotsTable] is
    filled with -1 and read for every mesh; the source never stores
    into it, so it is the same table in every iteration. *)
Definition SetupMaterialSlots (data : DataRef) (materials : list MaterialSlotEntry) : M unit :=
  let materialSlotsTable := replicate (length materials) (-1) in
  d0 <- readModel data ;;
  forM_ (LODs d0) (λ lod,
    forM_ (Meshes lod) (λ mesh,
      m <- readMesh mesh ;;
      newSlotIndex <- Array_at materialSlotsTable (MaterialSlotIndex m) ;;
      newSlotIndex <-
        (if newSlotIndex =? -1 then
           d <- readModel data ;;
           entry <- Array_at materials (MaterialSlotIndex m) ;;
           writeModel data (ModelData_setMaterials d (Materials d ++ [entry])) ;;;
           ret (Z.of_nat (length (Materials d)))
         else ret newSlotIndex) ;;
      writeMesh mesh (MeshData_setMaterialSlotIndex m newSlotIndex))).

(** [ImportModel::TryGetImportOptions] (lines 22-50).  One disjunct of
    the condition at lines 31-37: the type name test, then the header
    load into [data], then the version test, with the short circuit of
    [&&]. *)
Definition headerCheck (tmpFile : FlaxStorage) (typeName : string) (minVersion : Z)
    (data : AssetInitData) : bool * AssetInitData :=
  if String.eqb (GetEntry_TypeName tmpFile 0) typeName then
    match LoadAssetHeader tmpFile 0 with
    | Some loaded => (minVersion <=? SerializedVersion loaded, loaded)
    | None => (false, data)
    end
  else (false, data).

Definition AssetInitData_empty : AssetInitData := mkAssetInitData EmptyString ∅ 0 [].

Definition TryGetImportOptions (p : Platform) (path : string) (options : Options)
    : bool * Options :=
  if FileExists p path then
    match GetStorage p path with
    | Some tmpFile =>
        if GetEntriesCount tmpFile =? 1 then
          let data := AssetInitData_empty in
          let '(ok, data) :=
            let '(ok1, data) := headerCheck tmpFile Model_TypeName 4 data in
            if ok1 then (true, data) else
            let '(ok2, data) := headerCheck tmpFile SkinnedModel_TypeName 1 data in
            if ok2 then (true, data) else
            headerCheck tmpFile Animation_TypeName 1 data in
          if ok then
            match Document_Parse (Metadata data) with
            | Some metadata => (true, Options_Deserialize metadata options)
            | None => (false, options)
            end
          else (false, options)
        else (false, options)
    | None => (false, options)
    end
  else (false, options).

(** [RepackMeshLightmapUVs] (lines 52-129). *)
Record MeshEntry := mkMeshEntry {
  Mesh : MeshPtr;
  Area : Float;
  Size : Float;
}.

(** The loop at lines 99-109: every entry gets its slot, or the pass
    fails at the first entry the packer refuses. *)
Fixpoint insertEntries (root : RectPackNode) (chartsPadding : Float)
    (entries : list MeshEntry) : option (list (MeshEntry * RectSlot)) :=
  match entries with
  | [] => Some []
  | entry :: rest =>
      match RectPack_Insert root (Size entry) (Size entry) chartsPadding with
      | (Some slot, root') =>
          match insertEntries root' chartsPadding rest with
          | Some placed => Some ((entry, slot) :: placed)
          | None => None
          end
      | (None, _) => None
      end
  end.

(** Lines 113-124. *)
Definition transformLightmapUVs (atlasSize chartsPadding : Float)
    (placed : list (MeshEntry * RectSlot)) : M unit :=
  let atlasSizeInv := fdiv (flit 1) atlasSize in
  forM_ placed (λ es,
    let '(entry, slot) := es in
    let uvOffset := mkFloat2 (fmul (SlotX slot) atlasSizeInv) (fmul (SlotY slot) atlasSizeInv) in
    let uvScale := mkFloat2 (fmul (fsub (SlotWidth slot) chartsPadding) atlasSizeInv)
                            (fmul (fsub (SlotHeight slot) chartsPadding) atlasSizeInv) in
    m <- readMesh (Mesh entry) ;;
    writeMesh (Mesh entry)
      (MeshData_setLightmapUVs m
         (map (λ uv, Float2_add (Float2_mul uv uvScale) uvOffset) (LightmapUVs m)))).

(** Lines 97-98: the padding and the root of one pass. *)
Definition chartsPaddingOf (atlasSize : Float) : Float :=
  fmul (flit (4 # 256)%Q) atlasSize.

Definition packRoot (atlasSize : Float) : RectPackNode :=
  let chartsPadding := chartsPaddingOf atlasSize in
  RectPack_new chartsPadding chartsPadding
    (fsub atlasSize chartsPadding) (fsub atlasSize chartsPadding).

(** The event of a pass: its root is built. *)
Definition packEvent (atlasSize : Float) : Event :=
  let chartsPadding := chartsPaddingOf atlasSize in
  EvRectPack chartsPadding chartsPadding
    (fsub atlasSize chartsPadding) (fsub atlasSize chartsPadding).

(** One pass of the loop, lines 96-109: the placement, or [None] when
    [failed] is set. *)
Definition packAttempt (atlasSize : Float) (entries : list MeshEntry)
    : option (list (MeshEntry * RectSlot)) :=
  insertEntries (packRoot atlasSize) (chartsPaddingOf atlasSize) entries.

(** The [while (triesLeft--)] loop at lines 94-127. *)
Fixpoint packLoop (triesLeft : nat) (atlasSize : Float) (entries : list MeshEntry) : M unit :=
  match triesLeft with
  | O => ret tt
  | S triesLeft =>
      logEvent (packEvent atlasSize) ;;;
      match packAttempt atlasSize entries with
      | None => packLoop triesLeft (fmul atlasSize (flit (15 # 10)%Q)) entries
      | Some placed => transformLightmapUVs atlasSize (chartsPaddingOf atlasSize) placed
      end
  end.

(** Lines 77-87. *)
Definition buildEntries (meshes : list MeshPtr) : M (list MeshEntry * Float) :=
  foldM (λ acc mesh,
           let '(entries, areaSum) := acc in
           m <- readMesh mesh ;;
           let area := MeshData_CalculateTrianglesArea m in
           ret (entries ++ [mkMeshEntry mesh area (fsqrt area)], fadd areaSum area))
        meshes ([], flit 0).

Definition RepackMeshLightmapUVs (data : DataRef) : M unit :=
  d <- readModel data ;;
  lod <- Array_at (LODs d) 0 ;;
  acc <- buildEntries (Meshes lod) ;;
  let '(entries, areaSum) := acc in
  if fgt areaSum ZeroTolerance then
    packLoop 10 (fmul (fsqrt areaSum) (flit (102 # 100)%Q)) entries
  else ret tt.

(** [TryRestoreMaterials] (lines 131-171). *)
Definition TryRestoreMaterials (context : CreateAssetContext) (modelData : DataRef) : M unit :=
  s <- get ;;
  if negb (FileExists (platform s) (TargetAssetPath context)) then ret tt else
  match Content_LoadAsync (platform s) (TargetAssetPath context) with
  | None => ret tt
  | Some asset =>
      if Asset_WaitForLoaded asset then ret tt else
      let model :=
        if String.eqb (Asset_GetTypeName asset) Model_TypeName then Some asset
        else if String.eqb (Asset_GetTypeName asset) SkinnedModel_TypeName then Some asset
        else None in
      match model with
      | None => ret tt
      | Some model =>
          d <- readModel modelData ;;
          writeModel modelData
            (ModelData_setMaterials d
               (imap (λ i dstSlot,
                        match ModelBase_MaterialSlots model !! i with
                        | Some srcSlot =>
                            mkMaterialSlotEntry (SlotName srcSlot) (ShadowsMode srcSlot)
                              (AssetID srcSlot)
                        | None => dstSlot
                        end)
                     (Materials d)))
      end
  end.

(** [SortMeshGroups] (lines 193-196). *)
Definition SortMeshGroups (i1 i2 : IGrouping string MeshPtr) : bool :=
  Compare (GetKey i1) (GetKey i2) <? 0.

(** *** Chunk packing (lines 420-543) *)

(** [CreateAssetContext::AllocateChunk]: true on failure; a chunk that
    was allocated exposes an empty buffer. *)
Definition AllocateChunk (context : CreateAssetContext) (index : Z)
    : M (bool * CreateAssetContext) :=
  let failed := AllocateChunk_fails (Header_Chunks (Data_ context)) index in
  logEvent (EvAllocateChunk index failed) ;;;
  if failed then ret (true, context)
  else ret (false, context_setChunks context (<[index := []]> (Header_Chunks (Data_ context)))).

(** [context.Data.Header.Chunks[index]->Data.Copy(...)] *)
Definition Chunk_Copy (context : CreateAssetContext) (index : Z) (data : bytes)
    : M CreateAssetContext :=
  logEvent (EvChunkCopy index data) ;;;
  ret (context_setChunks context (<[index := data]> (Header_Chunks (Data_ context)))).

(** Modelled from the spec: the macro [IMPORT_SETUP] is missing from the
    sources at hand; the artifact is versioned, so the macro records the
    type name and the serialized version in the context. *)
Definition IMPORT_SETUP (context : CreateAssetContext) (typeName : string) (version : Z)
    : CreateAssetContext :=
  context_setType context typeName version.

(** The mesh loops at lines 458-465 and 511-518; [None] when a mesh
    fails to pack. *)
Fixpoint packMeshes (pack : MeshData → option bytes) (stream : MemoryWriteStream)
    (meshes : list MeshPtr) : M (option MemoryWriteStream) :=
  match meshes with
  | [] => ret (Some stream)
  | mesh :: rest =>
      m <- readMesh mesh ;;
      match pack m with
      | None => ret None
      | Some data => packMeshes pack (stream_Write stream data) rest
      end
  end.

(** The LOD loops at lines 452-471 and 502-524.  [prefix] is what is
    written after [SetPosition(0)] and before the meshes.  [inl] is the
    result of a [return] inside the loop. *)
Fixpoint packLODs (pack : MeshData → option bytes) (prefix : bytes)
    (context : CreateAssetContext) (stream : MemoryWriteStream)
    (lods : list ModelLodData) (lodIndex : Z)
    : M ((CreateAssetResult * CreateAssetContext) + (CreateAssetContext * MemoryWriteStream)) :=
  match lods with
  | [] => ret (inr (context, stream))
  | lod :: rest =>
      let stream := stream_SetPosition stream 0 in
      let stream := stream_Write stream prefix in
      packed <- packMeshes pack stream (Meshes lod) ;;
      match packed with
      | None => ret (inl (Error, context))
      | Some stream =>
          let chunkIndex := lodIndex + 1 in
          r <- AllocateChunk context chunkIndex ;;
          let '(failed, context) := r in
          if failed then ret (inl (CannotAllocateChunk, context))
          else
            context <- Chunk_Copy context chunkIndex (stream_data stream) ;;
            packLODs pack prefix context stream rest (lodIndex + 1)
      end
  end.

(** [ImportModel::CreateModel] (lines 438-486) *)
Definition CreateModel (context : CreateAssetContext) (modelData : DataRef)
    (options : option Options) : M (CreateAssetResult * CreateAssetContext) :=
  let context := IMPORT_SETUP context Model_TypeName Model_SerializedVersion in
  d <- readModel modelData ;;
  s <- get ;;
  let stream := stream_new in
  match ModelData_Pack2ModelHeader (heap s) d with
  | None => ret (Error, context)
  | Some header =>
      let stream := stream_Write stream header in
      r <- AllocateChunk context 0 ;;
      let '(failed, context) := r in
      if failed then ret (CannotAllocateChunk, context) else
      context <- Chunk_Copy context 0 (stream_data stream) ;;
      let lodCount := Z.of_nat (length (LODs d)) in
      r <- packLODs MeshData_Pack2Model [] context stream (LODs d) 0 ;;
      match r with
      | inl returned => ret returned
      | inr (context, stream) =>
          match options with
          | Some options =>
              if GenerateSDF options then
                let stream := stream_SetPosition stream 0 in
                s <- get ;;
                match ModelTool_GenerateModelSDF (heap s) d (SDFResolution options)
                        (lodCount - 1) (TargetAssetPath context) with
                | Some sdf =>
                    let stream := stream_Write stream sdf in
                    r <- AllocateChunk context 15 ;;
                    let '(failed, context) := r in
                    if failed then ret (CannotAllocateChunk, context)
                    else
                      context <- Chunk_Copy context 15 (stream_data stream) ;;
                      ret (Ok, context)
                | None => ret (Ok, context)
                end
              else ret (Ok, context)
          | None => ret (Ok, context)
          end
      end
  end.

(** [ImportModel::CreateSkinnedModel] (lines 488-527) *)
Definition CreateSkinnedModel (context : CreateAssetContext) (modelData : DataRef)
    (options : option Options) : M (CreateAssetResult * CreateAssetContext) :=
  let context := IMPORT_SETUP context SkinnedModel_TypeName SkinnedModel_SerializedVersion in
  d <- readModel modelData ;;
  s <- get ;;
  let stream := stream_new in
  match ModelData_Pack2SkinnedModelHeader (heap s) d with
  | None => ret (Error, context)
  | Some header =>
      let stream := stream_Write stream header in
      r <- AllocateChunk context 0 ;;
      let '(failed, context) := r in
      if failed then ret (CannotAllocateChunk, context) else
      context <- Chunk_Copy context 0 (stream_data stream) ;;
      r <- packLODs MeshData_Pack2SkinnedModel [Byte.x01] context stream (LODs d) 0 ;;
      match r with
      | inl returned => ret returned
      | inr (context, _) => ret (Ok, context)
      end
  end.

(** [ImportModel::CreateAnimation] (lines 529-543) *)
Definition CreateAnimation (context : CreateAssetContext) (modelData : DataRef)
    (options : option Options) : M (CreateAssetResult * CreateAssetContext) :=
  let context := IMPORT_SETUP context Animation_TypeName Animation_SerializedVersion in
  d <- readModel modelData ;;
  s <- get ;;
  let stream := stream_new in
  let animIndex :=
    match options with
    | Some options => if ObjectIndex options =? -1 then 0 else ObjectIndex options
    | None => 0
    end in
  match ModelData_Pack2AnimationHeader (heap s) d animIndex with
  | None => ret (Error, context)
  | Some header =>
      let stream := stream_Write stream header in
      r <- AllocateChunk context 0 ;;
      let '(failed, context) := r in
      if failed then ret (CannotAllocateChunk, context)
      else
        context <- Chunk_Copy context 0 (stream_data stream) ;;
        ret (Ok, context)
  end.

(** [ImportModel::Create] (lines 420-436).  [CustomArg] is the pointer
    to the model data, null when [None]. *)
Definition Create (context : CreateAssetContext) (CustomArg : option DataRef)
    : M (CreateAssetResult * CreateAssetContext) :=
  match CustomArg with
  | None => crash
  | Some modelData =>
      d <- readModel modelData ;;
      if match LODs d with
         | [] => true
         | lod0 :: _ => match Meshes lod0 with [] => true | _ => false end
         end
      then ret (Error, context)
      else
        writeModel modelData (ModelData_CalculateLODsScreenSizes d) ;;;
        CreateModel context modelData None
  end.

(** *** [ImportModel::Import] (lines 198-418) *)

(** Lines 200-214: the options of this import. *)
Definition Import_options (context : CreateAssetContext) (CustomArg : option Options)
    : M Options :=
  match CustomArg with
  | Some options => ret options
  | None =>
      s <- get ;;
      ret (snd (TryGetImportOptions (platform s) (TargetAssetPath context) Options_default))
  end.

(** A pointer the heap does not use yet, for a [New<MeshData>()] of the parser. *)
Definition newMesh (m : MeshData) : M MeshPtr :=
  s <- get ;;
  let p := fresh (dom (heap s)) in
  writeMesh p m ;;;
  ret p.

Fixpoint newMeshes (ms : list MeshData) : M (list MeshPtr) :=
  match ms with
  | [] => ret []
  | m :: rest => p <- newMesh m ;; ps <- newMeshes rest ;; ret (p :: ps)
  end.

Fixpoint newLODs (lods : list ParsedLod) : M (list ModelLodData) :=
  match lods with
  | [] => ret []
  | lod :: rest =>
      ps <- newMeshes (ParsedMeshes lod) ;;
      ls <- newLODs rest ;;
      ret (mkModelLodData (ParsedScreenSize lod) ps :: ls)
  end.

(** The name of the mesh behind a pointer, as the key selector of line
    236 reads it. *)
Definition nameOf (h : gmap MeshPtr MeshData) (x : MeshPtr) : string :=
  match h !! x with
  | Some m => Name m
  | None => EmptyString
  end.

(** Lines 233-242: grouping of the LOD 0 meshes by name. *)
Definition groupMeshesByName (h : gmap MeshPtr MeshData) (meshes : list MeshPtr) : MeshGroups :=
  QuickSort SortMeshGroups (GroupBy (nameOf h) meshes).

(** Lines 216-245: the model data and the mesh groups, parsed by this
    call into [dataThis] or taken from the cache.  [inl] is the result of
    the [return] at line 229. *)
Definition Import_load (this : DataRef) (context : CreateAssetContext) (options : Options)
    : M (CreateAssetResult + (DataRef * MeshGroups)) :=
  let data := match Cached options with Some cached => Data cached | None => None end in
  let meshesByNamePtr :=
    match Cached options with Some cached => MeshesByName cached | None => None end in
  match data with
  | None =>
      let autoImportOutput :=
        PathCombine (GetDirectoryName (TargetAssetPath context))
          (if String.eqb (SubAssetFolder options) EmptyString
           then GetFileNameWithoutExtension (InputPath context)
           else TrimTrailing (SubAssetFolder options)) in
      s <- get ;;
      let '(p, parsed) :=
        ModelTool_ImportModel (platform s) (InputPath context) options autoImportOutput in
      put (State_setPlatform s p) ;;;
      match parsed with
      | inl errorMsg => ret (inl Error)
      | inr parsed =>
          lods <- newLODs (ParsedLODs parsed) ;;
          writeModel this
            (mkModelData lods (ParsedMaterials parsed) (ParsedSkeleton parsed)
               (ParsedNodes parsed) (ParsedAnimations parsed)) ;;;
          s <- get ;;
          let meshesByNameThis :=
            match lods with
            | lod0 :: _ => groupMeshesByName (heap s) (Meshes lod0)
            | [] => []
            end in
          ret (inr (this, meshesByNameThis))
      end
  | Some data =>
      match meshesByNamePtr with
      | Some meshesByName => ret (inr (data, meshesByName))
      | None => crash
      end
  end.

(** The path label of a split object (lines 261-264): the part of the
    name after the last ['|']. *)
Definition postFixOf (objectName : string) : string :=
  let splitPos := FindLast objectName "|"%char in
  if splitPos =? -1 then objectName else Substring objectName (splitPos + 1).

(** The output path of a split object (line 265). *)
Definition splitOutputPath (context : CreateAssetContext) (objectName : string) : string :=
  (GetPathWithoutExtension (TargetAssetPath context) ++ " " ++ postFixOf objectName
   ++ ".flax")%string.

(** The callback [splitImport] (lines 258-267). *)
Definition splitImport (context : CreateAssetContext) (splitOptions : Options)
    (objectName : string) : M bool :=
  let outputPath := splitOutputPath context objectName in
  logEvent (EvImport (InputPath context) outputPath splitOptions) ;;;
  s <- get ;;
  let '(result, (h, f, p)) :=
    AssetsImportingManager_Import (InputPath context) outputPath splitOptions
      (heap s, frames s, platform s) in
  put (mkState h f p (events s)) ;;;
  ret result.

(** The indices [1 .. count - 1] of the loops at lines 274 and 283. *)
Definition indicesFrom1 (count : nat) : list Z :=
  map Z.of_nat (seq 1 (count - 1)).

(** Lines 247-291: the options this call goes on with. *)
Definition Import_split (context : CreateAssetContext) (options : Options)
    (data : DataRef) (meshesByName : MeshGroups) : M Options :=
  if SplitObjects options then
    let options := Options_setSplitObjects options false in
    let options := Options_setObjectIndex options 0 in
    let cached := mkCachedData (Some data) (Some meshesByName) in
    let options := Options_setCached options (Some cached) in
    let splitOptions := options in
    match Type_ options with
    | Model | SkinnedModel =>
        forM_ (indicesFrom1 (length meshesByName)) (λ groupIndex,
          group <- Array_at meshesByName groupIndex ;;
          splitImport context (Options_setObjectIndex splitOptions groupIndex) (GetKey group) ;;;
          ret tt)
    | Animation =>
        d <- readModel data ;;
        forM_ (indicesFrom1 (length (Animations d))) (λ i,
          d <- readModel data ;;
          animation <- Array_at (Animations d) i ;;
          splitImport context (Options_setObjectIndex splitOptions i) (Animation_Name animation) ;;;
          ret tt)
    end ;;;
    ret options
  else ret options.

(** [lod.Meshes = meshes] for [data.LODs[lodIndex]]. *)
Definition setLodMeshes (data : DataRef) (lodIndex : Z) (meshes : list MeshPtr) : M unit :=
  d <- readModel data ;;
  lod <- Array_at (LODs d) lodIndex ;;
  writeModel data
    (ModelData_setLODs d (<[Z.to_nat lodIndex := ModelLodData_setMeshes lod meshes]> (LODs d))).

(** [data.LODs.AddOne()] with its screen size and meshes set. *)
Definition addLod (data : DataRef) (lod : ModelLodData) : M unit :=
  d <- readModel data ;;
  writeModel data (ModelData_setLODs d (LODs d ++ [lod])).

(** Lines 302-333: [dataThis] is the parsed model; keep the group. *)
Definition selectFromParsed (this : DataRef) (group : IGrouping string MeshPtr)
    : M (list MeshPtr) :=
  dataThis <- readModel this ;;
  lod <- Array_at (LODs dataThis) 0 ;;
  let meshesToDelete := Meshes lod in
  let meshesToDelete :=
    fold_left (λ meshesToDelete mesh, Array_Remove mesh meshesToDelete)
      (Members group) meshesToDelete in
  setLodMeshes this 0 (Members group) ;;;
  meshesToDelete <-
    foldM (λ meshesToDelete lodIndex,
             dataThis <- readModel this ;;
             lod <- Array_at (LODs dataThis) lodIndex ;;
             let lodMeshes := Meshes lod in
             r <- foldM (λ acc lodMesh,
                           let '(kept, meshesToDelete) := acc in
                           m <- readMesh lodMesh ;;
                           if String.eqb (Name m) (GetKey group)
                           then ret (kept ++ [lodMesh], meshesToDelete)
                           else ret (kept, meshesToDelete ++ [lodMesh]))
                        lodMeshes ([], meshesToDelete) ;;
             setLodMeshes this lodIndex (fst r) ;;;
             ret (snd r))
          (indicesFrom1 (length (LODs dataThis))) meshesToDelete ;;
  dataThis <- readModel this ;;
  let materials := Materials dataThis in
  writeModel this (ModelData_setMaterials dataThis []) ;;;
  SetupMaterialSlots this materials ;;;
  ret meshesToDelete.

(** Lines 348-364: the further LODs of a group moved out of the shared
    model; the loop ends at the first LOD without a mesh of the group. *)
Fixpoint transferLODs (this data : DataRef) (group : IGrouping string MeshPtr)
    (lodIndices : list Z) : M unit :=
  match lodIndices with
  | [] => ret tt
  | lodIndex :: rest =>
      d <- readModel data ;;
      lod <- Array_at (LODs d) lodIndex ;;
      lodMeshes <-
        foldM (λ lodMeshes i,
                 lodMesh <- Array_at lodMeshes i ;;
                 m <- readMesh lodMesh ;;
                 if String.eqb (Name m) (GetKey group) then
                   d <- readModel data ;;
                   lod <- Array_at (LODs d) lodIndex ;;
                   setLodMeshes data lodIndex (Array_Remove lodMesh (Meshes lod)) ;;;
                   ret lodMeshes
                 else ret (delete (Z.to_nat i) lodMeshes))
              (reverse (map Z.of_nat (seq 0 (length (Meshes lod))))) (Meshes lod) ;;
      match lodMeshes with
      | [] => ret tt
      | _ =>
          addLod this (mkModelLodData (ScreenSize lod) lodMeshes) ;;;
          transferLODs this data group rest
      end
  end.

(** Lines 336-367: [dataThis] is built from the shared model. *)
Definition selectFromShared (this data : DataRef) (group : IGrouping string MeshPtr)
    : M unit :=
  d <- readModel data ;;
  dataThis <- readModel this ;;
  writeModel this (ModelData_setNodes (ModelData_setSkeleton dataThis (Skeleton d)) (Nodes d)) ;;;
  lod0 <- Array_at (LODs d) 0 ;;
  addLod this (mkModelLodData (ScreenSize lod0) (Members group)) ;;;
  forM_ (Members group) (λ mesh,
    d <- readModel data ;;
    lod0 <- Array_at (LODs d) 0 ;;
    setLodMeshes data 0 (Array_Remove mesh (Meshes lod0))) ;;;
  d <- readModel data ;;
  transferLODs this data group (indicesFrom1 (length (LODs d))) ;;;
  d <- readModel data ;;
  SetupMaterialSlots this (Materials d).

Definition isModelOrSkinnedModel (t : ModelType) : bool :=
  match t with
  | Model | SkinnedModel => true
  | Animation => false
  end.

(** Lines 293-370: the model data this call goes on with, and
    [meshesToDelete]. *)
Definition Import_select (this : DataRef) (options : Options) (data : DataRef)
    (meshesByName : MeshGroups) : M (DataRef * list MeshPtr) :=
  if (0 <=? ObjectIndex options)
     && (ObjectIndex options <? Z.of_nat (length meshesByName))
     && isModelOrSkinnedModel (Type_ options)
  then
    group <- Array_at meshesByName (ObjectIndex options) ;;
    if decide (this = data) then
      meshesToDelete <- selectFromParsed this group ;;
      ret (this, meshesToDelete)
    else
      selectFromShared this data group ;;;
      ret (this, [])
  else ret (data, []).

(** [Delete(mesh)] *)
Definition Delete (mesh : MeshPtr) : M unit :=
  readMesh mesh ;;;
  modify (λ s, State_setHeap s (delete mesh (heap s))).

(** Lines 404-415: the metadata of a successful import. *)
Definition importOptionsMeta (context : CreateAssetContext) (options : Options) : bytes :=
  CompactJsonWriter_GetString
    (JsonMembers_append (CreateAssetContext_AddMeta context) (Options_Serialize options)).

(** Lines 372-418. *)
Definition Import_finish (context : CreateAssetContext) (options : Options)
    (data : DataRef) (meshesToDelete : list MeshPtr)
    : M (CreateAssetResult * CreateAssetContext) :=
  d <- readModel data ;;
  (if RestoreMaterialsOnReimport options && negb (length (Materials d) =? 0)%nat
   then TryRestoreMaterials context data
   else ret tt) ;;;
  d <- readModel data ;;
  (if match Type_ options, LightmapUVsSource options, LODs d with
      | Model, Generate, lod0 :: _ => (1 <? length (Meshes lod0))%nat
      | _, _, _ => false
      end
   then RepackMeshLightmapUVs data
   else ret tt) ;;;
  r <- match Type_ options with
       | Model => CreateModel context data (Some options)
       | SkinnedModel => CreateSkinnedModel context data (Some options)
       | Animation => CreateAnimation context data (Some options)
       end ;;
  let '(result, context) := r in
  forM_ meshesToDelete Delete ;;;
  match result with
  | Ok => ret (Ok, context_setMetadata context (importOptionsMeta context options))
  | _ => ret (result, context)
  end.

(** The frame of the local [dataThis]: a reference the store does not
    use yet.  The frame stays in the store when the call returns, so the
    model data the call ended with can be read from the final state. *)
Definition newFrame : M DataRef :=
  s <- get ;;
  let this := fresh (dom (frames s)) in
  writeModel this ModelData_empty ;;;
  ret this.

(** Lines 247-418: the import once the model data is at hand. *)
Definition Import_loaded (this : DataRef) (context : CreateAssetContext) (options : Options)
    (data : DataRef) (meshesByName : MeshGroups)
    : M (CreateAssetResult * CreateAssetContext) :=
  options <- Import_split context options data meshesByName ;;
  selected <- Import_select this options data meshesByName ;;
  Import_finish context options (fst selected) (snd selected).

Definition Import (context : CreateAssetContext) (CustomArg : option Options)
    : M (CreateAssetResult * CreateAssetContext) :=
  options <- Import_options context CustomArg ;;
  this <- newFrame ;;
  loaded <- Import_load this context options ;;
  match loaded with
  | inl result => ret (result, context)
  | inr (data, meshesByName) => Import_loaded this context options data meshesByName
  end.

End ImportModel.

(** ** A reference engine, to run the pipeline on examples

    Exact rational arithmetic stands for [float]; the parser reads its
    scene from a table; the packers write the names of what they pack;
    the chunk table has sixteen slots; the rectangle packer splits a free
    region on insert. *)

Module Sample.

Definition Qsqrt (q : Q) : Q :=
  Qred (Z.sqrt (Qnum q * Z.pos (Qden q) * 1000000000000) # (Qden q * 1000000)).

Inductive RectNode :=
| NoNode
| mkRectNode (x y width height : Q) (used : bool) (l r : RectNode).

Fixpoint RectNode_Insert (n : RectNode) (itemWidth itemHeight itemPadding : Q)
    : option (Q * Q * Q * Q) * RectNode :=
  match n with
  | NoNode => (None, NoNode)
  | mkRectNode x y width height used l r =>
      let paddedWidth := Qred (itemWidth + itemPadding) in
      let paddedHeight := Qred (itemHeight + itemPadding) in
      if negb used && Qeq_bool width paddedWidth && Qeq_bool height paddedHeight then
        (Some (x, y, width, height), mkRectNode x y width height true l r)
      else
        let '(inLeft, l') := RectNode_Insert l itemWidth itemHeight itemPadding in
        match inLeft with
        | Some slot => (Some slot, mkRectNode x y width height used l' r)
        | None =>
            let '(inRight, r') := RectNode_Insert r itemWidth itemHeight itemPadding in
            match inRight with
            | Some slot => (Some slot, mkRectNode x y width height used l' r')
            | None =>
                if used || negb (Qle_bool paddedWidth width) || negb (Qle_bool paddedHeight height)
                then (None, mkRectNode x y width height used l' r')
                else
                  let remainingWidth := Qred (width - paddedWidth) in
                  let remainingHeight := Qred (height - paddedHeight) in
                  let '(l2, r2) :=
                    if Qle_bool remainingHeight remainingWidth then
                      (mkRectNode x (Qred (y + paddedHeight)) paddedWidth remainingHeight false NoNode NoNode,
                       mkRectNode (Qred (x + paddedWidth)) y remainingWidth height false NoNode NoNode)
                    else
                      (mkRectNode (Qred (x + paddedWidth)) y remainingWidth paddedHeight false NoNode NoNode,
                       mkRectNode x (Qred (y + paddedHeight)) width remainingHeight false NoNode NoNode) in
                  (Some (x, y, paddedWidth, paddedHeight),
                   mkRectNode x y paddedWidth paddedHeight true l2 r2)
            end
        end
  end.

(** The files the content database knows: type name, serialized
    version and metadata of the single entry of each. *)
Record StoredAsset := mkStoredAsset {
  StoredTypeName : string;
  StoredVersion : Z;
  StoredMetadata : bytes;
  StoredSlots : list (string * Z * Z);
}.

#[export] Instance types : EngineTypes := {|
  Float := Q;
  flit := Qred;
  fadd := λ a b, Qred (a + b);
  fsub := λ a b, Qred (a - b);
  fmul := λ a b, Qred (a * b);
  fdiv := λ a b, Qred (a / b);
  fsqrt := Qsqrt;
  fgt := λ a b, negb (Qle_bool a b);
  ZeroTolerance := (1 # 1000000)%Q;
  MeshBuffers := Q;
  SkeletonData := unit;
  SkeletonData_empty := tt;
  NodeData := string;
  AnimationData := string;
  Platform := gmap string StoredAsset;
  FlaxStorage := StoredAsset;
  Asset := StoredAsset;
  JsonMembers := list (string * string);
  JsonMembers_append := app;
  RectPackNode := RectNode;
|}.

Definition mesh (name : string) (slot : Z) (area : Q) : MeshData :=
  mkMeshData name slot [mkFloat2 0%Q 0%Q; mkFloat2 1%Q 1%Q] area.

Definition slot (name : string) : MaterialSlotEntry := mkMaterialSlotEntry name 0 0.

(** The scenes behind the source paths of the examples. *)
Definition scene (path : string) : string + ParsedModel :=
  if String.eqb path "two.fbx" then
    inr (mkParsedModel
           [mkParsedLod 1%Q [mesh "B" 1 4%Q; mesh "A" 0 1%Q]]
           [slot "red"; slot "blue"] tt [] [])
  else if String.eqb path "three.fbx" then
    inr (mkParsedModel
           [mkParsedLod 1%Q [mesh "C" 2 1%Q; mesh "A" 0 1%Q; mesh "B" 1 1%Q; mesh "A" 2 1%Q]]
           [slot "red"; slot "blue"; slot "green"] tt [] [])
  else inl "cannot open file"%string.

Definition renderBool (b : bool) : string := if b then "true" else "false".

Definition renderType (t : ModelType) : string :=
  match t with
  | Model => "0"
  | SkinnedModel => "1"
  | Animation => "2"
  end.

Definition renderMember (m : string * string) : string :=
  (fst m ++ ":" ++ snd m)%string.

(** The text of an object: [{key:value,key:value}]. *)
Definition renderObject (members : list (string * string)) : string :=
  ("{" ++ String.concat "," (map renderMember members) ++ "}")%string.

Definition serialize (o : Options) : list (string * string) :=
  [("Type"%string, renderType (Type_ o));
   ("SplitObjects"%string, renderBool (SplitObjects o));
   ("ObjectIndex"%string, pretty (ObjectIndex o));
   ("RestoreMaterialsOnReimport"%string, renderBool (RestoreMaterialsOnReimport o));
   ("GenerateSDF"%string, renderBool (GenerateSDF o))].

(** The pieces of [s] between the separators [sep]. *)
Fixpoint splitOn (sep : ascii) (s : string) : list string :=
  match s with
  | EmptyString => [EmptyString]
  | String c s' =>
      if Ascii.eqb c sep then EmptyString :: splitOn sep s'
      else match splitOn sep s' with
           | piece :: pieces => String c piece :: pieces
           | [] => [String c EmptyString]
           end
  end.

Definition parseMember (s : string) : option (string * string) :=
  match splitOn ":" s with
  | [key; value] => Some (key, value)
  | _ => None
  end.

Fixpoint parseMembers (pieces : list string) : option (list (string * string)) :=
  match pieces with
  | [] => Some []
  | piece :: rest =>
      match parseMember piece, parseMembers rest with
      | Some m, Some ms => Some (m :: ms)
      | _, _ => None
      end
  end.

(** The members of a text [{key:value,key:value}]. *)
Definition parseObject (text : string) : option (list (string * string)) :=
  match text with
  | String "{" body =>
      match String.length body with
      | S n =>
          if String.eqb (String.substring n 1 body) "}"
          then parseMembers (splitOn "," (String.substring 0 n body))
          else None
      | O => None
      end
  | _ => None
  end.

Fixpoint lookupMember (key : string) (members : list (string * string)) : option string :=
  match members with
  | [] => None
  | (k, v) :: rest => if String.eqb k key then Some v else lookupMember key rest
  end.

Fixpoint parseDigits (s : string) (acc : Z) : Z :=
  match s with
  | EmptyString => acc
  | String c s' => parseDigits s' (10 * acc + (Z.of_N (N_of_ascii c) - 48))
  end.

Definition parseInt (s : string) : Z :=
  match s with
  | String "-" digits => - parseDigits digits 0
  | _ => parseDigits s 0
  end.

Definition deserialize (members : list (string * string)) (o : Options) : Options :=
  let o :=
    match lookupMember "Type" members with
    | Some v =>
        mkOptions (if String.eqb v "1" then SkinnedModel
                   else if String.eqb v "2" then Animation else Model)
          (SplitObjects o) (ObjectIndex o) (RestoreMaterialsOnReimport o)
          (LightmapUVsSource o) (GenerateSDF o) (SDFResolution o) (SubAssetFolder o) (Cached o)
    | None => o
    end in
  let o :=
    match lookupMember "SplitObjects" members with
    | Some v => Options_setSplitObjects o (String.eqb v "true")
    | None => o
    end in
  let o :=
    match lookupMember "ObjectIndex" members with
    | Some v => Options_setObjectIndex o (parseInt v)
    | None => o
    end in
  let o :=
    match lookupMember "RestoreMaterialsOnReimport" members with
    | Some v =>
        mkOptions (Type_ o) (SplitObjects o) (ObjectIndex o) (String.eqb v "true")
          (LightmapUVsSource o) (GenerateSDF o) (SDFResolution o) (SubAssetFolder o) (Cached o)
    | None => o
    end in
  match lookupMember "GenerateSDF" members with
  | Some v =>
      mkOptions (Type_ o) (SplitObjects o) (ObjectIndex o) (RestoreMaterialsOnReimport o)
        (LightmapUVsSource o) (String.eqb v "true") (SDFResolution o) (SubAssetFolder o) (Cached o)
  | None => o
  end.

(** The path up to its last dot. *)
Definition withoutExtension (path : string) : string :=
  let dot := FindLast path "."%char in
  if dot =? -1 then path else String.substring 0 (Z.to_nat dot) path.

Definition defaults : Options :=
  mkOptions Model false (-1) true LightmapDisable false (128 # 1)%Q EmptyString None.

Definition storedSlot (s : string * Z * Z) : MaterialSlotEntry :=
  mkMaterialSlotEntry (fst (fst s)) (snd (fst s)) (snd s).

(** The engine around a given import orchestrator. *)
Definition engineWith
    (orchestrator :
       string → string → Options →
       gmap MeshPtr MeshData * gmap DataRef ModelData * Platform →
       bool * (gmap MeshPtr MeshData * gmap DataRef ModelData * Platform))
    (insert : RectNode → Q → Q → Q → option (Q * Q * Q * Q) * RectNode)
    : Engine := {|
  FileExists := λ p path, bool_decide (is_Some (p !! path));
  GetStorage := λ p path, p !! path;
  GetEntriesCount := λ _, 1;
  GetEntry_TypeName := λ st _, StoredTypeName st;
  LoadAssetHeader := λ st _,
    Some (mkAssetInitData (StoredTypeName st) ∅ (StoredVersion st) (StoredMetadata st));
  Model_TypeName := "FlaxEngine.Model";
  SkinnedModel_TypeName := "FlaxEngine.SkinnedModel";
  Animation_TypeName := "FlaxEngine.Animation";
  Model_SerializedVersion := 25;
  SkinnedModel_SerializedVersion := 5;
  Animation_SerializedVersion := 1;
  Document_Parse := λ text, parseObject (string_of_list_byte text);
  Options_Deserialize := deserialize;
  Options_Serialize := serialize;
  CreateAssetContext_AddMeta := λ context, [("ImportPath"%string, InputPath context)];
  CompactJsonWriter_GetString := λ members, list_byte_of_string (renderObject members);
  Options_default := defaults;
  GetDirectoryName := λ path, path;
  GetFileNameWithoutExtension := λ path, path;
  GetPathWithoutExtension := withoutExtension;
  TrimTrailing := λ path, path;
  PathCombine := λ a b, (a ++ "/" ++ b)%string;
  ModelTool_ImportModel := λ p path _ _, (p, scene path);
  AssetsImportingManager_Import := orchestrator;
  Content_LoadAsync := λ p path, p !! path;
  Asset_WaitForLoaded := λ _, false;
  Asset_GetTypeName := StoredTypeName;
  ModelBase_MaterialSlots := λ a, map storedSlot (StoredSlots a);
  MeshData_CalculateTrianglesArea := λ m, Buffers m;
  RectPack_new := λ x y w h, mkRectNode x y w h false NoNode NoNode;
  RectPack_Insert := λ n w h padding,
    let '(r, n') := insert n w h padding in
    (match r with
     | Some (x, y, w, h) => Some (mkRectSlot x y w h)
     | None => None
     end, n');
  ModelData_CalculateLODsScreenSizes := λ d, d;
  ModelData_Pack2ModelHeader := λ h d,
    match LODs d with
    | [] => None
    | _ => Some (list_byte_of_string (String.concat "," (map SlotName (Materials d))))
    end;
  ModelData_Pack2SkinnedModelHeader := λ h d,
    match LODs d with
    | [] => None
    | _ => Some (list_byte_of_string (String.concat "," (map SlotName (Materials d))))
    end;
  ModelData_Pack2AnimationHeader := λ h d index,
    option_map list_byte_of_string (Animations d !! Z.to_nat index);
  MeshData_Pack2Model := λ m, Some (list_byte_of_string (Name m));
  MeshData_Pack2SkinnedModel := λ m, Some (list_byte_of_string (Name m));
  ModelTool_GenerateModelSDF := λ _ _ _ _ _, None;
  AllocateChunk_fails := λ chunks index,
    negb ((0 <=? index) && (index <? 16)) || bool_decide (is_Some (chunks !! index));
  Animation_Name := λ a, a;
|}.

Definition context (input target : string) : CreateAssetContext :=
  mkCreateAssetContext input target AssetInitData_empty.

(** The engine of a sibling import: it cannot split further, its
    orchestrator refuses every request. *)
Definition sibling : Engine := engineWith (λ _ _ _ st, (true, st)) RectNode_Insert.

(** What the storage keeps of a finished artifact. *)
Definition stored (c : CreateAssetContext) (d : option ModelData) : StoredAsset :=
  mkStoredAsset (Header_TypeName (Data_ c)) (SerializedVersion (Data_ c)) (Metadata (Data_ c))
    (match d with
     | Some d => map (λ m, (SlotName m, ShadowsMode m, AssetID m)) (Materials d)
     | None => []
     end).

(** The orchestrator runs the sibling import to its end and stores the
    artifact; it answers true when the import failed. *)
Definition orchestrate (input output : string) (options : Options)
    (st : gmap MeshPtr MeshData * gmap DataRef ModelData * Platform)
    : bool * (gmap MeshPtr MeshData * gmap DataRef ModelData * Platform) :=
  let '(h, f, p) := st in
  match @Import types sibling (context input output) (Some options) (mkState h f p []) with
  | Some ((Ok, c), s) =>
      (false, (heap s, frames s,
               <[output := stored c (frames s !! fresh (dom f))]> (platform s)))
  | _ => (true, st)
  end.

#[export] Instance engine : Engine := engineWith orchestrate RectNode_Insert.

(** The same engine around a rectangle packer that never finds room. *)
Definition crowded : Engine := engineWith orchestrate (λ n _ _ _, (None, n)).

Definition start : State := mkState ∅ ∅ ∅ [].

End Sample.

(** ** Vocabulary of the statements *)

Section Vocabulary.
Context `{E : Engine}.

(** What lines 31-37 accept: the entry is a model, a skinned model or an
    animation of a recent enough version. *)
Definition acceptedEntry (tmpFile : FlaxStorage) (data : AssetInitData) : Prop :=
  (GetEntry_TypeName tmpFile 0 = Model_TypeName ∧ 4 ≤ SerializedVersion data)
  ∨ (GetEntry_TypeName tmpFile 0 = SkinnedModel_TypeName ∧ 1 ≤ SerializedVersion data)
  ∨ (GetEntry_TypeName tmpFile 0 = Animation_TypeName ∧ 1 ≤ SerializedVersion data).

(** The buffers of the meshes of a LOD, packed one after the other. *)
Fixpoint packedMeshes (pack : MeshData → option bytes) (h : gmap MeshPtr MeshData)
    (meshes : list MeshPtr) : option bytes :=
  match meshes with
  | [] => Some []
  | mesh :: rest =>
      match h !! mesh with
      | Some m =>
          match pack m, packedMeshes pack h rest with
          | Some data, Some more => Some (data ++ more)
          | _, _ => None
          end
      | None => None
      end
  end.

(** The events of a LOD loop that ran to its end: for the LOD at
    position [k] chunk [lodIndex + k + 1] is allocated, then it gets
    [prefix] followed by the buffer of that LOD. *)
Fixpoint lodEvents (prefix : bytes) (lodIndex : Z) (buffers : list bytes) : list Event :=
  match buffers with
  | [] => []
  | buffer :: rest =>
      EvAllocateChunk (lodIndex + 1) false
      :: EvChunkCopy (lodIndex + 1) (prefix ++ buffer)
      :: lodEvents prefix (lodIndex + 1) rest
  end.

(** Some chunk allocation among the events failed. *)
Definition allocationFailed (evs : list Event) : Prop :=
  ∃ index, EvAllocateChunk index true ∈ evs.

(** The write position of a stream lies inside its buffer. *)
Definition stream_ok (st : MemoryWriteStream) : Prop :=
  (stream_position st ≤ length (stream_buffer st))%nat.

(** The key of the group at an index, as line 278 reads it. *)
Definition groupKeyAt (meshesByName : MeshGroups) (groupIndex : Z) : string :=
  match meshesByName !! Z.to_nat groupIndex with
  | Some group => GetKey group
  | None => EmptyString
  end.

(** The options a splitting import goes on with (lines 251-256). *)
Definition firstObjectOptions (options : Options) (data : DataRef)
    (meshesByName : MeshGroups) : Options :=
  Options_setCached
    (Options_setObjectIndex (Options_setSplitObjects options false) 0)
    (Some (mkCachedData (Some data) (Some meshesByName))).

(** The orchestrator call for the group at an index (lines 276-278). *)
Definition splitCall (context : CreateAssetContext) (options : Options) (data : DataRef)
    (meshesByName : MeshGroups) (groupIndex : Z) : Event :=
  EvImport (InputPath context)
    (splitOutputPath context (groupKeyAt meshesByName groupIndex))
    (Options_setObjectIndex (firstObjectOptions options data meshesByName) groupIndex).

(** Every pointer of the list is a live mesh. *)
Definition allocated (h : gmap MeshPtr MeshData) (meshes : list MeshPtr) : Prop :=
  Forall (λ mesh, is_Some (h !! mesh)) meshes.

(** The area [CalculateTrianglesArea] computes for the mesh behind a pointer. *)
Definition areaOf (h : gmap MeshPtr MeshData) (mesh : MeshPtr) : Float :=
  match h !! mesh with
  | Some m => MeshData_CalculateTrianglesArea m
  | None => flit 0
  end.

(** [areaSum] after the loop at lines 80-87. *)
Definition totalArea (h : gmap MeshPtr MeshData) (meshes : list MeshPtr) : Float :=
  fold_left (λ areaSum mesh, fadd areaSum (areaOf h mesh)) meshes (flit 0).

(** [entries] after the loop at lines 80-87. *)
Definition entriesOf (h : gmap MeshPtr MeshData) (meshes : list MeshPtr) : list MeshEntry :=
  map (λ mesh, mkMeshEntry mesh (areaOf h mesh) (fsqrt (areaOf h mesh))) meshes.

(** The atlas sizes of the first [n] passes: each is 1.5 times the one before. *)
Fixpoint atlasSizes (n : nat) (atlasSize : Float) : list Float :=
  match n with
  | O => []
  | S n => atlasSize :: atlasSizes n (fmul atlasSize (flit (15 # 10)%Q))
  end.

(** The chunk table after a LOD loop that ran to its end: the LOD at
    position [k] left [prefix] and its buffer in chunk [lodIndex + k + 1]. *)
Fixpoint lodChunks (prefix : bytes) (lodIndex : Z) (buffers : list bytes)
    (chunks : gmap Z bytes) : gmap Z bytes :=
  match buffers with
  | [] => chunks
  | buffer :: rest =>
      lodChunks prefix (lodIndex + 1) rest (<[lodIndex + 1 := prefix ++ buffer]> chunks)
  end.

(** The animation [CreateAnimation] packs (line 535). *)
Definition animIndexOf (options : option Options) : Z :=
  match options with
  | Some options => if ObjectIndex options =? -1 then 0 else ObjectIndex options
  | None => 0
  end.

(** The signed distance field [CreateModel] gets to write: none unless
    the options ask for one and the generator succeeds (lines 474-477). *)
Definition sdfOf (context : CreateAssetContext) (options : option Options)
    (h : gmap MeshPtr MeshData) (d : ModelData) : option bytes :=
  match options with
  | Some options =>
      if GenerateSDF options
      then ModelTool_GenerateModelSDF h d (SDFResolution options)
             (Z.of_nat (length (LODs d)) - 1) (TargetAssetPath context)
      else None
  | None => None
  end.

(** The create function of a model type (lines 387-398). *)
Definition createFor (t : ModelType)
    : CreateAssetContext → DataRef → option Options →
      M (CreateAssetResult * CreateAssetContext) :=
  match t with
  | Model => CreateModel
  | SkinnedModel => CreateSkinnedModel
  | Animation => CreateAnimation
  end.

(** The folder the parser imports materials and textures into
    (lines 224-225). *)
Definition autoImportOutputOf (context : CreateAssetContext) (options : Options) : string :=
  PathCombine (GetDirectoryName (TargetAssetPath context))
    (if String.eqb (SubAssetFolder options) EmptyString
     then GetFileNameWithoutExtension (InputPath context)
     else TrimTrailing (SubAssetFolder options)).

(** The data pointer of the cache of the options, null when [None]
    (line 217). *)
Definition cachedDataOf (options : Options) : option DataRef :=
  match Cached options with
  | Some cached => Data cached
  | None => None
  end.

(** What the UV transform leaves of a mesh: everything but the values
    of its lightmap UVs, whose number stays (lines 120-123). *)
Definition sameButLightmapUVs (m m' : MeshData) : Prop :=
  Name m' = Name m
  ∧ MaterialSlotIndex m' = MaterialSlotIndex m
  ∧ Buffers m' = Buffers m
  ∧ length (LightmapUVs m') = length (LightmapUVs m).

(** The meshes of a model in the order the loops at lines 178-190 meet
    them: LOD after LOD. *)
Definition meshesOf (d : ModelData) : list MeshPtr :=
  concat (map Meshes (LODs d)).

(** A mesh whose material slot index lies inside a table of [n] slots. *)
Definition slotInRange (h : gmap MeshPtr MeshData) (n : nat) (mesh : MeshPtr) : Prop :=
  ∃ m, h !! mesh = Some m ∧ 0 ≤ MaterialSlotIndex m < Z.of_nat n.

(** The slot a mesh uses in a table. *)
Definition slotUsedBy (h : gmap MeshPtr MeshData) (materials : list MaterialSlotEntry)
    (mesh : MeshPtr) (entry : MaterialSlotEntry) : Prop :=
  ∃ m, h !! mesh = Some m ∧ materials !! Z.to_nat (MaterialSlotIndex m) = Some entry.

(** [meshesToDelete] / the meshes of a LOD once the meshes of a group
    went out of it, one [Array::Remove] after the other (lines 307-311
    and 345-346). *)
Definition withoutGroup (group : IGrouping string MeshPtr) (meshes : list MeshPtr)
    : list MeshPtr :=
  fold_left (λ meshes mesh, Array_Remove mesh meshes) (Members group) meshes.

(** Whether a character occurs in a string. *)
Fixpoint hasChar (c : ascii) (s : string) : bool :=
  match s with
  | EmptyString => false
  | String d s' => Ascii.eqb d c || hasChar c s'
  end.

End Vocabulary.

Section Vocabulary_of_groups.
Context {K A : Type} `{EqDecision K} (f : A → K).

(** What holds of the groups once the elements of [l] went in: the keys
    are distinct, a group holds the elements of its key in their order
    and is not empty, and every element has its group. *)
Definition grouped (l : list A) (groups : list (IGrouping K A)) : Prop :=
  NoDup (map GetKey groups)
  ∧ (∀ g, g ∈ groups → Members g = filter (λ x, f x = GetKey g) l ∧ Members g ≠ [])
  ∧ (∀ x, x ∈ l → f x ∈ map GetKey groups).

End Vocabulary_of_groups.

(** ** Inputs of the examples *)

Module Examples.
Import Sample.

(** What a run left behind: its state, its context, its value. *)
Definition stateOf {A} (run : option (A * State)) : State :=
  match run with
  | Some (_, s) => s
  | None => start
  end.

Definition contextOf (run : option (CreateAssetResult * CreateAssetContext * State))
    : CreateAssetContext :=
  match run with
  | Some ((_, c), _) => c
  | None => context EmptyString EmptyString
  end.

Definition valueOf {A} (default : A) (run : option (A * State)) : A :=
  match run with
  | Some (a, _) => a
  | None => default
  end.

(** Tests on a run: it returned [Ok]; it returned; it returned [a]. *)
Definition returnedOk (run : option (CreateAssetResult * CreateAssetContext * State)) : bool :=
  match run with
  | Some ((Ok, _), _) => true
  | _ => false
  end.

Definition returned {A} (run : option (A * State)) : bool :=
  match run with
  | Some _ => true
  | None => false
  end.

Definition returnedValue {A} `{EqDecision A} (a : A) (run : option (A * State)) : bool :=
  match run with
  | Some (a', _) => bool_decide (a' = a)
  | None => false
  end.

(** Four meshes that use the slots 0, 2, 2 and 5 of a table of six,
    in one LOD of a model whose own table has just been cleared. *)
Definition sixSlots : list MaterialSlotEntry :=
  [slot "m0"; slot "m1"; slot "m2"; slot "m3"; slot "m4"; slot "m5"].

Definition fourMeshes : State :=
  mkState
    (list_to_map [(0%nat, mesh "a" 0 1%Q); (1%nat, mesh "b" 2 1%Q);
                  (2%nat, mesh "c" 2 1%Q); (3%nat, mesh "d" 5 1%Q)])
    {[ 0%nat := mkModelData [mkModelLodData 1%Q [0; 1; 2; 3]%nat] [] tt [] [] ]}
    ∅ [].

(** A frame with a default-constructed model: no LOD at all. *)
Definition noLods : State := mkState ∅ {[ 0%nat := ModelData_empty ]} ∅ [].

(** A model of two LODs, a body and a head in each, with two slots. *)
Definition twoLodsModel : ModelData :=
  mkModelData
    [mkModelLodData 1%Q [0; 1]%nat; mkModelLodData (1 # 2)%Q [2; 3]%nat]
    [slot "skin"; slot "hair"] tt [] [].

Definition twoLods : State :=
  mkState
    (list_to_map [(0%nat, mesh "body" 0 4%Q); (1%nat, mesh "head" 1 1%Q);
                  (2%nat, mesh "body" 0 4%Q); (3%nat, mesh "head" 1 1%Q)])
    {[ 0%nat := twoLodsModel ]}
    ∅ [].

(** One LOD with two meshes of area 4 and 1, and the same with
    meshes without area. *)
Definition twoCharts (area0 area1 : Q) : State :=
  mkState
    (list_to_map [(0%nat, mesh "body" 0 area0); (1%nat, mesh "head" 1 area1)])
    {[ 0%nat := mkModelData [mkModelLodData 1%Q [0; 1]%nat]
                  [slot "skin"; slot "hair"] tt [] [] ]}
    ∅ [].

(** Four meshes named A, B, A, C. *)
Definition fourNames : gmap MeshPtr MeshData :=
  list_to_map [(0%nat, mesh "A" 0 1%Q); (1%nat, mesh "B" 0 1%Q);
               (2%nat, mesh "A" 0 1%Q); (3%nat, mesh "C" 0 1%Q)].

(** The import of a scene with [SplitObjects] set, and the state once
    the scene is parsed into the frame 0. *)
Definition splitting : Options := Options_setSplitObjects defaults true.

Definition loaded (input target : string) : State :=
  match (this <- newFrame ;; Import_load this (context input target) splitting) start with
  | Some (_, s) => s
  | None => start
  end.

Definition groupsOf (s : State) : MeshGroups :=
  match frames s !! 0%nat with
  | Some d =>
      match LODs d with
      | lod0 :: _ => groupMeshesByName (heap s) (Meshes lod0)
      | [] => []
      end
  | None => []
  end.

(** The meshes of LOD 0 and the number of material slots of a frame. *)
Definition lod0Meshes (s : State) (r : DataRef) : option (list MeshPtr) :=
  match frames s !! r with
  | Some d => match LODs d with lod0 :: _ => Some (Meshes lod0) | [] => None end
  | None => None
  end.

Definition slotNames (s : State) (r : DataRef) : option (list string) :=
  match frames s !! r with
  | Some d => Some (map SlotName (Materials d))
  | None => None
  end.

(** The model of [twoCharts], the group of its head, and a state in
    which it is the shared model of a splitting import: frame 0 holds
    it, frame 1 is the empty frame of a sibling call. *)
Definition twoChartsModel : ModelData :=
  mkModelData [mkModelLodData 1%Q [0; 1]%nat] [slot "skin"; slot "hair"] tt [] [].

Definition chartsLod : ModelLodData := mkModelLodData 1%Q [0; 1]%nat.

Definition headGroup : IGrouping string MeshPtr := mkIGrouping "head"%string [1%nat].

Definition shared : State :=
  mkState (heap (twoCharts 4 1))
    (<[1%nat := ModelData_empty]> {[ 0%nat := twoChartsModel ]}) ∅ [].

(** An asset of an earlier import at the target path, and the state of
    [twoLods] on a platform that has it. *)
Definition previous : StoredAsset :=
  mkStoredAsset "FlaxEngine.Model" 25
    (list_byte_of_string
       "{Type:1,SplitObjects:false,ObjectIndex:-1,RestoreMaterialsOnReimport:false,GenerateSDF:false}")
    [("steel"%string, 1, 7)].

Definition previousHeader : AssetInitData :=
  mkAssetInitData (StoredTypeName previous) ∅ (StoredVersion previous)
    (StoredMetadata previous).

Definition previousMembers : list (string * string) :=
  default [] (parseObject (string_of_list_byte (StoredMetadata previous))).

Definition reimported : State :=
  mkState (heap twoLods) (frames twoLods) {[ "out/two.flax"%string := previous ]} [].

End Examples.

(** * Properties *)

(** ** The monad *)

Section Monad_facts.
Context `{T : EngineTypes}.

Lemma bind_Some {A B} (m : M A) (k : A → M B) s r :
  bind m k s = Some r ↔ ∃ a s1, m s = Some (a, s1) ∧ k a s1 = Some r.
Proof.
  unfold bind. destruct (m s) as [[a s1]|]; split.
  - intros H. eauto.
  - intros (a' & s' & Heq & H). congruence.
  - discriminate.
  - intros (a' & s' & Heq & _). discriminate.
Qed.

Lemma bind_eq {A B} (m : M A) (k : A → M B) s a s1 :
  m s = Some (a, s1) → bind m k s = k a s1.
Proof. unfold bind. intros ->. reflexivity. Qed.

Lemma readMesh_Some p s m s1 :
  readMesh p s = Some (m, s1) ↔ heap s !! p = Some m ∧ s1 = s.
Proof.
  unfold readMesh, bind, get, liftOpt, ret, crash.
  destruct (heap s !! p); split; intros H; try discriminate.
  - inversion H. auto.
  - destruct H as [H ->]. congruence.
  - destruct H. discriminate.
Qed.

Lemma readModel_Some r s d s1 :
  readModel r s = Some (d, s1) ↔ frames s !! r = Some d ∧ s1 = s.
Proof.
  unfold readModel, bind, get, liftOpt, ret, crash.
  destruct (frames s !! r); split; intros H; try discriminate.
  - inversion H. auto.
  - destruct H as [H ->]. congruence.
  - destruct H. discriminate.
Qed.

Lemma readModel_eq r s d : frames s !! r = Some d → readModel r s = Some (d, s).
Proof. intros H. apply readModel_Some. auto. Qed.

Lemma readMesh_eq p s m : heap s !! p = Some m → readMesh p s = Some (m, s).
Proof. intros H. apply readMesh_Some. auto. Qed.

Lemma Array_at_Some {A} (l : list A) index s a s1 :
  Array_at l index s = Some (a, s1) ↔
  0 ≤ index ∧ l !! Z.to_nat index = Some a ∧ s1 = s.
Proof.
  unfold Array_at, liftOpt, ret, crash.
  destruct (0 <=? index) eqn:H0; destruct (index <? Z.of_nat (length l)) eqn:H1; simpl.
  - destruct (l !! Z.to_nat index) eqn:Hl; split; intros H.
    + inversion H. subst. split; [lia | auto].
    + destruct H as (_ & H & ->). congruence.
    + discriminate.
    + destruct H as (_ & H & _). discriminate.
  - split; [discriminate|]. intros (_ & H & _).
    apply lookup_lt_Some in H. lia.
  - split; [discriminate|]. intros (H & _). lia.
  - split; [discriminate|]. intros (H & _). lia.
Qed.

Lemma Array_at_eq {A} (l : list A) (i : nat) a s :
  l !! i = Some a → Array_at l (Z.of_nat i) s = Some (a, s).
Proof.
  intros H. apply Array_at_Some. rewrite Nat2Z.id. split; [lia | auto].
Qed.

End Monad_facts.

Section Run_facts.
Import Sample Examples.

Lemma returnedOk_eq run :
  returnedOk run = true → run = Some ((Ok, contextOf run), stateOf run).
Proof. destruct run as [[[[] c] s]|]; simpl; intros H; congruence. Qed.

Lemma returned_eq {A} (default : A) (run : option (A * State)) :
  returned run = true → run = Some (valueOf default run, stateOf run).
Proof. destruct run as [[a s]|]; simpl; intros H; congruence. Qed.

Lemma returnedValue_eq {A} `{EqDecision A} (a : A) (run : option (A * State)) :
  returnedValue a run = true → run = Some (a, stateOf run).
Proof.
  destruct run as [[a' s]|]; simpl; intros H; [|discriminate].
  apply bool_decide_eq_true in H. subst. reflexivity.
Qed.

End Run_facts.

(** Peels the next [bind] of a hypothesis [H : (x <- m ;; k) s = Some r]. *)
Ltac inv_bind H :=
  let a := fresh "a" in
  let s1 := fresh "s" in
  let H1 := fresh H in
  apply bind_Some in H; destruct H as (a & s1 & H1 & H).

(** ** Restoring the import options *)

Section TryGetImportOptions_facts.
Context `{E : Engine}.

Lemma headerCheck_true tmpFile typeName minVersion data data' :
  headerCheck tmpFile typeName minVersion data = (true, data') →
  GetEntry_TypeName tmpFile 0 = typeName ∧
  LoadAssetHeader tmpFile 0 = Some data' ∧
  minVersion ≤ SerializedVersion data'.
Proof.
  unfold headerCheck.
  destruct (String.eqb_spec (GetEntry_TypeName tmpFile 0) typeName); [|congruence].
  destruct (LoadAssetHeader tmpFile 0); [|congruence].
  intros H. inversion H. subst. split; [auto | split; [auto | lia]].
Qed.

Lemma headerCheck_complete tmpFile typeName minVersion data loaded :
  GetEntry_TypeName tmpFile 0 = typeName →
  LoadAssetHeader tmpFile 0 = Some loaded →
  minVersion ≤ SerializedVersion loaded →
  headerCheck tmpFile typeName minVersion data = (true, loaded).
Proof.
  intros Ht Hl Hv. unfold headerCheck. rewrite Hl.
  destruct (String.eqb_spec (GetEntry_TypeName tmpFile 0) typeName); [|congruence].
  f_equal. lia.
Qed.

(** C10. [TryGetImportOptions] answers true only when the file exists,
    its storage holds exactly one entry, that entry is a Model of
    serialized version 4 or more, or a SkinnedModel or an Animation of
    version 1 or more, and its metadata parses; the options are then the
    deserialized ones.  Whenever it answers false the options are the
    ones passed in.  Conversely a file with such a storage, a header that
    loads and metadata that parse makes it answer true. *)
Theorem TryGetImportOptions_true_only_when (p : Platform) (path : string) (options : Options) :
  (fst (TryGetImportOptions p path options) = true →
   FileExists p path = true ∧
   ∃ tmpFile data metadata,
     GetStorage p path = Some tmpFile ∧
     GetEntriesCount tmpFile = 1 ∧
     LoadAssetHeader tmpFile 0 = Some data ∧
     acceptedEntry tmpFile data ∧
     Document_Parse (Metadata data) = Some metadata ∧
     snd (TryGetImportOptions p path options) = Options_Deserialize metadata options)
  ∧ (fst (TryGetImportOptions p path options) = false →
     snd (TryGetImportOptions p path options) = options)
  ∧ (∀ tmpFile data metadata,
       FileExists p path = true →
       GetStorage p path = Some tmpFile →
       GetEntriesCount tmpFile = 1 →
       LoadAssetHeader tmpFile 0 = Some data →
       acceptedEntry tmpFile data →
       Document_Parse (Metadata data) = Some metadata →
       TryGetImportOptions p path options = (true, Options_Deserialize metadata options)).
Proof.
  unfold TryGetImportOptions.
  split; [|split].
  - destruct (FileExists p path); [|discriminate].
    destruct (GetStorage p path) as [tmpFile|]; [|discriminate].
    destruct (Z.eqb_spec (GetEntriesCount tmpFile) 1) as [Hc|]; [|discriminate].
    destruct (headerCheck tmpFile Model_TypeName 4 AssetInitData_empty)
      as [[] d1] eqn:H1.
    + apply headerCheck_true in H1 as (Ht & Hl & Hv).
      destruct (Document_Parse (Metadata d1)) as [metadata|] eqn:Hp; [|discriminate].
      intros _. split; [reflexivity|].
      exists tmpFile, d1, metadata. unfold acceptedEntry. auto 10.
    + destruct (headerCheck tmpFile SkinnedModel_TypeName 1 d1) as [[] d2] eqn:H2.
      * apply headerCheck_true in H2 as (Ht & Hl & Hv).
        destruct (Document_Parse (Metadata d2)) as [metadata|] eqn:Hp; [|discriminate].
        intros _. split; [reflexivity|].
        exists tmpFile, d2, metadata. unfold acceptedEntry. auto 10.
      * destruct (headerCheck tmpFile Animation_TypeName 1 d2) as [[] d3] eqn:H3;
          [|discriminate].
        apply headerCheck_true in H3 as (Ht & Hl & Hv).
        destruct (Document_Parse (Metadata d3)) as [metadata|] eqn:Hp; [|discriminate].
        intros _. split; [reflexivity|].
        exists tmpFile, d3, metadata. unfold acceptedEntry. auto 10.
  - destruct (FileExists p path); [|reflexivity].
    destruct (GetStorage p path) as [tmpFile|]; [|reflexivity].
    destruct (GetEntriesCount tmpFile =? 1); [|reflexivity].
    destruct (headerCheck tmpFile Model_TypeName 4 AssetInitData_empty) as [[] d1].
    + destruct (Document_Parse (Metadata d1)); [discriminate | reflexivity].
    + destruct (headerCheck tmpFile SkinnedModel_TypeName 1 d1) as [[] d2].
      * destruct (Document_Parse (Metadata d2)); [discriminate | reflexivity].
      * destruct (headerCheck tmpFile Animation_TypeName 1 d2) as [[] d3]; [|reflexivity].
        destruct (Document_Parse (Metadata d3)); [discriminate | reflexivity].
  - intros tmpFile data metadata Hf Hs Hc Hl Ha Hp.
    rewrite Hf, Hs, Hc. simpl.
    destruct (headerCheck tmpFile Model_TypeName 4 AssetInitData_empty)
      as [[] d1] eqn:H1.
    + apply headerCheck_true in H1 as (_ & Hl1 & _).
      assert (d1 = data) as -> by congruence. rewrite Hp. reflexivity.
    + destruct (headerCheck tmpFile SkinnedModel_TypeName 1 d1) as [[] d2] eqn:H2.
      * apply headerCheck_true in H2 as (_ & Hl2 & _).
        assert (d2 = data) as -> by congruence. rewrite Hp. reflexivity.
      * destruct Ha as [[Ht Hv]|[[Ht Hv]|[Ht Hv]]].
        -- rewrite (headerCheck_complete _ _ _ _ _ Ht Hl Hv) in H1. discriminate.
        -- rewrite (headerCheck_complete _ _ _ _ _ Ht Hl Hv) in H2. discriminate.
        -- rewrite (headerCheck_complete _ _ _ _ _ Ht Hl Hv). rewrite Hp. reflexivity.
Qed.

End TryGetImportOptions_facts.

(** ** Material slot consolidation *)

Section SetupMaterialSlots_facts.
Import Sample Examples.

(** C1, on the code as it is.  Four meshes use the slots 0, 2, 2 and 5:
    three distinct slots.  [SetupMaterialSlots] leaves a table of four
    entries, slot 2 twice, and the two meshes that shared slot 2 get the
    different indices 1 and 2. *)
Theorem SetupMaterialSlots_repeats_shared_slot :
  ∃ s',
    SetupMaterialSlots 0%nat sixSlots fourMeshes = Some (tt, s') ∧
    (Materials <$> frames s' !! 0%nat)
      = Some [slot "m0"; slot "m2"; slot "m2"; slot "m5"] ∧
    map (λ p, MaterialSlotIndex <$> heap s' !! p) [0; 1; 2; 3]%nat
      = [Some 0; Some 1; Some 2; Some 3].
Proof.
  exists (stateOf (SetupMaterialSlots 0%nat sixSlots fourMeshes)).
  split; [apply (returnedValue_eq tt); vm_compute; reflexivity|].
  split; vm_compute; reflexivity.
Qed.

End SetupMaterialSlots_facts.

(** ** Chunk packing *)

Section Create_facts.
Context `{E : Engine}.

Lemma stream_Write_data st data :
  stream_ok st →
  stream_data (stream_Write st data) = stream_data st ++ data
  ∧ stream_ok (stream_Write st data).
Proof.
  unfold stream_ok, stream_data, stream_Write. simpl. intros Hok.
  assert (Hlen : length (take (stream_position st) (stream_buffer st)) = stream_position st).
  { rewrite length_take. lia. }
  split.
  - rewrite app_assoc.
    rewrite take_app_length'; [reflexivity|].
    rewrite length_app, Hlen. reflexivity.
  - rewrite !length_app, Hlen. lia.
Qed.

Lemma stream_rewind_Write st data :
  stream_data (stream_Write (stream_SetPosition st 0) data) = data
  ∧ stream_ok (stream_Write (stream_SetPosition st 0) data).
Proof.
  assert (Hok : stream_ok (stream_SetPosition st 0)).
  { unfold stream_ok. simpl. lia. }
  destruct (stream_Write_data _ data Hok) as [Hd Hok'].
  split; [|exact Hok']. rewrite Hd. reflexivity.
Qed.

Lemma packMeshes_inv pack meshes : ∀ stream s r s',
  packMeshes pack stream meshes s = Some (r, s') →
  s' = s ∧
  ∀ stream', r = Some stream' → stream_ok stream →
    ∃ data, packedMeshes pack (heap s) meshes = Some data
            ∧ stream_data stream' = stream_data stream ++ data
            ∧ stream_ok stream'.
Proof.
  induction meshes as [|mesh rest IH]; simpl; intros stream s r s' H.
  - inversion H. subst. split; [reflexivity|].
    intros stream' Hs Hok. inversion Hs. subst.
    exists []. rewrite app_nil_r. auto.
  - inv_bind H. apply readMesh_Some in H0 as [Hm ->].
    rewrite Hm.
    destruct (pack a) as [data|].
    + apply IH in H as [-> H]. split; [reflexivity|].
      intros stream' Hs Hok.
      destruct (stream_Write_data stream data Hok) as [Hd Hok'].
      destruct (H stream' Hs Hok') as (more & Hp & Hsd & Hok'').
      exists (data ++ more). rewrite Hp.
      split; [reflexivity|]. split; [|exact Hok''].
      rewrite Hsd, Hd, app_assoc. reflexivity.
    + inversion H. subst. split; [reflexivity|]. discriminate.
Qed.

Lemma lodEvents_no_failure prefix buffers : ∀ lodIndex,
  ¬ allocationFailed (lodEvents prefix lodIndex buffers).
Proof.
  induction buffers as [|b rest IH]; simpl; intros lodIndex [index Hin].
  - inversion Hin.
  - apply elem_of_cons in Hin as [Hin|Hin]; [discriminate|].
    apply elem_of_cons in Hin as [Hin|Hin]; [discriminate|].
    apply (IH (lodIndex + 1)). exists index. exact Hin.
Qed.

Lemma allocationFailed_app evs1 evs2 :
  allocationFailed (evs1 ++ evs2) ↔ allocationFailed evs1 ∨ allocationFailed evs2.
Proof.
  unfold allocationFailed. split.
  - intros [index Hin]. apply elem_of_app in Hin as [Hin|Hin]; eauto.
  - intros [[index Hin]|[index Hin]]; exists index; apply elem_of_app; auto.
Qed.

Lemma packLODs_inv pack prefix lods : ∀ context stream lodIndex s r s',
  packLODs pack prefix context stream lods lodIndex s = Some (r, s') →
  heap s' = heap s ∧ frames s' = frames s ∧ platform s' = platform s ∧
  ∃ evs, events s' = events s ++ evs ∧
    match r with
    | inr _ =>
        ∃ buffers,
          Forall2 (λ lod buffer,
                     packedMeshes pack (heap s) (Meshes lod) = Some buffer) lods buffers
          ∧ evs = lodEvents prefix lodIndex buffers
    | inl (result, _) =>
        (result = Error ∧ ¬ allocationFailed evs)
        ∨ (result = CannotAllocateChunk ∧ allocationFailed evs)
    end.
Proof.
  induction lods as [|lod rest IH]; simpl; intros context stream lodIndex s r s' H.
  - inversion H. subst. repeat split; try reflexivity.
    exists []. rewrite app_nil_r. split; [reflexivity|].
    exists []. split; [constructor | reflexivity].
  - inv_bind H. apply packMeshes_inv in H0 as [-> Hpack].
    destruct a as [stream1|].
    + destruct (stream_rewind_Write stream prefix) as [Hd Hok].
      destruct (Hpack stream1 eq_refl Hok) as (data & Hp & Hsd & Hok1).
      rewrite Hd in Hsd.
      unfold AllocateChunk, Chunk_Copy, logEvent, modify in H.
      unfold bind at 1 2 in H. simpl in H.
      destruct (AllocateChunk_fails (Header_Chunks (Data_ context)) (lodIndex + 1)) eqn:Hf.
      * simpl in H. inversion H. subst. simpl. repeat split; try reflexivity.
        exists [EvAllocateChunk (lodIndex + 1) true]. split; [reflexivity|].
        right. split; [reflexivity|]. exists (lodIndex + 1). apply list_elem_of_singleton.
        reflexivity.
      * simpl in H. unfold bind at 1 2 in H. simpl in H.
        apply IH in H as (Hh & Hfr & Hpl & evs & Hev & Hr). simpl in *.
        repeat split; try assumption.
        exists (EvAllocateChunk (lodIndex + 1) false
                :: EvChunkCopy (lodIndex + 1) (stream_data stream1) :: evs).
        split.
        { rewrite Hev. rewrite <- !app_assoc. reflexivity. }
        destruct r as [[result c]|p].
        -- destruct Hr as [[-> Hno]|[-> Hyes]].
           ++ left. split; [reflexivity|]. intros [index Hin].
              apply elem_of_cons in Hin as [Hin|Hin]; [discriminate|].
              apply elem_of_cons in Hin as [Hin|Hin]; [discriminate|].
              apply Hno. exists index. exact Hin.
           ++ right. split; [reflexivity|]. destruct Hyes as [index Hin].
              exists index. do 2 apply list_elem_of_further. exact Hin.
        -- destruct Hr as (buffers & HF & ->).
           exists (data :: buffers). split.
           ++ constructor; assumption.
           ++ simpl. rewrite Hsd. reflexivity.
    + inversion H. subst. repeat split; try reflexivity.
      exists []. rewrite app_nil_r. split; [reflexivity|].
      left. split; [reflexivity|]. intros [index Hin]. inversion Hin.
Qed.

Lemma allocationFailed_nil : ¬ allocationFailed [].
Proof. intros [index Hin]. inversion Hin. Qed.

Lemma allocationFailed_cons_ok index evs :
  allocationFailed (EvAllocateChunk index false :: evs) ↔ allocationFailed evs.
Proof.
  unfold allocationFailed. split; intros [i Hin]; exists i.
  - apply elem_of_cons in Hin as [Hin|Hin]; [discriminate | exact Hin].
  - apply list_elem_of_further. exact Hin.
Qed.

Lemma allocationFailed_cons_copy index data evs :
  allocationFailed (EvChunkCopy index data :: evs) ↔ allocationFailed evs.
Proof.
  unfold allocationFailed. split; intros [i Hin]; exists i.
  - apply elem_of_cons in Hin as [Hin|Hin]; [discriminate | exact Hin].
  - apply list_elem_of_further. exact Hin.
Qed.

Lemma allocationFailed_here index evs :
  allocationFailed (EvAllocateChunk index true :: evs).
Proof. exists index. apply list_elem_of_here. Qed.

Lemma stream_header header :
  stream_data (stream_Write stream_new header) = header.
Proof.
  assert (Hok : stream_ok stream_new) by (unfold stream_ok; simpl; lia).
  destruct (stream_Write_data stream_new header Hok) as [-> _]. reflexivity.
Qed.

Lemma CreateSkinnedModel_inv context modelData options d s r c s' :
  frames s !! modelData = Some d →
  CreateSkinnedModel context modelData options s = Some ((r, c), s') →
  ∃ evs, events s' = events s ++ evs
    ∧ (r = CannotAllocateChunk ↔ allocationFailed evs)
    ∧ (r = Ok →
       ∃ header buffers,
         ModelData_Pack2SkinnedModelHeader (heap s) d = Some header
         ∧ Forall2 (λ lod buffer,
                      packedMeshes MeshData_Pack2SkinnedModel (heap s) (Meshes lod)
                      = Some buffer) (LODs d) buffers
         ∧ evs = EvAllocateChunk 0 false :: EvChunkCopy 0 header
                 :: lodEvents [Byte.x01] 0 buffers).
Proof.
  intros Hd H. unfold CreateSkinnedModel in H.
  rewrite (bind_eq _ _ _ _ _ (readModel_eq _ _ _ Hd)) in H.
  unfold bind at 1, get in H.
  destruct (ModelData_Pack2SkinnedModelHeader (heap s) d) as [header|] eqn:Hh.
  - unfold AllocateChunk, Chunk_Copy, logEvent, modify in H.
    unfold bind at 1 2 in H. simpl in H.
    destruct (AllocateChunk_fails _ 0) eqn:Hf; simpl in H.
    + inversion H. subst. exists [EvAllocateChunk 0 true].
      split; [reflexivity|]. split; [|discriminate].
      split; [intros _; apply allocationFailed_here | reflexivity].
    + unfold bind at 1 2 in H. simpl in H. inv_bind H.
      apply packLODs_inv in H0 as (Hheap & _ & _ & evs & Hev & Hr). simpl in *.
      rewrite stream_header in Hev.
      exists (EvAllocateChunk 0 false :: EvChunkCopy 0 header :: evs).
      split.
      { destruct a as [[result c0]|[c0 st]]; inversion H; subst;
          rewrite Hev, <- !app_assoc; reflexivity. }
      rewrite allocationFailed_cons_ok, allocationFailed_cons_copy.
      destruct a as [[result c0]|[c0 st]]; inversion H; subst.
      * destruct Hr as [[-> Hno]|[-> Hyes]].
        -- split; [split; [discriminate | intros Hy; contradiction] | discriminate].
        -- split; [split; auto | discriminate].
      * destruct Hr as (buffers & HF & ->). split.
        -- split; [discriminate|]. intros Hy.
           exfalso. exact (lodEvents_no_failure _ _ _ Hy).
        -- intros _. exists header, buffers. auto.
  - inversion H. subst. exists []. rewrite app_nil_r.
    split; [reflexivity|]. split; [|discriminate].
    split; [discriminate|]. intros Hy. exfalso. exact (allocationFailed_nil Hy).
Qed.

Lemma CreateModel_inv context modelData options d s r c s' :
  frames s !! modelData = Some d →
  CreateModel context modelData options s = Some ((r, c), s') →
  ∃ evs, events s' = events s ++ evs
    ∧ (r = CannotAllocateChunk ↔ allocationFailed evs)
    ∧ (r = Ok →
       ∃ header buffers sdfEvents,
         ModelData_Pack2ModelHeader (heap s) d = Some header
         ∧ Forall2 (λ lod buffer,
                      packedMeshes MeshData_Pack2Model (heap s) (Meshes lod)
                      = Some buffer) (LODs d) buffers
         ∧ evs = EvAllocateChunk 0 false :: EvChunkCopy 0 header
                 :: lodEvents [] 0 buffers ++ sdfEvents
         ∧ (sdfEvents = []
            ∨ ∃ sdf, sdfEvents = [EvAllocateChunk 15 false; EvChunkCopy 15 sdf])).
Proof.
  intros Hd H. unfold CreateModel in H.
  rewrite (bind_eq _ _ _ _ _ (readModel_eq _ _ _ Hd)) in H.
  unfold bind at 1, get in H.
  destruct (ModelData_Pack2ModelHeader (heap s) d) as [header|] eqn:Hh.
  - unfold AllocateChunk at 1, Chunk_Copy at 1, logEvent, modify in H.
    unfold bind at 1 2 in H. simpl in H.
    destruct (AllocateChunk_fails _ 0) eqn:Hf; simpl in H.
    + inversion H. subst. exists [EvAllocateChunk 0 true].
      split; [reflexivity|]. split; [|discriminate].
      split; [intros _; apply allocationFailed_here | reflexivity].
    + unfold bind at 1 2 in H. simpl in H. inv_bind H.
      apply packLODs_inv in H0 as (Hheap & _ & _ & evs & Hev & Hr). simpl in *.
      rewrite stream_header in Hev.
      destruct a as [[result c0]|[c0 st]].
      * inversion H. subst.
        exists (EvAllocateChunk 0 false :: EvChunkCopy 0 header :: evs).
        split; [rewrite Hev, <- !app_assoc; reflexivity|].
        rewrite allocationFailed_cons_ok, allocationFailed_cons_copy.
        destruct Hr as [[-> Hno]|[-> Hyes]].
        -- split; [split; [discriminate | intros Hy; contradiction] | discriminate].
        -- split; [split; auto | discriminate].
      * destruct Hr as (buffers & HF & ->).
        assert (Hok : ∀ sdfEvents,
                   (sdfEvents = []
                    ∨ ∃ sdf, sdfEvents = [EvAllocateChunk 15 false; EvChunkCopy 15 sdf]) →
                   events s' = events s0 ++ sdfEvents → r = Ok →
                   ∃ evs, events s' = events s ++ evs
                     ∧ (r = CannotAllocateChunk ↔ allocationFailed evs)
                     ∧ (r = Ok →
                        ∃ header0 buffers0 sdfEvents0,
                          Some header = Some header0
                          ∧ Forall2 (λ lod buffer,
                                packedMeshes MeshData_Pack2Model (heap s) (Meshes lod)
                                = Some buffer) (LODs d) buffers0
                          ∧ evs = EvAllocateChunk 0 false :: EvChunkCopy 0 header0
                                  :: lodEvents [] 0 buffers0 ++ sdfEvents0
                          ∧ (sdfEvents0 = []
                             ∨ ∃ sdf, sdfEvents0
                                      = [EvAllocateChunk 15 false; EvChunkCopy 15 sdf]))).
        { intros sdfEvents Hsdf Hev' ->.
          exists (EvAllocateChunk 0 false :: EvChunkCopy 0 header
                  :: lodEvents [] 0 buffers ++ sdfEvents).
          split; [rewrite Hev', Hev, <- !app_assoc; reflexivity|].
          split.
          - split; [discriminate|].
            rewrite allocationFailed_cons_ok, allocationFailed_cons_copy,
              allocationFailed_app.
            intros [Hy|Hy]; [exfalso; exact (lodEvents_no_failure _ _ _ Hy)|].
            destruct Hsdf as [->|[sdf ->]].
            + exfalso. exact (allocationFailed_nil Hy).
            + rewrite allocationFailed_cons_ok, allocationFailed_cons_copy in Hy.
              exfalso. exact (allocationFailed_nil Hy).
          - intros _. exists header, buffers, sdfEvents. auto. }
        destruct options as [options|].
        -- destruct (GenerateSDF options).
           ++ unfold bind at 1, get in H.
              destruct (ModelTool_GenerateModelSDF _ _ _ _ _) as [sdf|].
              ** unfold AllocateChunk, Chunk_Copy, logEvent, modify in H.
                 unfold bind at 1 2 in H. simpl in H.
                 destruct (AllocateChunk_fails _ 15) eqn:Hf15; simpl in H.
                 --- inversion H. subst. simpl.
                     exists (EvAllocateChunk 0 false :: EvChunkCopy 0 header
                             :: lodEvents [] 0 buffers ++ [EvAllocateChunk 15 true]).
                     split; [rewrite Hev, <- !app_assoc; reflexivity|].
                     split; [|discriminate].
                     split; [|reflexivity]. intros _.
                     rewrite allocationFailed_cons_ok, allocationFailed_cons_copy,
                       allocationFailed_app.
                     right. apply allocationFailed_here.
                 --- unfold bind in H. simpl in H. inversion H. subst. simpl.
                     eapply Hok; [right; eexists; reflexivity | | reflexivity].
                     simpl. rewrite <- app_assoc. reflexivity.
              ** inversion H. subst.
                 apply (Hok []); [left; reflexivity | rewrite app_nil_r; reflexivity
                                 | reflexivity].
           ++ inversion H. subst.
              apply (Hok []); [left; reflexivity | rewrite app_nil_r; reflexivity
                              | reflexivity].
        -- inversion H. subst.
           apply (Hok []); [left; reflexivity | rewrite app_nil_r; reflexivity
                           | reflexivity].
  - inversion H. subst. exists []. rewrite app_nil_r.
    split; [reflexivity|]. split; [|discriminate].
    split; [discriminate|]. intros Hy. exfalso. exact (allocationFailed_nil Hy).
Qed.

(** C7.  A model and a skinned model are serialized from the same
    data.  When a serialization returns [Ok] its chunk events are, in
    this order: chunk 0 allocated and written with the header, then for
    the LOD at each index k chunk k+1 allocated and written with the
    packed meshes of that LOD; for the skinned model, and only there,
    the byte 1 goes before the meshes of every LOD.  (A model may then
    get its signed distance field in chunk 15.)  The result is
    [CannotAllocateChunk] exactly when one of the allocations failed. *)
Theorem chunk_layout
    (context : CreateAssetContext) (modelData : DataRef) (options : option Options)
    (d : ModelData) (s : State)
    (r1 r2 : CreateAssetResult) (c1 c2 : CreateAssetContext) (s1 s2 : State) :
  frames s !! modelData = Some d →
  CreateModel context modelData options s = Some ((r1, c1), s1) →
  CreateSkinnedModel context modelData options s = Some ((r2, c2), s2) →
  (∃ evs, events s1 = events s ++ evs
     ∧ (r1 = CannotAllocateChunk ↔ allocationFailed evs)
     ∧ (r1 = Ok →
        ∃ header buffers sdfEvents,
          ModelData_Pack2ModelHeader (heap s) d = Some header
          ∧ Forall2 (λ lod buffer,
                       packedMeshes MeshData_Pack2Model (heap s) (Meshes lod)
                       = Some buffer) (LODs d) buffers
          ∧ evs = EvAllocateChunk 0 false :: EvChunkCopy 0 header
                  :: lodEvents [] 0 buffers ++ sdfEvents
          ∧ (sdfEvents = []
             ∨ ∃ sdf, sdfEvents = [EvAllocateChunk 15 false; EvChunkCopy 15 sdf])))
  ∧ (∃ evs, events s2 = events s ++ evs
       ∧ (r2 = CannotAllocateChunk ↔ allocationFailed evs)
       ∧ (r2 = Ok →
          ∃ header buffers,
            ModelData_Pack2SkinnedModelHeader (heap s) d = Some header
            ∧ Forall2 (λ lod buffer,
                         packedMeshes MeshData_Pack2SkinnedModel (heap s) (Meshes lod)
                         = Some buffer) (LODs d) buffers
            ∧ evs = EvAllocateChunk 0 false :: EvChunkCopy 0 header
                    :: lodEvents [Byte.x01] 0 buffers)).
Proof.
  intros Hd H1 H2. split.
  - exact (CreateModel_inv _ _ _ _ _ _ _ _ Hd H1).
  - exact (CreateSkinnedModel_inv _ _ _ _ _ _ _ _ Hd H2).
Qed.

(** No chunk is touched when the header cannot be packed. *)
Lemma CreateModel_header_failure context modelData options d s :
  frames s !! modelData = Some d →
  ModelData_Pack2ModelHeader (heap s) d = None →
  CreateModel context modelData options s
  = Some ((Error, IMPORT_SETUP context Model_TypeName Model_SerializedVersion), s).
Proof.
  intros Hd Hp. unfold CreateModel.
  rewrite (bind_eq _ _ _ _ _ (readModel_eq _ _ _ Hd)).
  unfold bind, get. rewrite Hp. reflexivity.
Qed.

(** C6. A model without LODs, or with an empty LOD 0, makes [Create]
    return [Error]; the context comes back as it was, so no chunk was
    allocated in its chunk table, and the state comes back as it was,
    so no allocation was even asked for. *)
Theorem Create_empty_model_is_Error
    (context : CreateAssetContext) (modelData : DataRef) (d : ModelData) (s : State) :
  frames s !! modelData = Some d →
  (LODs d = [] ∨ ∃ lod0 rest, LODs d = lod0 :: rest ∧ Meshes lod0 = []) →
  Create context (Some modelData) s = Some ((Error, context), s).
Proof.
  intros Hd Hempty. unfold Create.
  rewrite (bind_eq _ _ _ _ _ (readModel_eq _ _ _ Hd)).
  destruct Hempty as [->|(lod0 & rest & -> & ->)]; reflexivity.
Qed.

End Create_facts.

Section Create_witnesses.
Import Sample Examples.

Lemma Create_empty_model_is_Error_witness :
  frames noLods !! 0%nat = Some ModelData_empty
  ∧ (LODs ModelData_empty = []
     ∨ ∃ lod0 rest, LODs ModelData_empty = lod0 :: rest ∧ Meshes lod0 = [])
  ∧ Create (context "a.fbx" "a.flax") (Some 0%nat) noLods
    = Some ((Error, context "a.fbx" "a.flax"), noLods).
Proof.
  assert (H1 : frames noLods !! 0%nat = Some ModelData_empty) by reflexivity.
  assert (H2 : LODs ModelData_empty = []
               ∨ ∃ lod0 rest, LODs ModelData_empty = lod0 :: rest ∧ Meshes lod0 = [])
    by (left; reflexivity).
  split; [exact H1|]. split; [exact H2|].
  exact (Create_empty_model_is_Error (context "a.fbx" "a.flax") 0%nat
           ModelData_empty noLods H1 H2).
Defined.

Lemma chunk_layout_witness :
  ∃ c1 s1 c2 s2,
    frames twoLods !! 0%nat = Some twoLodsModel
    ∧ CreateModel (context "a.fbx" "a.flax") 0%nat None twoLods = Some ((Ok, c1), s1)
    ∧ CreateSkinnedModel (context "a.fbx" "a.flax") 0%nat None twoLods
      = Some ((Ok, c2), s2)
    ∧ (∃ evs, events s1 = events twoLods ++ evs
         ∧ (Ok = CannotAllocateChunk ↔ allocationFailed evs)
         ∧ (Ok = Ok →
            ∃ header buffers sdfEvents,
              ModelData_Pack2ModelHeader (heap twoLods) twoLodsModel = Some header
              ∧ Forall2 (λ lod buffer,
                           packedMeshes MeshData_Pack2Model (heap twoLods) (Meshes lod)
                           = Some buffer) (LODs twoLodsModel) buffers
              ∧ evs = EvAllocateChunk 0 false :: EvChunkCopy 0 header
                      :: lodEvents [] 0 buffers ++ sdfEvents
              ∧ (sdfEvents = []
                 ∨ ∃ sdf, sdfEvents = [EvAllocateChunk 15 false; EvChunkCopy 15 sdf])))
    ∧ (∃ evs, events s2 = events twoLods ++ evs
         ∧ (Ok = CannotAllocateChunk ↔ allocationFailed evs)
         ∧ (Ok = Ok →
            ∃ header buffers,
              ModelData_Pack2SkinnedModelHeader (heap twoLods) twoLodsModel = Some header
              ∧ Forall2 (λ lod buffer,
                           packedMeshes MeshData_Pack2SkinnedModel (heap twoLods)
                             (Meshes lod) = Some buffer) (LODs twoLodsModel) buffers
              ∧ evs = EvAllocateChunk 0 false :: EvChunkCopy 0 header
                      :: lodEvents [Byte.x01] 0 buffers)).
Proof.
  exists (contextOf (CreateModel (context "a.fbx" "a.flax") 0%nat None twoLods)),
    (stateOf (CreateModel (context "a.fbx" "a.flax") 0%nat None twoLods)),
    (contextOf (CreateSkinnedModel (context "a.fbx" "a.flax") 0%nat None twoLods)),
    (stateOf (CreateSkinnedModel (context "a.fbx" "a.flax") 0%nat None twoLods)).
  assert (H0 : frames twoLods !! 0%nat = Some twoLodsModel) by reflexivity.
  assert (H1 : CreateModel (context "a.fbx" "a.flax") 0%nat None twoLods
               = Some ((Ok, contextOf (CreateModel (context "a.fbx" "a.flax") 0%nat None
                                         twoLods)),
                       stateOf (CreateModel (context "a.fbx" "a.flax") 0%nat None twoLods)))
    by (apply returnedOk_eq; vm_compute; reflexivity).
  assert (H2 : CreateSkinnedModel (context "a.fbx" "a.flax") 0%nat None twoLods
               = Some ((Ok, contextOf (CreateSkinnedModel (context "a.fbx" "a.flax") 0%nat
                                         None twoLods)),
                       stateOf (CreateSkinnedModel (context "a.fbx" "a.flax") 0%nat None
                                  twoLods)))
    by (apply returnedOk_eq; vm_compute; reflexivity).
  split; [exact H0|]. split; [exact H1|]. split; [exact H2|].
  exact (chunk_layout (context "a.fbx" "a.flax") 0%nat None twoLodsModel twoLods
           Ok Ok _ _ _ _ H0 H1 H2).
Defined.

(** The run of the witness, spelled out: the skinned model puts the
    byte 1 before the meshes of each LOD, the model does not. *)
Example chunk_layout_run :
  (events <$> (snd <$> CreateModel (context "a.fbx" "a.flax") 0%nat None twoLods))
  = Some [EvAllocateChunk 0 false;
          EvChunkCopy 0 (list_byte_of_string "skin,hair");
          EvAllocateChunk 1 false;
          EvChunkCopy 1 (list_byte_of_string "bodyhead");
          EvAllocateChunk 2 false;
          EvChunkCopy 2 (list_byte_of_string "bodyhead")]
  ∧ (events <$> (snd <$> CreateSkinnedModel (context "a.fbx" "a.flax") 0%nat None twoLods))
    = Some [EvAllocateChunk 0 false;
            EvChunkCopy 0 (list_byte_of_string "skin,hair");
            EvAllocateChunk 1 false;
            EvChunkCopy 1 (Byte.x01 :: list_byte_of_string "bodyhead");
            EvAllocateChunk 2 false;
            EvChunkCopy 2 (Byte.x01 :: list_byte_of_string "bodyhead")].
Proof. split; vm_compute; reflexivity. Qed.

End Create_witnesses.

(** ** Lightmap UV repacking *)

Section Repack_facts.
Context `{E : Engine}.

Lemma buildEntries_from meshes : ∀ entries areaSum s,
  allocated (heap s) meshes →
  foldM (λ acc mesh,
           let '(entries, areaSum) := acc in
           m <- readMesh mesh ;;
           let area := MeshData_CalculateTrianglesArea m in
           ret (entries ++ [mkMeshEntry mesh area (fsqrt area)], fadd areaSum area))
        meshes (entries, areaSum) s
  = Some ((entries ++ entriesOf (heap s) meshes,
           fold_left (λ areaSum mesh, fadd areaSum (areaOf (heap s) mesh)) meshes areaSum),
          s).
Proof.
  induction meshes as [|mesh rest IH]; intros entries areaSum s Hall.
  - simpl. rewrite app_nil_r. reflexivity.
  - inversion Hall as [|? ? [m Hm] Hrest]. subst.
    assert (Ha : areaOf (heap s) mesh = MeshData_CalculateTrianglesArea m).
    { unfold areaOf. rewrite Hm. reflexivity. }
    unfold entriesOf. cbn [foldM map fold_left]. rewrite Ha.
    rewrite (bind_eq _ _ _ _ _ (bind_eq _ _ _ _ _ (readMesh_eq _ _ _ Hm))).
    unfold ret at 1. rewrite (IH _ _ _ Hrest).
    rewrite <- app_assoc. reflexivity.
Qed.

Lemma buildEntries_eq meshes s :
  allocated (heap s) meshes →
  buildEntries meshes s
  = Some ((entriesOf (heap s) meshes, totalArea (heap s) meshes), s).
Proof. intros Hall. unfold buildEntries. rewrite buildEntries_from; auto. Qed.

(** C8.  When the summed triangle area of the LOD 0 meshes is not above
    the zero tolerance, [RepackMeshLightmapUVs] returns the state it was
    given: no packing pass was started (no event) and no mesh, so no
    lightmap UV, was written. *)
Theorem RepackMeshLightmapUVs_zero_area
    (data : DataRef) (d : ModelData) (lod : ModelLodData) (s : State) :
  frames s !! data = Some d →
  LODs d !! 0%nat = Some lod →
  allocated (heap s) (Meshes lod) →
  fgt (totalArea (heap s) (Meshes lod)) ZeroTolerance = false →
  RepackMeshLightmapUVs data s = Some (tt, s).
Proof.
  intros Hd Hlod Hall Harea. unfold RepackMeshLightmapUVs.
  rewrite (bind_eq _ _ _ _ _ (readModel_eq _ _ _ Hd)).
  rewrite (bind_eq _ _ _ _ _ (Array_at_eq _ 0%nat _ _ Hlod)).
  rewrite (bind_eq _ _ _ _ _ (buildEntries_eq _ _ Hall)).
  rewrite Harea. reflexivity.
Qed.

Lemma insertEntries_fst entries : ∀ root chartsPadding placed,
  insertEntries root chartsPadding entries = Some placed →
  map fst placed = entries.
Proof.
  induction entries as [|entry rest IH]; simpl; intros root chartsPadding placed H.
  - inversion H. reflexivity.
  - destruct (RectPack_Insert root (Size entry) (Size entry) chartsPadding)
      as [[slot|] root']; [|discriminate].
    destruct (insertEntries root' chartsPadding rest) as [placed'|] eqn:Hrest;
      [|discriminate].
    inversion H. subst. simpl. f_equal. eapply IH. exact Hrest.
Qed.

Lemma State_setHeap_twice s h1 h2 :
  State_setHeap (State_setHeap s h1) h2 = State_setHeap s h2.
Proof. reflexivity. Qed.

(** A loop whose body reads and writes the heap only. *)
Lemma forM_heap {A} (f : A → M unit) (ok : A → gmap MeshPtr MeshData → Prop) :
  (∀ x h, ok x h →
     ∃ h', (∀ s, heap s = h → f x s = Some (tt, State_setHeap s h'))
           ∧ ∀ y, ok y h → ok y h') →
  ∀ l h, Forall (λ x, ok x h) l →
    ∃ h', ∀ s, heap s = h → forM_ l f s = Some (tt, State_setHeap s h').
Proof.
  intros Hbody. induction l as [|x rest IH]; intros h Hall.
  - exists h. intros s <-. destruct s. reflexivity.
  - inversion Hall as [|? ? Hx Hrest]. subst.
    destruct (Hbody x h Hx) as (h1 & Hf & Hkeep).
    destruct (IH h1) as [h' Hh'].
    { eapply Forall_impl; [exact Hrest|]. intros y Hy. apply Hkeep. exact Hy. }
    exists h'. intros s Hs. cbn [forM_]. unfold bind.
    rewrite (Hf s Hs). rewrite (Hh' (State_setHeap s h1) eq_refl). reflexivity.
Qed.

(** The UV transform reads and writes the heap only. *)
Lemma transformLightmapUVs_heap atlasSize chartsPadding placed h :
  Forall (λ es, is_Some (h !! Mesh (fst es))) placed →
  ∃ h', ∀ s, heap s = h →
    transformLightmapUVs atlasSize chartsPadding placed s
    = Some (tt, State_setHeap s h').
Proof.
  intros Hall. unfold transformLightmapUVs.
  apply (forM_heap _ (λ es h, is_Some (h !! Mesh (fst es)))); [|exact Hall].
  intros [entry slot] h0 [m Hm]. simpl in Hm.
  eexists. split.
  - intros s Hs.
    assert (Hm' : heap s !! Mesh entry = Some m) by (rewrite Hs; exact Hm).
    unfold bind. rewrite (readMesh_eq _ _ _ Hm').
    unfold writeMesh, modify. rewrite Hs. reflexivity.
  - intros y Hy. simpl. apply lookup_insert_is_Some'. right. exact Hy.
Qed.

Lemma placed_allocated (h : gmap MeshPtr MeshData) placed entries :
  map fst placed = entries →
  Forall (λ entry, is_Some (h !! Mesh entry)) entries →
  Forall (λ es : MeshEntry * RectSlot, is_Some (h !! Mesh (fst es))) placed.
Proof.
  intros <-. induction placed as [|es rest IH]; simpl; intros H.
  - constructor.
  - inversion H. subst. constructor; auto.
Qed.

Lemma entriesOf_allocated (h : gmap MeshPtr MeshData) meshes :
  allocated h meshes →
  Forall (λ entry, is_Some (h !! Mesh entry)) (entriesOf h meshes).
Proof.
  unfold allocated, entriesOf. induction meshes as [|mesh rest IH]; simpl; intros H.
  - constructor.
  - inversion H. subst. constructor; auto.
Qed.

Lemma atlasSizes_last n : ∀ atlasSize, (0 < n)%nat →
  atlasSizes (S n) atlasSize !! n
  = atlasSizes n (fmul atlasSize (flit (15 # 10)%Q)) !! (n - 1)%nat.
Proof.
  intros atlasSize Hn. destruct n as [|n]; [lia|].
  cbn [atlasSizes]. rewrite Nat.sub_succ, Nat.sub_0_r. reflexivity.
Qed.

Lemma packLoop_spec triesLeft : ∀ atlasSize entries s,
  Forall (λ entry, is_Some (heap s !! Mesh entry)) entries →
  ∃ n s',
    packLoop triesLeft atlasSize entries s = Some (tt, s')
    ∧ (n ≤ triesLeft)%nat
    ∧ events s' = events s ++ map packEvent (atlasSizes n atlasSize)
    ∧ frames s' = frames s ∧ platform s' = platform s
    ∧ Forall (λ a, packAttempt a entries = None) (atlasSizes (n - 1) atlasSize)
    ∧ ((n = triesLeft
        ∧ Forall (λ a, packAttempt a entries = None) (atlasSizes n atlasSize)
        ∧ heap s' = heap s)
       ∨ (∃ a placed s0,
            (0 < n)%nat
            ∧ atlasSizes n atlasSize !! (n - 1)%nat = Some a
            ∧ packAttempt a entries = Some placed
            ∧ transformLightmapUVs a (chartsPaddingOf a) placed s = Some (tt, s0)
            ∧ heap s' = heap s0)).
Proof.
  induction triesLeft as [|triesLeft IH]; intros atlasSize entries s Hall.
  - exists 0%nat, s. simpl. rewrite app_nil_r.
    split; [reflexivity|]. split; [lia|]. split; [reflexivity|].
    split; [reflexivity|]. split; [reflexivity|]. split; [constructor|].
    left. split; [reflexivity|]. split; [constructor | reflexivity].
  - cbn [packLoop]. unfold logEvent, modify. unfold bind at 1.
    destruct (packAttempt atlasSize entries) as [placed|] eqn:Hattempt.
    + assert (Hplaced : Forall (λ es, is_Some (heap s !! Mesh (fst es))) placed).
      { eapply placed_allocated; [|exact Hall].
        eapply insertEntries_fst. exact Hattempt. }
      destruct (transformLightmapUVs_heap atlasSize (chartsPaddingOf atlasSize)
                  placed (heap s) Hplaced) as [h' Hh'].
      exists 1%nat. eexists. split.
      { apply Hh'. reflexivity. }
      split; [lia|]. split; [reflexivity|]. split; [reflexivity|].
      split; [reflexivity|]. split; [constructor|].
      right. exists atlasSize, placed, (State_setHeap s h').
      split; [lia|]. split; [reflexivity|]. split; [exact Hattempt|].
      split; [apply Hh'; reflexivity | reflexivity].
    + destruct (IH (fmul atlasSize (flit (15 # 10)%Q)) entries
                  (State_addEvent s (packEvent atlasSize)) Hall)
        as (n & s' & Hrun & Hn & Hev & Hfr & Hpl & Hfail & Hcases).
      exists (S n), s'. split; [exact Hrun|]. split; [lia|].
      split; [rewrite Hev; simpl; rewrite <- app_assoc; reflexivity|].
      split; [exact Hfr|]. split; [exact Hpl|].
      split.
      { rewrite Nat.sub_succ, Nat.sub_0_r. destruct n as [|n]; [constructor|].
        cbn [atlasSizes]. constructor; [exact Hattempt|].
        rewrite Nat.sub_succ, Nat.sub_0_r in Hfail. exact Hfail. }
      destruct Hcases as [(-> & Hallfail & Hheap)|(a & placed & s0 & Hpos & Ha & Hp & Ht & Hheap)].
      * left. split; [reflexivity|]. split; [|exact Hheap].
        cbn [atlasSizes]. constructor; assumption.
      * right.
        assert (Hplaced : Forall (λ es, is_Some (heap s !! Mesh (fst es))) placed).
        { eapply placed_allocated; [|exact Hall].
          eapply insertEntries_fst. exact Hp. }
        destruct (transformLightmapUVs_heap a (chartsPaddingOf a) placed (heap s) Hplaced)
          as [h' Hh'].
        exists a, placed, (State_setHeap s h').
        split; [lia|]. split.
        { rewrite Nat.sub_succ, Nat.sub_0_r, atlasSizes_last by exact Hpos. exact Ha. }
        split; [exact Hp|]. split; [apply Hh'; reflexivity|].
        rewrite (Hh' (State_addEvent s (packEvent atlasSize)) eq_refl) in Ht.
        inversion Ht. subst. rewrite Hheap. reflexivity.
Qed.

(** C5.  With a summed area above the zero tolerance the packing loop
    runs [n] passes, between one and ten; the pass numbered i works on
    the atlas size of the first pass times 1.5 to the i; every pass but
    the last one failed.  Either all ten passes failed, and the heap, so
    every lightmap UV, is what it was — the function still returns
    normally; or the last pass placed every mesh, and the heap is what
    the UV transform of that pass alone makes of the heap the function
    started with: the failed passes wrote nothing. *)
Theorem RepackMeshLightmapUVs_attempts
    (data : DataRef) (d : ModelData) (lod : ModelLodData) (s : State) :
  frames s !! data = Some d →
  LODs d !! 0%nat = Some lod →
  allocated (heap s) (Meshes lod) →
  fgt (totalArea (heap s) (Meshes lod)) ZeroTolerance = true →
  let entries := entriesOf (heap s) (Meshes lod) in
  let atlasSize := fmul (fsqrt (totalArea (heap s) (Meshes lod))) (flit (102 # 100)%Q) in
  ∃ n s',
    RepackMeshLightmapUVs data s = Some (tt, s')
    ∧ (1 ≤ n ≤ 10)%nat
    ∧ events s' = events s ++ map packEvent (atlasSizes n atlasSize)
    ∧ frames s' = frames s ∧ platform s' = platform s
    ∧ Forall (λ a, packAttempt a entries = None) (atlasSizes (n - 1) atlasSize)
    ∧ ((n = 10%nat
        ∧ Forall (λ a, packAttempt a entries = None) (atlasSizes n atlasSize)
        ∧ heap s' = heap s)
       ∨ (∃ a placed s0,
            atlasSizes n atlasSize !! (n - 1)%nat = Some a
            ∧ packAttempt a entries = Some placed
            ∧ transformLightmapUVs a (chartsPaddingOf a) placed s = Some (tt, s0)
            ∧ heap s' = heap s0)).
Proof.
  intros Hd Hlod Hall Harea entries atlasSize.
  assert (Hentries : Forall (λ entry, is_Some (heap s !! Mesh entry)) entries).
  { apply entriesOf_allocated. exact Hall. }
  destruct (packLoop_spec 10 atlasSize entries s Hentries)
    as (n & s' & Hrun & Hn & Hev & Hfr & Hpl & Hfail & Hcases).
  exists n, s'. split.
  { unfold RepackMeshLightmapUVs.
    rewrite (bind_eq _ _ _ _ _ (readModel_eq _ _ _ Hd)).
    rewrite (bind_eq _ _ _ _ _ (Array_at_eq _ 0%nat _ _ Hlod)).
    rewrite (bind_eq _ _ _ _ _ (buildEntries_eq _ _ Hall)).
    rewrite Harea. exact Hrun. }
  split.
  { destruct Hcases as [(-> & _)|(a & placed & s0 & Hpos & _)]; lia. }
  split; [exact Hev|]. split; [exact Hfr|]. split; [exact Hpl|].
  split; [exact Hfail|].
  destruct Hcases as [Hleft|(a & placed & s0 & Hpos & Hrest)].
  - left. exact Hleft.
  - right. exists a, placed, s0. exact Hrest.
Qed.

End Repack_facts.

Section Repack_witnesses.
Import Sample Examples.

Lemma RepackMeshLightmapUVs_zero_area_witness :
  ∃ d lod,
    frames (twoCharts 0 0) !! 0%nat = Some d
    ∧ LODs d !! 0%nat = Some lod
    ∧ allocated (heap (twoCharts 0 0)) (Meshes lod)
    ∧ fgt (totalArea (heap (twoCharts 0 0)) (Meshes lod)) ZeroTolerance = false
    ∧ RepackMeshLightmapUVs 0%nat (twoCharts 0 0) = Some (tt, twoCharts 0 0).
Proof.
  do 2 eexists.
  assert (Hd : frames (twoCharts 0 0) !! 0%nat
               = Some (mkModelData [mkModelLodData 1%Q [0; 1]%nat]
                         [slot "skin"; slot "hair"] tt [] [])) by reflexivity.
  assert (Hlod : LODs (mkModelData [mkModelLodData 1%Q [0; 1]%nat]
                         [slot "skin"; slot "hair"] tt [] []) !! 0%nat
                 = Some (mkModelLodData 1%Q [0; 1]%nat)) by reflexivity.
  assert (Hall : allocated (heap (twoCharts 0 0)) (Meshes (mkModelLodData 1%Q [0; 1]%nat))).
  { repeat constructor; eexists; vm_compute; reflexivity. }
  assert (Harea : fgt (totalArea (heap (twoCharts 0 0))
                         (Meshes (mkModelLodData 1%Q [0; 1]%nat))) ZeroTolerance = false)
    by (vm_compute; reflexivity).
  split; [exact Hd|]. split; [exact Hlod|]. split; [exact Hall|]. split; [exact Harea|].
  exact (RepackMeshLightmapUVs_zero_area 0%nat _ _ (twoCharts 0 0) Hd Hlod Hall Harea).
Defined.

Lemma RepackMeshLightmapUVs_attempts_witness :
  ∃ d lod,
    frames (twoCharts 4 1) !! 0%nat = Some d
    ∧ LODs d !! 0%nat = Some lod
    ∧ allocated (heap (twoCharts 4 1)) (Meshes lod)
    ∧ fgt (totalArea (heap (twoCharts 4 1)) (Meshes lod)) ZeroTolerance = true
    ∧ ∃ n s',
        RepackMeshLightmapUVs 0%nat (twoCharts 4 1) = Some (tt, s')
        ∧ (1 ≤ n ≤ 10)%nat
        ∧ events s' = events (twoCharts 4 1)
                      ++ map packEvent
                           (atlasSizes n
                              (fmul (fsqrt (totalArea (heap (twoCharts 4 1)) (Meshes lod)))
                                 (flit (102 # 100)%Q)))
        ∧ frames s' = frames (twoCharts 4 1) ∧ platform s' = platform (twoCharts 4 1)
        ∧ Forall (λ a, packAttempt a (entriesOf (heap (twoCharts 4 1)) (Meshes lod)) = None)
            (atlasSizes (n - 1)
               (fmul (fsqrt (totalArea (heap (twoCharts 4 1)) (Meshes lod)))
                  (flit (102 # 100)%Q)))
        ∧ ((n = 10%nat
            ∧ Forall (λ a, packAttempt a (entriesOf (heap (twoCharts 4 1)) (Meshes lod))
                           = None)
                (atlasSizes n
                   (fmul (fsqrt (totalArea (heap (twoCharts 4 1)) (Meshes lod)))
                      (flit (102 # 100)%Q)))
            ∧ heap s' = heap (twoCharts 4 1))
           ∨ (∃ a placed s0,
                atlasSizes n
                  (fmul (fsqrt (totalArea (heap (twoCharts 4 1)) (Meshes lod)))
                     (flit (102 # 100)%Q)) !! (n - 1)%nat = Some a
                ∧ packAttempt a (entriesOf (heap (twoCharts 4 1)) (Meshes lod))
                  = Some placed
                ∧ transformLightmapUVs a (chartsPaddingOf a) placed (twoCharts 4 1)
                  = Some (tt, s0)
                ∧ heap s' = heap s0)).
Proof.
  do 2 eexists.
  assert (Hd : frames (twoCharts 4 1) !! 0%nat
               = Some (mkModelData [mkModelLodData 1%Q [0; 1]%nat]
                         [slot "skin"; slot "hair"] tt [] [])) by reflexivity.
  assert (Hlod : LODs (mkModelData [mkModelLodData 1%Q [0; 1]%nat]
                         [slot "skin"; slot "hair"] tt [] []) !! 0%nat
                 = Some (mkModelLodData 1%Q [0; 1]%nat)) by reflexivity.
  assert (Hall : allocated (heap (twoCharts 4 1)) (Meshes (mkModelLodData 1%Q [0; 1]%nat))).
  { repeat constructor; eexists; vm_compute; reflexivity. }
  assert (Harea : fgt (totalArea (heap (twoCharts 4 1))
                         (Meshes (mkModelLodData 1%Q [0; 1]%nat))) ZeroTolerance = true)
    by (vm_compute; reflexivity).
  split; [exact Hd|]. split; [exact Hlod|]. split; [exact Hall|]. split; [exact Harea|].
  exact (RepackMeshLightmapUVs_attempts 0%nat _ _ (twoCharts 4 1) Hd Hlod Hall Harea).
Defined.

(** The two ends of the loop on the example: with the splitting packer
    the first pass fails and the second one places both charts; with a
    packer that never finds room ten passes are made and the meshes are
    left alone. *)
Example RepackMeshLightmapUVs_runs :
  (length ∘ events ∘ snd <$> RepackMeshLightmapUVs 0%nat (twoCharts 4 1)) = Some 2%nat
  ∧ (length ∘ events ∘ snd
       <$> @RepackMeshLightmapUVs types crowded 0%nat (twoCharts 4 1)) = Some 10%nat
  ∧ (heap ∘ snd <$> @RepackMeshLightmapUVs types crowded 0%nat (twoCharts 4 1))
    = Some (heap (twoCharts 4 1)).
Proof. repeat split; vm_compute; reflexivity. Qed.

End Repack_witnesses.

(** ** Mesh grouping *)

Section Grouping_facts.

Lemma code_inj c d : Z.of_N (N_of_ascii c) = Z.of_N (N_of_ascii d) → c = d.
Proof.
  intros H. apply N2Z.inj in H.
  rewrite <- (ascii_N_embedding c), <- (ascii_N_embedding d), H. reflexivity.
Qed.

Lemma Compare_refl a : Compare a a = 0.
Proof.
  induction a as [|c a IH]; simpl; [reflexivity|].
  rewrite Ascii.eqb_refl. exact IH.
Qed.

Lemma Compare_eq a : ∀ b, Compare a b = 0 → a = b.
Proof.
  induction a as [|c a IH]; intros [|d b]; simpl; try discriminate; [reflexivity|].
  destruct (Ascii.eqb_spec c d) as [->|Hne].
  - intros H. f_equal. apply IH. exact H.
  - intros H. exfalso. apply Hne, code_inj. lia.
Qed.

Lemma Compare_trans a : ∀ b c, Compare a b < 0 → Compare b c < 0 → Compare a c < 0.
Proof.
  induction a as [|x a IH]; intros [|y b] [|z c]; simpl; try lia.
  destruct (Ascii.eqb_spec x y) as [->|Hxy];
    destruct (Ascii.eqb_spec y z) as [->|Hyz].
  - apply IH.
  - lia.
  - destruct (Ascii.eqb_spec x z); [contradiction | lia].
  - destruct (Ascii.eqb_spec x z) as [->|Hxz]; [lia | lia].
Qed.

Lemma Compare_asym a : ∀ b, Compare a b < 0 → ¬ Compare b a < 0.
Proof.
  intros b H1 H2. pose proof (Compare_trans _ _ _ H1 H2) as H.
  rewrite Compare_refl in H. lia.
Qed.

Lemma Compare_total a : ∀ b, a ≠ b → Compare a b < 0 ∨ Compare b a < 0.
Proof.
  induction a as [|x a IH]; intros [|y b] Hne; simpl; try lia; [congruence|].
  destruct (Ascii.eqb_spec x y) as [->|Hxy].
  - rewrite Ascii.eqb_refl. apply IH. congruence.
  - destruct (Ascii.eqb_spec y x) as [->|_]; [contradiction|].
    assert (Z.of_N (N_of_ascii x) ≠ Z.of_N (N_of_ascii y))
      by (intros Hc; apply Hxy, code_inj, Hc).
    lia.
Qed.

(** *** [GroupBy] *)

Section GroupBy_facts.
Context {K A : Type} `{EqDecision K} (f : A → K).

Lemma GroupBy_add_keys key x (groups : list (IGrouping K A)) :
  map GetKey (GroupBy_add key x groups)
  = if decide (key ∈ map GetKey groups) then map GetKey groups
    else map GetKey groups ++ [key].
Proof.
  induction groups as [|g rest IH]; simpl.
  - destruct (decide (key ∈ [])) as [Hin|_]; [inversion Hin | reflexivity].
  - destruct (decide (GetKey g = key)) as [Heq|Hne]; simpl.
    + destruct (decide (key ∈ GetKey g :: map GetKey rest)) as [_|Hnin];
        [reflexivity|].
      exfalso. apply Hnin. rewrite Heq. apply list_elem_of_here.
    + rewrite IH.
      destruct (decide (key ∈ map GetKey rest)) as [Hin|Hnin];
        destruct (decide (key ∈ GetKey g :: map GetKey rest)) as [Hin'|Hnin'];
        try reflexivity.
      * exfalso. apply Hnin'. apply list_elem_of_further. exact Hin.
      * exfalso. apply elem_of_cons in Hin' as [Heq|Hin']; [congruence | contradiction].
Qed.

Lemma GroupBy_add_elem key x (groups : list (IGrouping K A)) g' :
  NoDup (map GetKey groups) →
  g' ∈ GroupBy_add key x groups →
  (g' ∈ groups ∧ GetKey g' ≠ key)
  ∨ (∃ g, g ∈ groups ∧ GetKey g = key
          ∧ GetKey g' = key ∧ Members g' = Members g ++ [x])
  ∨ ((key ∉ map GetKey groups) ∧ GetKey g' = key ∧ Members g' = [x]).
Proof.
  induction groups as [|g rest IH]; simpl; intros Hnd Hin.
  - apply list_elem_of_singleton in Hin as ->.
    right. right. split; [intros H; inversion H | auto].
  - apply NoDup_cons in Hnd as [Hg Hnd].
    destruct (decide (GetKey g = key)) as [Heq|Hne].
    + apply elem_of_cons in Hin as [->|Hin].
      * right. left. exists g. simpl. split; [apply list_elem_of_here | auto].
      * left. split; [apply list_elem_of_further; exact Hin|].
        intros Heq'. apply Hg. rewrite Heq, <- Heq'.
        apply list_elem_of_fmap_2. exact Hin.
    + apply elem_of_cons in Hin as [->|Hin].
      * left. split; [apply list_elem_of_here | exact Hne].
      * destruct (IH Hnd Hin) as [[H1 H2]|[(g0 & H1 & H2)|(H1 & H2)]].
        -- left. split; [apply list_elem_of_further; exact H1 | exact H2].
        -- right. left. exists g0. split; [apply list_elem_of_further; exact H1 | exact H2].
        -- right. right. split; [|exact H2].
           intros Hk. apply elem_of_cons in Hk as [Hk|Hk]; [congruence | contradiction].
Qed.

Lemma grouped_add l groups x :
  grouped f l groups → grouped f (l ++ [x]) (GroupBy_add (f x) x groups).
Proof.
  intros (Hnd & Hmem & Hcov). split; [|split].
  - rewrite GroupBy_add_keys. destruct (decide (f x ∈ map GetKey groups)) as [|Hnin];
      [exact Hnd|].
    apply NoDup_app. split; [exact Hnd|]. split.
    + intros k Hk Hk'. apply list_elem_of_singleton in Hk' as ->. contradiction.
    + apply NoDup_singleton.
  - intros g' Hin. rewrite filter_app.
    destruct (GroupBy_add_elem _ _ _ _ Hnd Hin)
      as [[H1 H2]|[(g & H1 & H2 & H3 & H4)|(H1 & H2 & H3)]].
    + destruct (Hmem g' H1) as [Hm Hne].
      rewrite filter_singleton_False by (auto; congruence).
      rewrite app_nil_r. auto.
    + destruct (Hmem g H1) as [Hm Hne].
      rewrite filter_singleton_True by (auto; congruence).
      rewrite H4, Hm, H3, H2. split; [reflexivity|].
      intros Hnil. apply app_eq_nil in Hnil as [_ Hnil]. discriminate.
    + rewrite filter_singleton_True by (auto; congruence).
      rewrite H3. split; [|discriminate].
      assert (Hnone : filter (λ y, f y = GetKey g') l = []).
      { destruct (filter (λ y, f y = GetKey g') l) as [|y rest] eqn:Hfl; [reflexivity|].
        assert (Hy : y ∈ filter (λ y, f y = GetKey g') l)
          by (rewrite Hfl; apply list_elem_of_here).
        apply list_elem_of_filter in Hy as [Hfy Hy].
        exfalso. apply H1. rewrite <- H2, <- Hfy. apply Hcov. exact Hy. }
      rewrite Hnone. reflexivity.
  - intros y Hy. rewrite GroupBy_add_keys.
    apply elem_of_app in Hy as [Hy|Hy].
    + destruct (decide (f x ∈ map GetKey groups)); [auto|].
      apply elem_of_app. left. auto.
    + apply list_elem_of_singleton in Hy as ->.
      destruct (decide (f x ∈ map GetKey groups)) as [Hin|Hnin]; [exact Hin|].
      apply elem_of_app. right. apply list_elem_of_singleton. reflexivity.
Qed.

Lemma grouped_fold l : ∀ l0 groups,
  grouped f l0 groups →
  grouped f (l0 ++ l) (fold_left (λ groups x, GroupBy_add (f x) x groups) l groups).
Proof.
  induction l as [|x rest IH]; intros l0 groups H; simpl.
  - rewrite app_nil_r. exact H.
  - replace (l0 ++ x :: rest) with ((l0 ++ [x]) ++ rest)
      by (rewrite <- app_assoc; reflexivity).
    apply IH. apply grouped_add. exact H.
Qed.

Lemma GroupBy_grouped l : grouped f l (GroupBy f l).
Proof.
  unfold GroupBy. apply (grouped_fold l [] []).
  split; [constructor|]. split; intros ? H; inversion H.
Qed.

(** The keys of the groups are the keys of the elements. *)
Lemma grouped_keys l groups key :
  grouped f l groups → (key ∈ map GetKey groups ↔ ∃ x, x ∈ l ∧ f x = key).
Proof.
  intros (Hnd & Hmem & Hcov). split.
  - intros Hin. apply list_elem_of_fmap in Hin as (g & -> & Hg).
    destruct (Hmem g Hg) as [Hm Hne].
    destruct (Members g) as [|x rest] eqn:Hmg; [contradiction|].
    assert (Hx : x ∈ filter (λ y, f y = GetKey g) l).
    { rewrite <- Hm. apply list_elem_of_here. }
    apply list_elem_of_filter in Hx as [Hfx Hx]. eauto.
  - intros (x & Hx & <-). apply Hcov. exact Hx.
Qed.

End GroupBy_facts.

(** *** [QuickSort] *)

Section QuickSort_facts.
Context {A : Type} (less : A → A → bool).

Lemma filter_split (p : A → bool) (l : list A) :
  List.filter p l ++ List.filter (λ x, negb (p x)) l ≡ₚ l.
Proof.
  induction l as [|x rest IH]; simpl; [reflexivity|].
  destruct (p x); simpl.
  - rewrite IH. reflexivity.
  - rewrite <- Permutation_middle, IH. reflexivity.
Qed.

Lemma QuickSort_Permutation (l : list A) : QuickSort less l ≡ₚ l.
Proof.
  funelim (QuickSort less l); [reflexivity|].
  rewrite H, H0. rewrite <- Permutation_middle.
  rewrite filter_split. reflexivity.
Qed.

Lemma elem_of_QuickSort (l : list A) x : x ∈ QuickSort less l ↔ x ∈ l.
Proof. rewrite QuickSort_Permutation. reflexivity. Qed.

(** The comparer is a strict order: the result has no element before
    one that goes before it. *)
Lemma QuickSort_sorted (l : list A) :
  (∀ a b, less a b = true → less b a = false) →
  (∀ a b c, less a b = true → less b c = true → less a c = true) →
  StronglySorted (λ a b, less b a = false) (QuickSort less l).
Proof.
  intros Hasym Htrans. funelim (QuickSort less l); [constructor|].
  apply StronglySorted_app_2.
  - intros x1 x2 H1 H2.
    apply elem_of_QuickSort, list_elem_of_In, List.filter_In in H1 as [_ H1].
    apply elem_of_cons in H2 as [->|H2]; [apply Hasym; exact H1|].
    apply elem_of_QuickSort, list_elem_of_In, List.filter_In in H2 as [_ H2].
    apply negb_true_iff in H2.
    destruct (less x2 x1) eqn:H21; [|reflexivity].
    rewrite (Htrans _ _ _ H21 H1) in H2. discriminate.
  - apply H; assumption.
  - constructor; [apply H0; assumption|].
    apply Forall_forall. intros x Hx.
    apply elem_of_QuickSort, list_elem_of_In, List.filter_In in Hx as [_ Hx].
    apply negb_true_iff in Hx. exact Hx.
Qed.

End QuickSort_facts.

Lemma SortMeshGroups_asym (a b : IGrouping string MeshPtr) :
  SortMeshGroups a b = true → SortMeshGroups b a = false.
Proof.
  unfold SortMeshGroups. intros H. apply Z.ltb_lt in H. apply Z.ltb_ge.
  pose proof (Compare_asym _ _ H). lia.
Qed.

Lemma SortMeshGroups_trans (a b c : IGrouping string MeshPtr) :
  SortMeshGroups a b = true → SortMeshGroups b c = true → SortMeshGroups a c = true.
Proof.
  unfold SortMeshGroups. intros H1 H2. apply Z.ltb_lt in H1, H2. apply Z.ltb_lt.
  eapply Compare_trans; eassumption.
Qed.

(** Sorted without inversion and with distinct keys: strictly ascending. *)
Lemma sorted_distinct_keys (groups : list (IGrouping string MeshPtr)) :
  StronglySorted (λ a b, SortMeshGroups b a = false) groups →
  NoDup (map GetKey groups) →
  StronglySorted (λ a b, Compare (GetKey a) (GetKey b) < 0) groups.
Proof.
  induction 1 as [|g rest Hs IH Hall]; intros Hnd; [constructor|].
  simpl in Hnd. apply NoDup_cons in Hnd as [Hg Hnd].
  constructor; [apply IH; exact Hnd|].
  apply Forall_forall. intros g' Hg'.
  rewrite Forall_forall in Hall. specialize (Hall g' Hg').
  unfold SortMeshGroups in Hall. apply Z.ltb_ge in Hall.
  destruct (Compare_total (GetKey g) (GetKey g')) as [Hlt|Hlt]; [|exact Hlt|lia].
  intros Heq. apply Hg. rewrite Heq. apply list_elem_of_fmap_2. exact Hg'.
Qed.

Section groupMeshesByName_facts.
Context `{T : EngineTypes}.

Lemma groupMeshesByName_keys (h : gmap MeshPtr MeshData) (meshes : list MeshPtr) key :
  key ∈ map GetKey (groupMeshesByName h meshes)
  ↔ ∃ mesh, mesh ∈ meshes ∧ nameOf h mesh = key.
Proof.
  unfold groupMeshesByName.
  rewrite (QuickSort_Permutation SortMeshGroups (GroupBy (nameOf h) meshes)).
  apply grouped_keys. apply GroupBy_grouped.
Qed.

Lemma groupMeshesByName_NoDup (h : gmap MeshPtr MeshData) (meshes : list MeshPtr) :
  NoDup (map GetKey (groupMeshesByName h meshes)).
Proof.
  unfold groupMeshesByName.
  rewrite (QuickSort_Permutation SortMeshGroups (GroupBy (nameOf h) meshes)).
  apply (GroupBy_grouped (nameOf h) meshes).
Qed.

Lemma groupMeshesByName_sorted (h : gmap MeshPtr MeshData) (meshes : list MeshPtr) :
  StronglySorted (λ a b, Compare (GetKey a) (GetKey b) < 0) (groupMeshesByName h meshes).
Proof.
  apply sorted_distinct_keys; [|apply groupMeshesByName_NoDup].
  apply QuickSort_sorted; [apply SortMeshGroups_asym | apply SortMeshGroups_trans].
Qed.

(** C3.  The groups of a mesh list come out strictly ascending by key
    under [Compare]; every group holds exactly the meshes of its name in
    their order, none is empty, and every mesh has the group of its
    name: the groups partition the list by name.  A permutation of the
    list gives the same sequence of keys, so every name keeps its group
    index. *)
Theorem groupMeshesByName_stable
    (h : gmap MeshPtr MeshData) (meshes meshes' : list MeshPtr) :
  meshes ≡ₚ meshes' →
  StronglySorted (λ a b, Compare (GetKey a) (GetKey b) < 0) (groupMeshesByName h meshes)
  ∧ (∀ g, g ∈ groupMeshesByName h meshes →
       Members g = filter (λ mesh, nameOf h mesh = GetKey g) meshes ∧ Members g ≠ [])
  ∧ (∀ mesh, mesh ∈ meshes →
       ∃ g, g ∈ groupMeshesByName h meshes ∧ GetKey g = nameOf h mesh)
  ∧ map GetKey (groupMeshesByName h meshes') = map GetKey (groupMeshesByName h meshes).
Proof.
  intros Hperm. split; [apply groupMeshesByName_sorted|]. split; [|split].
  - intros g Hg. unfold groupMeshesByName in Hg. apply elem_of_QuickSort in Hg.
    destruct (GroupBy_grouped (nameOf h) meshes) as (_ & Hmem & _). auto.
  - intros mesh Hmesh.
    assert (Hk : nameOf h mesh ∈ map GetKey (groupMeshesByName h meshes)).
    { apply groupMeshesByName_keys. eauto. }
    apply list_elem_of_fmap in Hk as (g & Heq & Hg). eauto.
  - apply (StronglySorted_unique_strong (λ a b : string, Compare a b < 0)).
    + intros a b _ _ H1 H2. exfalso. exact (Compare_asym _ _ H1 H2).
    + apply (StronglySorted_fmap GetKey (λ a b, Compare (GetKey a) (GetKey b) < 0));
        [auto | apply groupMeshesByName_sorted].
    + apply (StronglySorted_fmap GetKey (λ a b, Compare (GetKey a) (GetKey b) < 0));
        [auto | apply groupMeshesByName_sorted].
    + apply NoDup_Permutation; try apply groupMeshesByName_NoDup.
      intros key. rewrite !groupMeshesByName_keys.
      split; intros (mesh & Hin & Hname); exists mesh; split; try exact Hname.
      * rewrite Hperm. exact Hin.
      * rewrite <- Hperm. exact Hin.
Qed.

End groupMeshesByName_facts.
End Grouping_facts.

Section Grouping_witnesses.
Import Sample Examples.

Lemma groupMeshesByName_stable_witness :
  [0; 1; 2; 3]%nat ≡ₚ [3; 2; 1; 0]%nat
  ∧ StronglySorted (λ a b, Compare (GetKey a) (GetKey b) < 0)
      (groupMeshesByName fourNames [0; 1; 2; 3]%nat)
  ∧ (∀ g, g ∈ groupMeshesByName fourNames [0; 1; 2; 3]%nat →
       Members g = filter (λ mesh, nameOf fourNames mesh = GetKey g) [0; 1; 2; 3]%nat
       ∧ Members g ≠ [])
  ∧ (∀ mesh, mesh ∈ [0; 1; 2; 3]%nat →
       ∃ g, g ∈ groupMeshesByName fourNames [0; 1; 2; 3]%nat
            ∧ GetKey g = nameOf fourNames mesh)
  ∧ map GetKey (groupMeshesByName fourNames [3; 2; 1; 0]%nat)
    = map GetKey (groupMeshesByName fourNames [0; 1; 2; 3]%nat).
Proof.
  assert (H : [0; 1; 2; 3]%nat ≡ₚ [3; 2; 1; 0]%nat)
    by exact (Permutation_rev [0; 1; 2; 3]%nat).
  split; [exact H|].
  exact (groupMeshesByName_stable fourNames _ _ H).
Defined.

(** Meshes named A, B, A, C give the groups A, B, C with the meshes of
    each name, also when the list is read backwards. *)
Example groupMeshesByName_run :
  groupMeshesByName fourNames [0; 1; 2; 3]%nat
  = [mkIGrouping "A"%string [0; 2]%nat; mkIGrouping "B"%string [1%nat];
     mkIGrouping "C"%string [3%nat]]
  ∧ map GetKey (groupMeshesByName fourNames [3; 2; 1; 0]%nat)
    = ["A"; "B"; "C"]%string.
Proof. split; vm_compute; reflexivity. Qed.

End Grouping_witnesses.

(** ** Object splitting *)

Section Split_facts.
Context `{E : Engine}.

(** A loop whose body adds one event per element. *)
Lemma forM_events {A} (f : A → M unit) (ev : A → Event) (l : list A) :
  (∀ x, x ∈ l → ∀ s, ∃ s', f x s = Some (tt, s') ∧ events s' = events s ++ [ev x]) →
  ∀ s, ∃ s', forM_ l f s = Some (tt, s') ∧ events s' = events s ++ map ev l.
Proof.
  induction l as [|x rest IH]; intros Hbody s.
  - exists s. simpl. rewrite app_nil_r. auto.
  - destruct (Hbody x (list_elem_of_here _ _) s) as (s1 & Hf & Hev1).
    destruct (IH (λ y Hy, Hbody y (list_elem_of_further _ _ _ Hy)) s1) as (s' & Hrest & Hev).
    exists s'. cbn [forM_]. unfold bind. rewrite Hf. split; [exact Hrest|].
    rewrite Hev, Hev1, <- app_assoc. reflexivity.
Qed.

Lemma elem_of_indicesFrom1 count i :
  i ∈ indicesFrom1 count ↔ 1 ≤ i ≤ Z.of_nat count - 1.
Proof.
  unfold indicesFrom1. rewrite list_elem_of_fmap. split.
  - intros (k & -> & Hk). apply elem_of_seq in Hk. lia.
  - intros Hi. exists (Z.to_nat i). split; [lia|]. apply elem_of_seq. lia.
Qed.

Lemma length_indicesFrom1 count : length (indicesFrom1 count) = (count - 1)%nat.
Proof. unfold indicesFrom1. rewrite length_map, length_seq. reflexivity. Qed.

Lemma splitImport_event context splitOptions objectName s :
  ∃ result s',
    splitImport context splitOptions objectName s = Some (result, s')
    ∧ events s' = events s
                  ++ [EvImport (InputPath context) (splitOutputPath context objectName)
                        splitOptions].
Proof.
  unfold splitImport, logEvent, modify, bind, get, put, ret. simpl.
  destruct (AssetsImportingManager_Import _ _ _ _) as [result [[h f] p]].
  eexists _, _. split; reflexivity.
Qed.

(** C4.  An import of a Model or SkinnedModel with [SplitObjects] set
    and N mesh groups goes on in its own artifact with [SplitObjects]
    false and [ObjectIndex] 0: what is left of the import runs the
    selection with these options.  Before that it calls the import
    orchestrator at the group indices 1, ..., N-1 in this order, N-1
    calls and no other event; the call at index i carries options with
    [SplitObjects] false, [ObjectIndex] i and the cache that points to
    the model data and to its groups. *)
Theorem Import_split_fans_out
    (this : DataRef) (context : CreateAssetContext) (options : Options)
    (data : DataRef) (meshesByName : MeshGroups) (s : State) :
  SplitObjects options = true →
  isModelOrSkinnedModel (Type_ options) = true →
  let first := firstObjectOptions options data meshesByName in
  let indices := indicesFrom1 (length meshesByName) in
  ∃ s',
    Import_split context options data meshesByName s = Some (first, s')
    ∧ Import_loaded this context options data meshesByName s
      = (selected <- Import_select this first data meshesByName ;;
         Import_finish context first (fst selected) (snd selected)) s'
    ∧ SplitObjects first = false ∧ ObjectIndex first = 0
    ∧ events s' = events s ++ map (splitCall context options data meshesByName) indices
    ∧ length indices = (length meshesByName - 1)%nat
    ∧ (∀ i, i ∈ indices ↔ 1 ≤ i ≤ Z.of_nat (length meshesByName) - 1)
    ∧ (∀ i, ∃ inputPath outputPath splitOptions,
         splitCall context options data meshesByName i
         = EvImport inputPath outputPath splitOptions
         ∧ SplitObjects splitOptions = false
         ∧ ObjectIndex splitOptions = i
         ∧ Cached splitOptions = Some (mkCachedData (Some data) (Some meshesByName))).
Proof.
  intros Hsplit Htype first indices.
  assert (Hloop : ∃ s',
             forM_ indices (λ groupIndex,
               group <- Array_at meshesByName groupIndex ;;
               splitImport context (Options_setObjectIndex first groupIndex) (GetKey group) ;;;
               ret tt) s = Some (tt, s')
             ∧ events s' = events s
                           ++ map (splitCall context options data meshesByName) indices).
  { apply forM_events. intros i Hi s0.
    apply elem_of_indicesFrom1 in Hi.
    destruct (meshesByName !! Z.to_nat i) as [group|] eqn:Hg.
    2: { apply lookup_ge_None in Hg. lia. }
    destruct (splitImport_event context (Options_setObjectIndex first i) (GetKey group) s0)
      as (result & s1 & Hrun & Hev).
    exists s1. split.
    - unfold bind at 1.
      assert (Hat : Array_at meshesByName i s0 = Some (group, s0)).
      { apply Array_at_Some. split; [lia | auto]. }
      rewrite Hat. unfold bind. rewrite Hrun. reflexivity.
    - rewrite Hev. unfold splitCall, groupKeyAt. rewrite Hg. reflexivity. }
  destruct Hloop as (s' & Hloop & Hev).
  assert (Hrun : Import_split context options data meshesByName s = Some (first, s')).
  { unfold Import_split. rewrite Hsplit. cbv zeta. simpl Type_.
    unfold first, indices, firstObjectOptions in Hloop.
    destruct (Type_ options); try discriminate;
      unfold bind at 1; rewrite Hloop; reflexivity. }
  exists s'. split; [exact Hrun|]. split.
  { unfold Import_loaded. unfold bind at 1. rewrite Hrun. reflexivity. }
  split; [reflexivity|]. split; [reflexivity|]. split; [exact Hev|].
  split; [apply length_indicesFrom1|]. split; [apply elem_of_indicesFrom1|].
  intros i. eexists _, _, _. split; [reflexivity|]. auto.
Qed.

End Split_facts.

Section Split_witnesses.
Import Sample Examples.

Lemma Import_split_fans_out_witness :
  SplitObjects splitting = true
  ∧ isModelOrSkinnedModel (Type_ splitting) = true
  ∧ length (groupsOf (loaded "three.fbx" "out/three.flax")) = 3%nat
  ∧ ∃ s',
      Import_split (context "three.fbx" "out/three.flax") splitting 0%nat
        (groupsOf (loaded "three.fbx" "out/three.flax"))
        (loaded "three.fbx" "out/three.flax")
      = Some (firstObjectOptions splitting 0%nat
                (groupsOf (loaded "three.fbx" "out/three.flax")), s')
      ∧ events s'
        = events (loaded "three.fbx" "out/three.flax")
          ++ map (splitCall (context "three.fbx" "out/three.flax") splitting 0%nat
                    (groupsOf (loaded "three.fbx" "out/three.flax"))) [1; 2].
Proof.
  assert (H1 : SplitObjects splitting = true) by reflexivity.
  assert (H2 : isModelOrSkinnedModel (Type_ splitting) = true) by reflexivity.
  split; [exact H1|]. split; [exact H2|]. split; [vm_compute; reflexivity|].
  destruct (Import_split_fans_out 0%nat (context "three.fbx" "out/three.flax") splitting
              0%nat (groupsOf (loaded "three.fbx" "out/three.flax"))
              (loaded "three.fbx" "out/three.flax") H1 H2)
    as (s' & Hrun & _ & _ & _ & Hev & _).
  exists s'. split; [exact Hrun|].
  rewrite Hev. f_equal.
Defined.

(** The whole import of the scene with meshes named C, A, B, A: two
    sibling imports, for B and for C, then the chunks of the artifact
    of A. *)
Example Import_split_run :
  (map (λ e, match e with
             | EvImport _ outputPath o => (outputPath, ObjectIndex o, SplitObjects o)
             | _ => (EmptyString, -1, false)
             end)
     ∘ events ∘ snd
   <$> Import (context "three.fbx" "out/three.flax") (Some splitting) start)
  = Some [("out/three B.flax"%string, 1, false); ("out/three C.flax"%string, 2, false);
          (EmptyString, -1, false); (EmptyString, -1, false);
          (EmptyString, -1, false); (EmptyString, -1, false)].
Proof. vm_compute. reflexivity. Qed.

End Split_witnesses.

(** ** Object selection and the persisted options *)

Section Import_facts.
Context `{E : Engine}.

Lemma Import_options_Some context CustomArg s options s1 :
  Import_options context CustomArg s = Some (options, s1) → s1 = s.
Proof.
  unfold Import_options. destruct CustomArg; intros H.
  - inversion H. reflexivity.
  - unfold bind, get, ret in H. inversion H. reflexivity.
Qed.

Lemma Import_load_inl this context options s result s1 :
  Import_load this context options s = Some (inl result, s1) → result = Error.
Proof.
  unfold Import_load.
  destruct (match Cached options with
            | Some cached => Data cached
            | None => None
            end) as [data|].
  - destruct (match Cached options with
              | Some cached => MeshesByName cached
              | None => None
              end); intros H; inversion H.
  - unfold bind at 1, get.
    destruct (ModelTool_ImportModel _ _ _ _) as [p [errorMsg|parsed]].
    + unfold bind, put, ret. intros H. inversion H. reflexivity.
    + intros H. unfold bind at 1, put in H.
      inv_bind H. inv_bind H. inv_bind H. inversion H.
Qed.

Lemma Import_split_options context options data meshesByName s options' s' :
  Import_split context options data meshesByName s = Some (options', s') →
  options' = if SplitObjects options
             then firstObjectOptions options data meshesByName
             else options.
Proof.
  unfold Import_split. destruct (SplitObjects options); intros H.
  - cbv zeta in H. inv_bind H. inversion H. reflexivity.
  - inversion H. reflexivity.
Qed.

Lemma Import_finish_Ok context options data meshesToDelete s context' s' :
  Import_finish context options data meshesToDelete s = Some ((Ok, context'), s') →
  ∃ created, context' = context_setMetadata created (importOptionsMeta created options).
Proof.
  unfold Import_finish. intros H.
  inv_bind H. inv_bind H. inv_bind H. inv_bind H. inv_bind H.
  destruct a3 as [result created]. inv_bind H.
  destruct result; inversion H. exists created. reflexivity.
Qed.

Lemma Import_split_unset context options data meshesByName s :
  SplitObjects options = false →
  Import_split context options data meshesByName s = Some (options, s).
Proof. intros H. unfold Import_split. rewrite H. reflexivity. Qed.

(** C9, as the code has it.  When [SplitObjects] is not set and the
    object index of a Model or SkinnedModel import is negative or not
    below the number of groups, the splitting stage and the selection
    stage return at once: same options, same model data, nothing to
    delete, same state — all parsed meshes, the LODs and the slot table
    are as the parser left them, and no error is raised.  What is left
    of the import (material restore, lightmap repacking, chunk packing)
    starts from that very state. *)
Theorem Import_select_skipped
    (this : DataRef) (context : CreateAssetContext) (options : Options)
    (data : DataRef) (meshesByName : MeshGroups) (s : State) :
  SplitObjects options = false →
  isModelOrSkinnedModel (Type_ options) = true →
  (ObjectIndex options < 0 ∨ Z.of_nat (length meshesByName) ≤ ObjectIndex options) →
  Import_split context options data meshesByName s = Some (options, s)
  ∧ Import_select this options data meshesByName s = Some ((data, []), s)
  ∧ Import_loaded this context options data meshesByName s
    = Import_finish context options data [] s.
Proof.
  intros Hsplit Htype Hindex.
  assert (Hsel : Import_select this options data meshesByName s = Some ((data, []), s)).
  { unfold Import_select.
    destruct Hindex as [Hneg|Hbig].
    - apply Z.leb_gt in Hneg. rewrite Hneg. reflexivity.
    - apply Z.ltb_ge in Hbig. rewrite Hbig, andb_false_r. reflexivity. }
  split; [apply Import_split_unset; exact Hsplit|]. split; [exact Hsel|].
  unfold Import_loaded.
  rewrite (bind_eq _ _ _ _ _ (Import_split_unset context _ data meshesByName s Hsplit)).
  rewrite (bind_eq _ _ _ _ _ Hsel). reflexivity.
Qed.

(** C2, as the code has it.  After an import that returned [Ok] the
    metadata of the context is the text written from the creation
    context and from the options the import ended with: the options it
    was invoked with when [SplitObjects] was not set; else those options
    with [SplitObjects] false, [ObjectIndex] 0 and the cache set. *)
Theorem Import_metadata
    (context : CreateAssetContext) (CustomArg : option Options) (s : State)
    (context' : CreateAssetContext) (s' : State) :
  Import context CustomArg s = Some ((Ok, context'), s') →
  ∃ options data meshesByName created,
    Import_options context CustomArg s = Some (options, s)
    ∧ context'
      = context_setMetadata created
          (importOptionsMeta created
             (if SplitObjects options
              then firstObjectOptions options data meshesByName
              else options)).
Proof.
  unfold Import. intros H.
  inv_bind H. pose proof (Import_options_Some _ _ _ _ _ H0) as ->.
  inv_bind H. inv_bind H.
  destruct a1 as [result|[data meshesByName]].
  - apply Import_load_inl in H2 as ->. inversion H.
  - unfold Import_loaded in H. inv_bind H.
    apply Import_split_options in H3 as ->.
    inv_bind H.
    apply Import_finish_Ok in H as [created ->].
    exists a, data, meshesByName, created. split; [exact H0 | reflexivity].
Qed.

End Import_facts.

Section Import_witnesses.
Import Sample Examples.

Lemma Import_select_skipped_witness :
  SplitObjects defaults = false
  ∧ isModelOrSkinnedModel (Type_ defaults) = true
  ∧ (ObjectIndex defaults < 0
     ∨ Z.of_nat (length (groupsOf (loaded "two.fbx" "out/two.flax")))
       ≤ ObjectIndex defaults)
  ∧ Import_select 0%nat defaults 0%nat (groupsOf (loaded "two.fbx" "out/two.flax"))
      (loaded "two.fbx" "out/two.flax")
    = Some ((0%nat, []), loaded "two.fbx" "out/two.flax")
  ∧ Import_loaded 0%nat (context "two.fbx" "out/two.flax") defaults 0%nat
      (groupsOf (loaded "two.fbx" "out/two.flax")) (loaded "two.fbx" "out/two.flax")
    = Import_finish (context "two.fbx" "out/two.flax") defaults 0%nat []
        (loaded "two.fbx" "out/two.flax").
Proof.
  assert (H1 : SplitObjects defaults = false) by reflexivity.
  assert (H2 : isModelOrSkinnedModel (Type_ defaults) = true) by reflexivity.
  assert (H3 : ObjectIndex defaults < 0
               ∨ Z.of_nat (length (groupsOf (loaded "two.fbx" "out/two.flax")))
                 ≤ ObjectIndex defaults) by (left; reflexivity).
  split; [exact H1|]. split; [exact H2|]. split; [exact H3|].
  exact (proj2 (Import_select_skipped 0%nat (context "two.fbx" "out/two.flax") defaults
                  0%nat (groupsOf (loaded "two.fbx" "out/two.flax"))
                  (loaded "two.fbx" "out/two.flax") H1 H2 H3)).
Defined.

(** C9 as stated fails.  The import of a model with two groups, A and
    B, is invoked with [ObjectIndex] -1 and [SplitObjects] set.  The
    splitting stage hands group B to a sibling import and sets the
    index to 0, so the selection stage runs for group A: the slot table
    of two entries is rebuilt with the one slot A uses.  The model that
    goes on to serialization has one mesh and one slot; the parsed one
    had two of each. *)
Lemma Import_select_runs_when_splitting :
  ObjectIndex splitting = -1
  ∧ isModelOrSkinnedModel (Type_ splitting) = true
  ∧ lod0Meshes (loaded "two.fbx" "out/two.flax") 0%nat = Some [0; 1]%nat
  ∧ slotNames (loaded "two.fbx" "out/two.flax") 0%nat = Some ["red"; "blue"]%string
  ∧ ∃ first s1 s2,
      Import_split (context "two.fbx" "out/two.flax") splitting 0%nat
        (groupsOf (loaded "two.fbx" "out/two.flax")) (loaded "two.fbx" "out/two.flax")
      = Some (first, s1)
      ∧ ObjectIndex first = 0
      ∧ slotNames s1 0%nat = Some ["red"; "blue"]%string
      ∧ Import_select 0%nat first 0%nat (groupsOf (loaded "two.fbx" "out/two.flax")) s1
        = Some ((0%nat, []), s2)
      ∧ lod0Meshes s2 0%nat = Some [1%nat]
      ∧ slotNames s2 0%nat = Some ["red"%string].
Proof.
  split; [reflexivity|]. split; [reflexivity|].
  split; [vm_compute; reflexivity|]. split; [vm_compute; reflexivity|].
  set (split := Import_split (context "two.fbx" "out/two.flax") splitting 0%nat
                  (groupsOf (loaded "two.fbx" "out/two.flax"))
                  (loaded "two.fbx" "out/two.flax")).
  exists (valueOf splitting split), (stateOf split),
    (stateOf (Import_select 0%nat (valueOf splitting split) 0%nat
                (groupsOf (loaded "two.fbx" "out/two.flax")) (stateOf split))).
  split; [apply returned_eq; vm_compute; reflexivity|].
  split; [vm_compute; reflexivity|].
  split; [vm_compute; reflexivity|].
  split; [apply returnedValue_eq; vm_compute; reflexivity|].
  split; vm_compute; reflexivity.
Qed.

Lemma Import_metadata_witness :
  ∃ context' s',
    Import (context "two.fbx" "out/two.flax") (Some defaults) start
    = Some ((Ok, context'), s')
    ∧ ∃ created,
        context' = context_setMetadata created (importOptionsMeta created defaults).
Proof.
  set (run := Import (context "two.fbx" "out/two.flax") (Some defaults) start).
  assert (Hrun : run = Some ((Ok, contextOf run), stateOf run))
    by (apply returnedOk_eq; vm_compute; reflexivity).
  exists (contextOf run), (stateOf run). split; [exact Hrun|].
  destruct (Import_metadata _ _ _ _ _ Hrun)
    as (options & data & meshesByName & created & Hopt & Hmeta).
  inversion Hopt. subst options. exists created. exact Hmeta.
Defined.

(** C2 as stated fails.  The import is invoked with [SplitObjects] set
    and [ObjectIndex] -1 and returns [Ok]; the metadata it leaves say
    [SplitObjects] false and [ObjectIndex] 0, and these are the options
    a later import restores from them. *)
Lemma Import_metadata_differs_when_splitting :
  SplitObjects splitting = true
  ∧ ObjectIndex splitting = -1
  ∧ ∃ context' s' restored,
      Import (context "two.fbx" "out/two.flax") (Some splitting) start
      = Some ((Ok, context'), s')
      ∧ string_of_list_byte (Metadata (Data_ context'))
        = "{ImportPath:two.fbx,Type:0,SplitObjects:false,ObjectIndex:0,RestoreMaterialsOnReimport:true,GenerateSDF:false}"%string
      ∧ Metadata (Data_ context') ≠ importOptionsMeta context' splitting
      ∧ (λ metadata, Options_Deserialize metadata Options_default)
          <$> Document_Parse (Metadata (Data_ context')) = Some restored
      ∧ SplitObjects restored = false
      ∧ ObjectIndex restored = 0.
Proof.
  split; [reflexivity|]. split; [reflexivity|].
  set (run := Import (context "two.fbx" "out/two.flax") (Some splitting) start).
  exists (contextOf run), (stateOf run),
    (Options_setObjectIndex (Options_setSplitObjects defaults false) 0).
  split; [apply returnedOk_eq; vm_compute; reflexivity|].
  split; [vm_compute; reflexivity|].
  split; [vm_compute; discriminate|].
  split; [vm_compute; reflexivity|].
  split; reflexivity.
Qed.

End Import_witnesses.

(** * Further properties of the code *)

(** ** The chunk table *)

Section Chunk_table_facts.
Context `{E : Engine}.

Lemma context_setChunks_id (context : CreateAssetContext) :
  context_setChunks context (Header_Chunks (Data_ context)) = context.
Proof. destruct context as [i t [n c v m]]. reflexivity. Qed.

Lemma lodChunks_before prefix buffers : ∀ lodIndex chunks j,
  j ≤ lodIndex →
  lodChunks prefix lodIndex buffers chunks !! j = chunks !! j.
Proof.
  induction buffers as [|b rest IH]; simpl; intros lodIndex chunks j Hj; [reflexivity|].
  rewrite IH by lia. apply lookup_insert_ne. lia.
Qed.

Lemma lodChunks_after prefix buffers : ∀ lodIndex chunks j,
  lodIndex + Z.of_nat (length buffers) < j →
  lodChunks prefix lodIndex buffers chunks !! j = chunks !! j.
Proof.
  induction buffers as [|b rest IH]; simpl; intros lodIndex chunks j Hj; [reflexivity|].
  rewrite IH by lia. apply lookup_insert_ne. lia.
Qed.

Lemma lodChunks_at prefix buffers : ∀ lodIndex chunks k buffer,
  buffers !! k = Some buffer →
  lodChunks prefix lodIndex buffers chunks !! (lodIndex + Z.of_nat k + 1)
  = Some (prefix ++ buffer).
Proof.
  induction buffers as [|b rest IH]; simpl; intros lodIndex chunks k buffer Hk;
    [discriminate|].
  destruct k as [|k]; simpl in Hk.
  - inversion Hk. subst. rewrite lodChunks_before by lia.
    replace (lodIndex + Z.of_nat 0 + 1) with (lodIndex + 1) by lia.
    apply lookup_insert_eq.
  - replace (lodIndex + Z.of_nat (S k) + 1) with (lodIndex + 1 + Z.of_nat k + 1) by lia.
    apply IH. exact Hk.
Qed.

(** A LOD loop that ran to its end: the context it leaves and the
    events it made. *)
Lemma packLODs_run pack prefix lods : ∀ context stream lodIndex s c' st' s',
  packLODs pack prefix context stream lods lodIndex s = Some (inr (c', st'), s') →
  heap s' = heap s ∧ frames s' = frames s ∧ platform s' = platform s ∧
  ∃ buffers,
    Forall2 (λ lod buffer, packedMeshes pack (heap s) (Meshes lod) = Some buffer)
      lods buffers
    ∧ c' = context_setChunks context
             (lodChunks prefix lodIndex buffers (Header_Chunks (Data_ context)))
    ∧ events s' = events s ++ lodEvents prefix lodIndex buffers.
Proof.
  induction lods as [|lod rest IH]; simpl; intros context stream lodIndex s c' st' s' H.
  - inversion H. subst. repeat split; try reflexivity.
    exists []. simpl. rewrite context_setChunks_id, app_nil_r.
    split; [constructor | auto].
  - inv_bind H. apply packMeshes_inv in H0 as [-> Hpack].
    destruct a as [stream1|]; [|inversion H].
    destruct (stream_rewind_Write stream prefix) as [Hd Hok].
    destruct (Hpack stream1 eq_refl Hok) as (data & Hp & Hsd & Hok1).
    rewrite Hd in Hsd.
    unfold AllocateChunk, Chunk_Copy, logEvent, modify in H.
    unfold bind at 1 2 in H. simpl in H.
    destruct (AllocateChunk_fails (Header_Chunks (Data_ context)) (lodIndex + 1)) eqn:Hf;
      simpl in H; [inversion H|].
    unfold bind at 1 2 in H. simpl in H.
    apply IH in H as (Hh & Hfr & Hpl & buffers & HF & Hc & Hev). simpl in *.
    repeat split; try assumption.
    exists (data :: buffers). split; [constructor; assumption|]. split.
    + rewrite Hc. simpl. rewrite insert_insert_eq, Hsd. reflexivity.
    + rewrite Hev, Hsd, <- !app_assoc. reflexivity.
Qed.

(** Whatever a LOD loop returns, it changes nothing of the context but
    the chunk table. *)
Lemma packLODs_keeps pack prefix lods : ∀ context stream lodIndex s r s',
  packLODs pack prefix context stream lods lodIndex s = Some (r, s') →
  ∃ chunks,
    match r with
    | inl (_, c') => c' = context_setChunks context chunks
    | inr (c', _) => c' = context_setChunks context chunks
    end.
Proof.
  induction lods as [|lod rest IH]; simpl; intros context stream lodIndex s r s' H.
  - inversion H. subst. exists (Header_Chunks (Data_ context)).
    rewrite context_setChunks_id. reflexivity.
  - inv_bind H. destruct a as [stream1|].
    + unfold AllocateChunk, Chunk_Copy, logEvent, modify in H.
      unfold bind at 1 2 in H. simpl in H.
      destruct (AllocateChunk_fails (Header_Chunks (Data_ context)) (lodIndex + 1));
        simpl in H.
      * inversion H. subst. exists (Header_Chunks (Data_ context)).
        rewrite context_setChunks_id. reflexivity.
      * unfold bind at 1 2 in H. simpl in H.
        apply IH in H as [chunks Hr]. exists chunks.
        destruct r as [[result c']|[c' st']]; exact Hr.
    + inversion H. subst. exists (Header_Chunks (Data_ context)).
      rewrite context_setChunks_id. reflexivity.
Qed.

Lemma bind_ext {A B} (m : M A) (k1 k2 : A → M B) s :
  (∀ a s1, m s = Some (a, s1) → k1 a s1 = k2 a s1) →
  bind m k1 s = bind m k2 s.
Proof.
  intros H. unfold bind. destruct (m s) as [[a s1]|]; [|reflexivity].
  apply H. reflexivity.
Qed.

Lemma AllocateChunk_Some context index s failed c' s' :
  AllocateChunk context index s = Some ((failed, c'), s') →
  failed = AllocateChunk_fails (Header_Chunks (Data_ context)) index
  ∧ s' = State_addEvent s (EvAllocateChunk index failed)
  ∧ c' = (if failed then context
          else context_setChunks context (<[index := []]> (Header_Chunks (Data_ context)))).
Proof.
  unfold AllocateChunk, logEvent, modify, bind, ret.
  destruct (AllocateChunk_fails _ _); intros H; inversion H; auto.
Qed.

Lemma Chunk_Copy_Some context index data s c' s' :
  Chunk_Copy context index data s = Some (c', s') →
  s' = State_addEvent s (EvChunkCopy index data)
  ∧ c' = context_setChunks context (<[index := data]> (Header_Chunks (Data_ context))).
Proof.
  unfold Chunk_Copy, logEvent, modify, bind, ret. intros H. inversion H. auto.
Qed.

(** X1.  After [CreateSkinnedModel] returned [Ok] the chunk table of
    the context holds the header in chunk 0 and, for the LOD at each
    index k, the byte 1 followed by the packed meshes of that LOD in
    chunk k+1; every chunk with another index holds what it held
    before; paths and metadata of the context are untouched. *)
Theorem CreateSkinnedModel_chunk_table
    (context : CreateAssetContext) (modelData : DataRef) (options : option Options)
    (d : ModelData) (s : State) (c' : CreateAssetContext) (s' : State) :
  frames s !! modelData = Some d →
  CreateSkinnedModel context modelData options s = Some ((Ok, c'), s') →
  InputPath c' = InputPath context
  ∧ TargetAssetPath c' = TargetAssetPath context
  ∧ Metadata (Data_ c') = Metadata (Data_ context)
  ∧ (∃ header,
       ModelData_Pack2SkinnedModelHeader (heap s) d = Some header
       ∧ Header_Chunks (Data_ c') !! 0 = Some header)
  ∧ (∀ k lod, LODs d !! k = Some lod →
       ∃ buffer,
         packedMeshes MeshData_Pack2SkinnedModel (heap s) (Meshes lod) = Some buffer
         ∧ Header_Chunks (Data_ c') !! (Z.of_nat k + 1) = Some (Byte.x01 :: buffer))
  ∧ (∀ j, j < 0 ∨ Z.of_nat (length (LODs d)) < j →
       Header_Chunks (Data_ c') !! j = Header_Chunks (Data_ context) !! j).
Proof.
  intros Hd H. unfold CreateSkinnedModel in H.
  rewrite (bind_eq _ _ _ _ _ (readModel_eq _ _ _ Hd)) in H.
  unfold bind at 1, get in H.
  destruct (ModelData_Pack2SkinnedModelHeader (heap s) d) as [header|] eqn:Hh;
    [|inversion H].
  unfold AllocateChunk, Chunk_Copy, logEvent, modify in H.
  unfold bind at 1 2 in H. simpl in H.
  destruct (AllocateChunk_fails _ 0) eqn:Hf; simpl in H; [inversion H|].
  unfold bind at 1 2 in H. simpl in H. inv_bind H.
  destruct a as [[result c0]|[c0 st]].
  - inversion H. subst.
    apply packLODs_inv in H0 as (_ & _ & _ & evs & _ & [[Hr _]|[Hr _]]); discriminate.
  - inversion H. subst c0 s0. clear H.
    apply packLODs_run in H0 as (_ & _ & _ & buffers & HF & -> & _). simpl in *.
    rewrite stream_header, insert_insert_eq.
    split; [reflexivity|]. split; [reflexivity|]. split; [reflexivity|].
    split; [|split].
    + exists header. split; [reflexivity|].
      rewrite lodChunks_before by lia. apply lookup_insert_eq.
    + intros k lod Hk.
      destruct (Forall2_lookup_l _ _ _ _ _ HF Hk) as (buffer & Hb & Hp).
      exists buffer. split; [exact Hp|].
      exact (lodChunks_at [Byte.x01] buffers 0 _ k buffer Hb).
    + intros j Hj. rewrite (Forall2_length _ _ _ HF) in Hj.
      destruct Hj as [Hj|Hj].
      * rewrite lodChunks_before by lia. apply lookup_insert_ne. lia.
      * rewrite lodChunks_after by lia. apply lookup_insert_ne. lia.
Qed.

(** X2.  A signed distance field that is not asked for, or that the
    generator fails to produce, changes nothing: [CreateModel] returns
    what it returns without options — same result, same chunks, same
    events.  A failed generation is no error. *)
Theorem CreateModel_without_SDF
    (context : CreateAssetContext) (modelData : DataRef) (options : Options)
    (d : ModelData) (s : State) :
  frames s !! modelData = Some d →
  sdfOf context (Some options) (heap s) d = None →
  CreateModel context modelData (Some options) s = CreateModel context modelData None s.
Proof.
  intros Hd Hsdf. unfold CreateModel. cbv zeta.
  apply bind_ext. intros d0 s1 Hd0. apply readModel_Some in Hd0 as [Hd0 ->].
  assert (d0 = d) as -> by congruence.
  apply bind_ext. intros s2 s1 Hget. unfold get in Hget. inversion Hget. subst s2 s1.
  destruct (ModelData_Pack2ModelHeader (heap s) d) as [header|]; [|reflexivity].
  apply bind_ext. intros [failed c1] s1 Halloc.
  apply AllocateChunk_Some in Halloc as (_ & -> & Hc1).
  destruct failed; [reflexivity|].
  apply bind_ext. intros c2 s2 Hcopy.
  apply Chunk_Copy_Some in Hcopy as (-> & ->).
  apply bind_ext. intros r s3 Hpack.
  destruct r as [returned|[c3 st]]; [reflexivity|].
  apply packLODs_run in Hpack as (Hheap & _ & _ & buffers & _ & -> & _).
  unfold sdfOf in Hsdf. destruct (GenerateSDF options); [|reflexivity].
  unfold bind, get. rewrite Hheap. subst c1. simpl in *. rewrite Hsdf. reflexivity.
Qed.

(** How [CreateModel] ends once the LOD loop is through (lines 473-485). *)
Lemma CreateModel_tail options d (c0 : CreateAssetContext) st s0 r c' s' :
  (match options with
   | Some options =>
       if GenerateSDF options then
         let stream := stream_SetPosition st 0 in
         s <- get ;;
         match ModelTool_GenerateModelSDF (heap s) d (SDFResolution options)
                 (Z.of_nat (length (LODs d)) - 1) (TargetAssetPath c0) with
         | Some sdf =>
             let stream := stream_Write stream sdf in
             r <- AllocateChunk c0 15 ;;
             let '(failed, context) := r in
             if failed then ret (CannotAllocateChunk, context)
             else
               context <- Chunk_Copy context 15 (stream_data stream) ;;
               ret (Ok, context)
         | None => ret (Ok, c0)
         end
       else ret (Ok, c0)
   | None => ret (Ok, c0)
   end) s0 = Some ((r, c'), s') →
  match sdfOf c0 options (heap s0) d with
  | None => r = Ok ∧ c' = c0 ∧ s' = s0
  | Some sdf =>
      if AllocateChunk_fails (Header_Chunks (Data_ c0)) 15
      then r = CannotAllocateChunk ∧ c' = c0
           ∧ s' = State_addEvent s0 (EvAllocateChunk 15 true)
      else r = Ok
           ∧ c' = context_setChunks c0 (<[15 := sdf]> (Header_Chunks (Data_ c0)))
           ∧ s' = State_addEvent (State_addEvent s0 (EvAllocateChunk 15 false))
                    (EvChunkCopy 15 sdf)
  end.
Proof.
  intros H. unfold sdfOf. destruct options as [options|].
  - destruct (GenerateSDF options).
    + cbv zeta in H. unfold bind at 1, get in H.
      destruct (ModelTool_GenerateModelSDF _ _ _ _ _) as [sdf|].
      * inv_bind H. destruct a as [failed c1].
        apply AllocateChunk_Some in H0 as (Hf & -> & ->).
        rewrite <- Hf. destruct failed; [inversion H; auto|].
        inv_bind H. apply Chunk_Copy_Some in H0 as (-> & ->).
        inversion H. subst.
        destruct (stream_rewind_Write st sdf) as [-> _].
        simpl. rewrite insert_insert_eq. auto.
      * inversion H. auto.
    + inversion H. auto.
  - inversion H. auto.
Qed.

(** X3.  After [CreateModel] returned [Ok] the chunk table holds the
    header in chunk 0, the signed distance field in chunk 15 when one
    was asked for and generated, and the packed meshes of the LOD at
    each index k in chunk k+1 (unless that is chunk 15 and the field
    went there); the chunks with an index below 0 or above the number
    of LODs, chunk 15 with the field apart, hold what they held before;
    paths and metadata of the context are untouched. *)
Theorem CreateModel_chunk_table
    (context : CreateAssetContext) (modelData : DataRef) (options : option Options)
    (d : ModelData) (s : State) (c' : CreateAssetContext) (s' : State) :
  frames s !! modelData = Some d →
  CreateModel context modelData options s = Some ((Ok, c'), s') →
  let sdf := sdfOf context options (heap s) d in
  InputPath c' = InputPath context
  ∧ TargetAssetPath c' = TargetAssetPath context
  ∧ Metadata (Data_ c') = Metadata (Data_ context)
  ∧ (∃ header,
       ModelData_Pack2ModelHeader (heap s) d = Some header
       ∧ Header_Chunks (Data_ c') !! 0 = Some header)
  ∧ (∀ k lod, LODs d !! k = Some lod →
       Z.of_nat k + 1 ≠ 15 ∨ sdf = None →
       ∃ buffer,
         packedMeshes MeshData_Pack2Model (heap s) (Meshes lod) = Some buffer
         ∧ Header_Chunks (Data_ c') !! (Z.of_nat k + 1) = Some buffer)
  ∧ (∀ field, sdf = Some field → Header_Chunks (Data_ c') !! 15 = Some field)
  ∧ (∀ j, j < 0 ∨ Z.of_nat (length (LODs d)) < j →
       j ≠ 15 ∨ sdf = None →
       Header_Chunks (Data_ c') !! j = Header_Chunks (Data_ context) !! j).
Proof.
  intros Hd H sdf. unfold CreateModel in H.
  rewrite (bind_eq _ _ _ _ _ (readModel_eq _ _ _ Hd)) in H.
  unfold bind at 1, get in H.
  destruct (ModelData_Pack2ModelHeader (heap s) d) as [header|] eqn:Hh; [|inversion H].
  inv_bind H. destruct a as [failed c1].
  apply AllocateChunk_Some in H0 as (_ & -> & ->).
  destruct failed; [inversion H|].
  inv_bind H. apply Chunk_Copy_Some in H0 as (-> & ->).
  inv_bind H. destruct a as [[result c0]|[c0 st]].
  - inversion H. subst.
    apply packLODs_inv in H0 as (_ & _ & _ & evs & _ & [[Hr _]|[Hr _]]); discriminate.
  - apply packLODs_run in H0 as (Hheap & _ & _ & buffers & HF & Hc0 & _).
    simpl in Hheap, HF, Hc0. rewrite stream_header, insert_insert_eq in Hc0.
    apply CreateModel_tail in H.
    assert (Hsdf : sdfOf c0 options (heap s0) d = sdf).
    { rewrite Hheap, Hc0. reflexivity. }
    rewrite Hsdf in H.
    assert (H' : (sdf = None ∧ c' = c0)
                 ∨ (∃ field, sdf = Some field
                      ∧ c' = context_setChunks c0
                               (<[15 := field]> (Header_Chunks (Data_ c0))))).
    { destruct sdf as [field|].
      - destruct (AllocateChunk_fails _ 15).
        + destruct H as (Hr & _). discriminate.
        + destruct H as (_ & -> & _). right. eauto.
      - destruct H as (_ & -> & _). auto. }
    clear H. rename H' into H.
    assert (Hlods : ∀ k lod, LODs d !! k = Some lod →
              ∃ buffer,
                packedMeshes MeshData_Pack2Model (heap s) (Meshes lod) = Some buffer
                ∧ Header_Chunks (Data_ c0) !! (Z.of_nat k + 1) = Some buffer).
    { intros k lod Hk.
      destruct (Forall2_lookup_l _ _ _ _ _ HF Hk) as (buffer & Hb & Hp).
      exists buffer. split; [exact Hp|]. rewrite Hc0. simpl.
      exact (lodChunks_at [] buffers 0 _ k buffer Hb). }
    assert (Hzero : Header_Chunks (Data_ c0) !! 0 = Some header).
    { rewrite Hc0. simpl. rewrite lodChunks_before by lia. apply lookup_insert_eq. }
    assert (Hrest : ∀ j, j < 0 ∨ Z.of_nat (length (LODs d)) < j →
              Header_Chunks (Data_ c0) !! j = Header_Chunks (Data_ context) !! j).
    { intros j Hj. rewrite (Forall2_length _ _ _ HF) in Hj. rewrite Hc0. simpl.
      destruct Hj as [Hj|Hj].
      - rewrite lodChunks_before by lia. apply lookup_insert_ne. lia.
      - rewrite lodChunks_after by lia. apply lookup_insert_ne. lia. }
    assert (Hpaths : InputPath c0 = InputPath context
                     ∧ TargetAssetPath c0 = TargetAssetPath context
                     ∧ Metadata (Data_ c0) = Metadata (Data_ context)).
    { rewrite Hc0. auto. }
    destruct H as [[Hnone ->]|(field & Hsome & ->)].
    + split; [apply Hpaths|]. split; [apply Hpaths|]. split; [apply Hpaths|].
      split; [eauto|]. split; [auto|]. split; [congruence | auto].
    + simpl. split; [apply Hpaths|]. split; [apply Hpaths|]. split; [apply Hpaths|].
      split; [|split; [|split]].
      * exists header. split; [reflexivity|].
        rewrite lookup_insert_ne by lia. exact Hzero.
      * intros k lod Hk [Hne|Hn]; [|congruence].
        destruct (Hlods k lod Hk) as (buffer & Hp & Hb).
        exists buffer. split; [exact Hp|].
        rewrite lookup_insert_ne by lia. exact Hb.
      * intros field' Hf. rewrite lookup_insert_eq. congruence.
      * intros j Hj [Hne|Hn]; [|congruence].
        rewrite lookup_insert_ne by lia. apply Hrest. exact Hj.
Qed.

(** What a create function may change: the events, and of the context
    the type, the version and the chunk table; and what it may return. *)
Lemma CreateModel_frame context modelData options s r c' s' :
  CreateModel context modelData options s = Some ((r, c'), s') →
  heap s' = heap s ∧ frames s' = frames s ∧ platform s' = platform s
  ∧ r ≠ InvalidTypeID
  ∧ ∃ chunks,
      c' = context_setChunks
             (IMPORT_SETUP context Model_TypeName Model_SerializedVersion) chunks.
Proof.
  intros H. unfold CreateModel in H.
  inv_bind H. apply readModel_Some in H0 as [Hd ->].
  unfold bind at 1, get in H.
  destruct (ModelData_Pack2ModelHeader (heap s) a) as [header|].
  2: { inversion H. subst. repeat split; try reflexivity; try discriminate.
       eexists. symmetry. apply context_setChunks_id. }
  inv_bind H. destruct a0 as [failed c1].
  apply AllocateChunk_Some in H0 as (_ & -> & ->).
  destruct failed.
  { inversion H. subst. repeat split; try reflexivity; try discriminate.
    eexists. symmetry. apply context_setChunks_id. }
  inv_bind H. apply Chunk_Copy_Some in H0 as (-> & ->).
  inv_bind H.
  pose proof (packLODs_keeps _ _ _ _ _ _ _ _ _ H0) as [chunks Hkeep].
  apply packLODs_inv in H0 as (Hh & Hf & Hp & evs & _ & Hr). simpl in Hh, Hf, Hp.
  destruct a0 as [[result c0]|[c0 st]].
  - inversion H. subst. repeat split; try assumption.
    + destruct Hr as [[-> _]|[-> _]]; discriminate.
    + exists chunks. reflexivity.
  - apply CreateModel_tail in H. subst c0.
    destruct (sdfOf _ _ _ _) as [sdf|].
    + destruct (AllocateChunk_fails _ 15).
      * destruct H as (-> & -> & ->). repeat split; try assumption; try discriminate.
        exists chunks. reflexivity.
      * destruct H as (-> & -> & ->). repeat split; try assumption; try discriminate.
        eexists. reflexivity.
    + destruct H as (-> & -> & ->). repeat split; try assumption; try discriminate.
      exists chunks. reflexivity.
Qed.

Lemma CreateSkinnedModel_frame context modelData options s r c' s' :
  CreateSkinnedModel context modelData options s = Some ((r, c'), s') →
  heap s' = heap s ∧ frames s' = frames s ∧ platform s' = platform s
  ∧ r ≠ InvalidTypeID
  ∧ ∃ chunks,
      c' = context_setChunks
             (IMPORT_SETUP context SkinnedModel_TypeName SkinnedModel_SerializedVersion)
             chunks.
Proof.
  intros H. unfold CreateSkinnedModel in H.
  inv_bind H. apply readModel_Some in H0 as [Hd ->].
  unfold bind at 1, get in H.
  destruct (ModelData_Pack2SkinnedModelHeader (heap s) a) as [header|].
  2: { inversion H. subst. repeat split; try reflexivity; try discriminate.
       eexists. symmetry. apply context_setChunks_id. }
  inv_bind H. destruct a0 as [failed c1].
  apply AllocateChunk_Some in H0 as (_ & -> & ->).
  destruct failed.
  { inversion H. subst. repeat split; try reflexivity; try discriminate.
    eexists. symmetry. apply context_setChunks_id. }
  inv_bind H. apply Chunk_Copy_Some in H0 as (-> & ->).
  inv_bind H.
  pose proof (packLODs_keeps _ _ _ _ _ _ _ _ _ H0) as [chunks Hkeep].
  apply packLODs_inv in H0 as (Hh & Hf & Hp & evs & _ & Hr). simpl in Hh, Hf, Hp.
  destruct a0 as [[result c0]|[c0 st]]; inversion H; subst;
    repeat split; try assumption; try discriminate.
  - destruct Hr as [[-> _]|[-> _]]; discriminate.
  - exists chunks. reflexivity.
  - exists chunks. reflexivity.
Qed.

Lemma CreateAnimation_frame context modelData options s r c' s' :
  CreateAnimation context modelData options s = Some ((r, c'), s') →
  heap s' = heap s ∧ frames s' = frames s ∧ platform s' = platform s
  ∧ r ≠ InvalidTypeID
  ∧ ∃ chunks,
      c' = context_setChunks
             (IMPORT_SETUP context Animation_TypeName Animation_SerializedVersion) chunks.
Proof.
  intros H. unfold CreateAnimation in H.
  inv_bind H. apply readModel_Some in H0 as [Hd ->].
  unfold bind at 1, get in H. cbv zeta in H.
  destruct (ModelData_Pack2AnimationHeader (heap s) a _) as [header|].
  2: { inversion H. subst. repeat split; try reflexivity; try discriminate.
       eexists. symmetry. apply context_setChunks_id. }
  inv_bind H. destruct a0 as [failed c1].
  apply AllocateChunk_Some in H0 as (_ & -> & ->).
  destruct failed.
  { inversion H. subst. repeat split; try reflexivity; try discriminate.
    eexists. symmetry. apply context_setChunks_id. }
  inv_bind H. apply Chunk_Copy_Some in H0 as (-> & ->).
  inversion H. subst. repeat split; try reflexivity; try discriminate.
  eexists. reflexivity.
Qed.

(** X4.  The three create functions only read the model: whatever
    they return, the meshes, the model data and the platform are what
    they were, and of the context the paths and the metadata are what
    they were. *)
Theorem create_functions_read_only
    (create : CreateAssetContext → DataRef → option Options →
              M (CreateAssetResult * CreateAssetContext))
    (context : CreateAssetContext) (modelData : DataRef) (options : option Options)
    (s : State) (r : CreateAssetResult) (c' : CreateAssetContext) (s' : State) :
  create = CreateModel ∨ create = CreateSkinnedModel ∨ create = CreateAnimation →
  create context modelData options s = Some ((r, c'), s') →
  heap s' = heap s ∧ frames s' = frames s ∧ platform s' = platform s
  ∧ InputPath c' = InputPath context
  ∧ TargetAssetPath c' = TargetAssetPath context
  ∧ Metadata (Data_ c') = Metadata (Data_ context).
Proof.
  intros [Hc|[Hc|Hc]] H; subst create.
  - apply CreateModel_frame in H as (Hh & Hf & Hp & _ & chunks & ->). auto 10.
  - apply CreateSkinnedModel_frame in H as (Hh & Hf & Hp & _ & chunks & ->). auto 10.
  - apply CreateAnimation_frame in H as (Hh & Hf & Hp & _ & chunks & ->). auto 10.
Qed.

(** X5.  [CreateAnimation] packs the animation at [ObjectIndex], and
    the first one when there are no options or the index is -1.  It
    returns [Error] when the header cannot be packed, and then no chunk
    was asked for; [CannotAllocateChunk] when chunk 0 cannot be
    allocated; else [Ok], and then chunk 0 holds the header, every other
    chunk is what it was, and the events are the allocation and the
    write of chunk 0. *)
Theorem CreateAnimation_chunk
    (context : CreateAssetContext) (modelData : DataRef) (options : option Options)
    (d : ModelData) (s : State) :
  frames s !! modelData = Some d →
  ∃ r c' s',
    CreateAnimation context modelData options s = Some ((r, c'), s')
    ∧ match ModelData_Pack2AnimationHeader (heap s) d (animIndexOf options) with
      | None =>
          r = Error ∧ s' = s
          ∧ Header_Chunks (Data_ c') = Header_Chunks (Data_ context)
      | Some header =>
          if AllocateChunk_fails (Header_Chunks (Data_ context)) 0
          then r = CannotAllocateChunk
               ∧ events s' = events s ++ [EvAllocateChunk 0 true]
               ∧ Header_Chunks (Data_ c') = Header_Chunks (Data_ context)
          else r = Ok
               ∧ events s' = events s ++ [EvAllocateChunk 0 false; EvChunkCopy 0 header]
               ∧ Header_Chunks (Data_ c') = <[0 := header]> (Header_Chunks (Data_ context))
      end.
Proof.
  intros Hd. unfold CreateAnimation.
  rewrite (bind_eq _ _ _ _ _ (readModel_eq _ _ _ Hd)).
  unfold bind at 1, get. cbv zeta. fold (animIndexOf options).
  destruct (ModelData_Pack2AnimationHeader (heap s) d (animIndexOf options)) as [header|].
  - unfold AllocateChunk, Chunk_Copy, logEvent, modify, bind, ret. simpl.
    destruct (AllocateChunk_fails (Header_Chunks (Data_ context)) 0) eqn:Hf.
    + eexists _, _, _. split; [reflexivity|]. simpl. auto.
    + eexists _, _, _. split; [reflexivity|]. simpl.
      rewrite stream_header, insert_insert_eq, <- app_assoc. auto.
  - eexists _, _, _. split; [reflexivity|]. auto.
Qed.

(** X6.  [Create] on a model with a mesh in LOD 0 stores the
    recomputed LOD screen sizes in the model it was given, whatever the
    serialization returns afterwards, and serializes that model as
    [CreateModel] does without options: no signed distance field. *)
Theorem Create_recomputes_screen_sizes
    (context : CreateAssetContext) (modelData : DataRef) (d : ModelData) (s : State)
    (r : CreateAssetResult) (c' : CreateAssetContext) (s' : State) :
  frames s !! modelData = Some d →
  (∃ lod0 rest mesh meshes, LODs d = lod0 :: rest ∧ Meshes lod0 = mesh :: meshes) →
  Create context (Some modelData) s = Some ((r, c'), s') →
  frames s' = <[modelData := ModelData_CalculateLODsScreenSizes d]> (frames s)
  ∧ heap s' = heap s ∧ platform s' = platform s
  ∧ CreateModel context modelData None
      (State_setFrames s (<[modelData := ModelData_CalculateLODsScreenSizes d]> (frames s)))
    = Some ((r, c'), s').
Proof.
  intros Hd (lod0 & rest & mesh & meshes & Hlods & Hmeshes) H.
  unfold Create in H.
  rewrite (bind_eq _ _ _ _ _ (readModel_eq _ _ _ Hd)) in H.
  rewrite Hlods, Hmeshes in H.
  unfold bind at 1, writeModel, modify in H.
  pose proof (CreateModel_frame _ _ _ _ _ _ _ H) as (Hh & Hf & Hp & _).
  simpl in Hh, Hf, Hp. auto.
Qed.

End Chunk_table_facts.

(** ** The import as a whole *)

Section Import_results.
Context `{E : Engine}.







(** X9.  When the options carry no cached model and the parser
    reports an error, the import returns [Error] with the context it was
    given.  It made no event — no sibling import, no chunk — and no
    mesh; it leaves behind its own empty model frame and the platform
    as the parser left it. *)
Theorem Import_parse_failure
    (context : CreateAssetContext) (options : Options) (s : State)
    (p : Platform) (errorMsg : string) :
  cachedDataOf options = None →
  ModelTool_ImportModel (platform s) (InputPath context) options
    (autoImportOutputOf context options) = (p, inl errorMsg) →
  Import context (Some options) s
  = Some ((Error, context),
          mkState (heap s) (<[fresh (dom (frames s)) := ModelData_empty]> (frames s))
            p (events s)).
Proof.
  intros Hcache Hparse. unfold Import, Import_options, newFrame, Import_load.
  unfold cachedDataOf in Hcache. unfold autoImportOutputOf in Hparse.
  unfold bind at 1. unfold ret at 1.
  unfold bind at 1. unfold bind at 1. unfold get at 1.
  unfold bind at 1. unfold writeModel, modify. unfold ret at 1.
  unfold bind at 1. simpl. rewrite Hcache.
  unfold bind at 1, get. simpl. rewrite Hparse.
  reflexivity.
Qed.

Lemma TryGetImportOptions_missing (p : Platform) path options :
  FileExists p path = false → TryGetImportOptions p path options = (false, options).
Proof. intros H. unfold TryGetImportOptions. rewrite H. reflexivity. Qed.

(** X10.  An import that is given no options and whose target file
    does not exist is the import with the default options. *)
Theorem Import_fresh_target_uses_defaults
    (context : CreateAssetContext) (s : State) :
  FileExists (platform s) (TargetAssetPath context) = false →
  Import context None s = Import context (Some Options_default) s.
Proof.
  intros H. unfold Import.
  assert (H1 : Import_options context None s = Some (Options_default, s)).
  { unfold Import_options, bind, get, ret.
    rewrite TryGetImportOptions_missing by exact H. reflexivity. }
  rewrite (bind_eq _ _ _ _ _ H1). reflexivity.
Qed.

Lemma TryGetImportOptions_accepts (p : Platform) path options tmpFile data metadata :
  FileExists p path = true →
  GetStorage p path = Some tmpFile →
  GetEntriesCount tmpFile = 1 →
  LoadAssetHeader tmpFile 0 = Some data →
  acceptedEntry tmpFile data →
  Document_Parse (Metadata data) = Some metadata →
  TryGetImportOptions p path options = (true, Options_Deserialize metadata options).
Proof.
  intros Hf Hs Hc Hl Ha Hp. unfold TryGetImportOptions.
  rewrite Hf, Hs, Hc. simpl.
  destruct (headerCheck tmpFile Model_TypeName 4 AssetInitData_empty)
    as [[] d1] eqn:H1.
  - apply headerCheck_true in H1 as (_ & Hl1 & _).
    assert (d1 = data) as -> by congruence. rewrite Hp. reflexivity.
  - destruct (headerCheck tmpFile SkinnedModel_TypeName 1 d1) as [[] d2] eqn:H2.
    + apply headerCheck_true in H2 as (_ & Hl2 & _).
      assert (d2 = data) as -> by congruence. rewrite Hp. reflexivity.
    + destruct Ha as [[Ht Hv]|[[Ht Hv]|[Ht Hv]]].
      * rewrite (headerCheck_complete _ _ _ _ _ Ht Hl Hv) in H1. discriminate.
      * rewrite (headerCheck_complete _ _ _ _ _ Ht Hl Hv) in H2. discriminate.
      * rewrite (headerCheck_complete _ _ _ _ _ Ht Hl Hv). rewrite Hp. reflexivity.
Qed.

(** X11.  An import that is given no options and whose target is an
    asset of one entry, a Model, SkinnedModel or Animation of a version
    that is accepted, with metadata that parse, is the import with the
    options read from these metadata over the default options. *)
Theorem Import_reimport_restores_options
    (context : CreateAssetContext) (s : State)
    (tmpFile : FlaxStorage) (data : AssetInitData) (metadata : JsonMembers) :
  FileExists (platform s) (TargetAssetPath context) = true →
  GetStorage (platform s) (TargetAssetPath context) = Some tmpFile →
  GetEntriesCount tmpFile = 1 →
  LoadAssetHeader tmpFile 0 = Some data →
  acceptedEntry tmpFile data →
  Document_Parse (Metadata data) = Some metadata →
  Import context None s
  = Import context (Some (Options_Deserialize metadata Options_default)) s.
Proof.
  intros Hf Hs Hc Hl Ha Hp. unfold Import.
  assert (H1 : Import_options context None s
               = Some (Options_Deserialize metadata Options_default, s)).
  { unfold Import_options, bind, get, ret.
    rewrite (TryGetImportOptions_accepts _ _ _ _ _ _ Hf Hs Hc Hl Ha Hp). reflexivity. }
  rewrite (bind_eq _ _ _ _ _ H1). reflexivity.
Qed.

End Import_results.

(** ** Restoring materials *)

Section TryRestoreMaterials_facts.
Context `{E : Engine}.

(** X12.  [TryRestoreMaterials] gives up without touching anything —
    not even a look at the model data — when the target file is
    missing, when the asset cannot be loaded, when waiting for it fails,
    or when it is neither a Model nor a SkinnedModel. *)
Theorem TryRestoreMaterials_skips
    (context : CreateAssetContext) (modelData : DataRef) (s : State) :
  FileExists (platform s) (TargetAssetPath context) = false
  ∨ Content_LoadAsync (platform s) (TargetAssetPath context) = None
  ∨ (∃ asset,
       Content_LoadAsync (platform s) (TargetAssetPath context) = Some asset
       ∧ (Asset_WaitForLoaded asset = true
          ∨ (Asset_GetTypeName asset ≠ Model_TypeName
             ∧ Asset_GetTypeName asset ≠ SkinnedModel_TypeName))) →
  TryRestoreMaterials context modelData s = Some (tt, s).
Proof.
  intros H. unfold TryRestoreMaterials. unfold bind at 1, get.
  destruct (FileExists (platform s) (TargetAssetPath context)); [|reflexivity].
  simpl. destruct H as [H|[H|(asset & H & Hcase)]]; [discriminate| |].
  - rewrite H. reflexivity.
  - rewrite H. destruct Hcase as [Hw|[Hm Hs]].
    + rewrite Hw. reflexivity.
    + destruct (Asset_WaitForLoaded asset); [reflexivity|].
      apply String.eqb_neq in Hm, Hs. rewrite Hm, Hs. reflexivity.
Qed.

(** X13.  When the target is a loaded Model or SkinnedModel,
    [TryRestoreMaterials] matches slots by position: the slot at an
    index the old asset has too gets the name, the shadows mode and the
    material of the old slot at that index; a slot beyond the old table
    stays as imported; the number of slots does not change, and nothing
    else of the model or of the state does. *)
Theorem TryRestoreMaterials_positional
    (context : CreateAssetContext) (modelData : DataRef) (d : ModelData)
    (asset : Asset) (s : State) :
  FileExists (platform s) (TargetAssetPath context) = true →
  Content_LoadAsync (platform s) (TargetAssetPath context) = Some asset →
  Asset_WaitForLoaded asset = false →
  Asset_GetTypeName asset = Model_TypeName
  ∨ Asset_GetTypeName asset = SkinnedModel_TypeName →
  frames s !! modelData = Some d →
  ∃ materials,
    TryRestoreMaterials context modelData s
    = Some (tt, State_setFrames s
                  (<[modelData := ModelData_setMaterials d materials]> (frames s)))
    ∧ length materials = length (Materials d)
    ∧ ∀ i dstSlot, Materials d !! i = Some dstSlot →
        ∃ restored,
          materials !! i = Some restored
          ∧ match ModelBase_MaterialSlots asset !! i with
            | Some srcSlot =>
                SlotName restored = SlotName srcSlot
                ∧ ShadowsMode restored = ShadowsMode srcSlot
                ∧ AssetID restored = AssetID srcSlot
            | None => restored = dstSlot
            end.
Proof.
  intros Hf Hl Hw Ht Hd. unfold TryRestoreMaterials. unfold bind at 1, get.
  rewrite Hf, Hl, Hw. simpl.
  assert (Hmodel : (if String.eqb (Asset_GetTypeName asset) Model_TypeName
                    then Some asset
                    else if String.eqb (Asset_GetTypeName asset) SkinnedModel_TypeName
                         then Some asset else None) = Some asset).
  { destruct Ht as [Ht|Ht]; rewrite Ht.
    - rewrite String.eqb_refl. reflexivity.
    - rewrite String.eqb_refl. destruct (String.eqb _ _); reflexivity. }
  rewrite Hmodel.
  rewrite (bind_eq _ _ _ _ _ (readModel_eq _ _ _ Hd)).
  eexists. split; [reflexivity|]. split; [apply length_imap|].
  intros i dstSlot Hi. rewrite list_lookup_imap, Hi. simpl.
  eexists. split; [reflexivity|].
  destruct (ModelBase_MaterialSlots asset !! i); simpl; auto.
Qed.

End TryRestoreMaterials_facts.

(** ** Material slots of a parsed model *)

Section SetupMaterialSlots_loop_facts.
Context `{E : Engine}.

Lemma forM_app {A} (f : A → M unit) l1 : ∀ l2 s,
  forM_ (l1 ++ l2) f s = (forM_ l1 f ;;; forM_ l2 f) s.
Proof.
  induction l1 as [|x l1 IH]; intros l2 s.
  - reflexivity.
  - cbn [app forM_]. unfold bind.
    destruct (f x s) as [[[] s1]|]; [|reflexivity].
    rewrite IH. reflexivity.
Qed.

Lemma Forall2_impl_elem {A B} (P Q : A → B → Prop) l k :
  Forall2 P l k → (∀ x y, x ∈ l → P x y → Q x y) → Forall2 Q l k.
Proof.
  induction 1 as [|x y l k Hxy Hrest IH]; intros Himpl; constructor.
  - apply Himpl; [apply list_elem_of_here | exact Hxy].
  - apply IH. intros x' y' Hin. apply Himpl. apply list_elem_of_further. exact Hin.
Qed.

Lemma forM_concat {A B} (g : B → list A) (f : A → M unit) ls : ∀ s,
  forM_ ls (λ x, forM_ (g x) f) s = forM_ (concat (map g ls)) f s.
Proof.
  induction ls as [|l ls IH]; intros s.
  - reflexivity.
  - cbn [map concat forM_]. rewrite forM_app. unfold bind.
    destruct (forM_ (g l) f s) as [[[] s1]|]; [|reflexivity]. apply IH.
Qed.

Lemma ModelData_setMaterials_same (d : ModelData) :
  ModelData_setMaterials d (Materials d) = d.
Proof. destruct d. reflexivity. Qed.

(** The loops at lines 178-190 over the meshes in a row. *)
Lemma SetupMaterialSlots_loop data materials meshes : ∀ s d,
  frames s !! data = Some d →
  NoDup meshes →
  Forall (slotInRange (heap s) (length materials)) meshes →
  ∃ s' added,
    forM_ meshes (λ mesh,
      m <- readMesh mesh ;;
      newSlotIndex <- Array_at (replicate (length materials) (-1)) (MaterialSlotIndex m) ;;
      newSlotIndex <-
        (if newSlotIndex =? -1 then
           d <- readModel data ;;
           entry <- Array_at materials (MaterialSlotIndex m) ;;
           writeModel data (ModelData_setMaterials d (Materials d ++ [entry])) ;;;
           ret (Z.of_nat (length (Materials d)))
         else ret newSlotIndex) ;;
      writeMesh mesh (MeshData_setMaterialSlotIndex m newSlotIndex)) s
    = Some (tt, s')
    ∧ platform s' = platform s ∧ events s' = events s
    ∧ frames s' = <[data := ModelData_setMaterials d (Materials d ++ added)]> (frames s)
    ∧ Forall2 (slotUsedBy (heap s) materials) meshes added
    ∧ (∀ k mesh m, meshes !! k = Some mesh → heap s !! mesh = Some m →
         heap s' !! mesh
         = Some (MeshData_setMaterialSlotIndex m (Z.of_nat (length (Materials d) + k))))
    ∧ (∀ p, p ∉ meshes → heap s' !! p = heap s !! p).
Proof.
  induction meshes as [|mesh rest IH]; intros s d Hd Hnd Hall.
  - exists s, []. cbn [forM_]. rewrite app_nil_r, ModelData_setMaterials_same.
    rewrite insert_id by exact Hd.
    split; [reflexivity|]. split; [reflexivity|]. split; [reflexivity|].
    split; [reflexivity|]. split; [constructor|].
    split; [intros k mesh m Hk; rewrite lookup_nil in Hk; discriminate | auto].
  - inversion Hnd as [|? ? Hfresh Hnd']. subst.
    inversion Hall as [|? ? (m & Hm & Hrange) Hall']. subst.
    destruct (lookup_lt_is_Some_2 materials (Z.to_nat (MaterialSlotIndex m)))
      as [entry Hentry]; [lia|].
    set (d1 := ModelData_setMaterials d (Materials d ++ [entry])).
    set (s1 := State_setHeap (State_setFrames s (<[data := d1]> (frames s)))
                 (<[mesh := MeshData_setMaterialSlotIndex m (Z.of_nat (length (Materials d)))]>
                    (heap s))).
    assert (Hd1 : frames s1 !! data = Some d1) by apply lookup_insert_eq.
    assert (Hkeep : ∀ p, p ≠ mesh → heap s1 !! p = heap s !! p).
    { intros p Hp. simpl. apply lookup_insert_ne. congruence. }
    assert (Hall1 : Forall (slotInRange (heap s1) (length materials)) rest).
    { apply Forall_forall. intros p Hp.
      rewrite Forall_forall in Hall'. destruct (Hall' p Hp) as (mp & Hmp & Hr).
      exists mp. split; [|exact Hr]. rewrite Hkeep; [exact Hmp|].
      intros ->. apply Hfresh. exact Hp. }
    destruct (IH s1 d1 Hd1 Hnd' Hall1)
      as (s' & added & Hrun & Hpl & Hev & Hfr & Hused & Hidx & Hrest).
    exists s', (entry :: added).
    split.
    { cbn [forM_]. unfold bind at 1.
      rewrite (bind_eq _ _ _ _ _ (readMesh_eq _ _ _ Hm)).
      assert (Htable : Array_at (replicate (length materials) (-1)) (MaterialSlotIndex m) s
                       = Some (-1, s)).
      { apply Array_at_Some. split; [lia|]. split; [|reflexivity].
        apply lookup_replicate_2. lia. }
      rewrite (bind_eq _ _ _ _ _ Htable). cbn [Z.eqb Pos.eqb].
      unfold bind at 1.
      rewrite (bind_eq _ _ _ _ _ (readModel_eq _ _ _ Hd)).
      assert (Hat : Array_at materials (MaterialSlotIndex m) s = Some (entry, s)).
      { apply Array_at_Some. split; [lia|]. split; [exact Hentry | reflexivity]. }
      rewrite (bind_eq _ _ _ _ _ Hat).
      unfold bind at 1, writeModel, writeMesh, modify, ret. cbn [heap State_setFrames].
      exact Hrun. }
    split; [exact Hpl|]. split; [exact Hev|].
    split.
    { rewrite Hfr. simpl. rewrite insert_insert_eq.
      unfold ModelData_setMaterials. simpl. rewrite <- app_assoc. reflexivity. }
    split.
    { constructor; [exists m; auto|].
      eapply Forall2_impl_elem; [exact Hused|].
      intros p e Hin (mp & Hmp & He). exists mp. split; [|exact He].
      rewrite <- Hkeep; [exact Hmp|]. intros ->. apply Hfresh. exact Hin. }
    split.
    { intros k p mp Hk Hp. destruct k as [|k]; simpl in Hk.
      - inversion Hk. subst p. rewrite Hrest by exact Hfresh.
        simpl. rewrite lookup_insert_eq. rewrite Hm in Hp. inversion Hp. subst mp.
        rewrite Nat.add_0_r. reflexivity.
      - assert (Hin : p ∈ rest) by (eapply list_elem_of_lookup_2; exact Hk).
        assert (Hne : p ≠ mesh) by (intros ->; apply Hfresh; exact Hin).
        rewrite (Hidx k p mp Hk) by (rewrite Hkeep by exact Hne; exact Hp).
        unfold d1. simpl. rewrite length_app. simpl.
        do 3 f_equal. lia. }
    intros p Hp. rewrite not_elem_of_cons in Hp. destruct Hp as [Hne Hp].
    rewrite Hrest by exact Hp. apply Hkeep. exact Hne.
Qed.

(** X14.  On a model whose meshes are all distinct, live and use slots
    inside [materials], [SetupMaterialSlots] returns and appends one slot
    per mesh to the table of the model, in the order LOD after LOD: the
    slot the mesh used in [materials].  The mesh at position [k] of that
    order gets the index of its own new slot, the old slot count plus
    [k], and keeps everything else; no other mesh, nothing else of the
    model and nothing else of the state changes. *)
Theorem SetupMaterialSlots_one_slot_per_mesh
    (data : DataRef) (materials : list MaterialSlotEntry) (d : ModelData) (s : State) :
  frames s !! data = Some d →
  NoDup (meshesOf d) →
  Forall (slotInRange (heap s) (length materials)) (meshesOf d) →
  ∃ s' added,
    SetupMaterialSlots data materials s = Some (tt, s')
    ∧ platform s' = platform s ∧ events s' = events s
    ∧ frames s' = <[data := ModelData_setMaterials d (Materials d ++ added)]> (frames s)
    ∧ Forall2 (slotUsedBy (heap s) materials) (meshesOf d) added
    ∧ (∀ k mesh m, meshesOf d !! k = Some mesh → heap s !! mesh = Some m →
         heap s' !! mesh
         = Some (MeshData_setMaterialSlotIndex m (Z.of_nat (length (Materials d) + k))))
    ∧ (∀ p, p ∉ meshesOf d → heap s' !! p = heap s !! p).
Proof.
  intros Hd Hnd Hall.
  destruct (SetupMaterialSlots_loop data materials (meshesOf d) s d Hd Hnd Hall)
    as (s' & added & Hrun & Hrest).
  exists s', added. split; [|exact Hrest].
  unfold SetupMaterialSlots.
  rewrite (bind_eq _ _ _ _ _ (readModel_eq _ _ _ Hd)).
  rewrite forM_concat. exact Hrun.
Qed.

End SetupMaterialSlots_loop_facts.

(** ** What the lightmap repacking leaves alone *)

Section Repack_preservation.
Context `{E : Engine}.

Lemma sameButLightmapUVs_refl m : sameButLightmapUVs m m.
Proof. repeat split. Qed.

Lemma sameButLightmapUVs_trans m1 m2 m3 :
  sameButLightmapUVs m1 m2 → sameButLightmapUVs m2 m3 → sameButLightmapUVs m1 m3.
Proof.
  intros (H1 & H2 & H3 & H4) (K1 & K2 & K3 & K4).
  repeat split; congruence.
Qed.

Lemma transformLightmapUVs_keeps atlasSize chartsPadding placed : ∀ s s',
  transformLightmapUVs atlasSize chartsPadding placed s = Some (tt, s') →
  frames s' = frames s ∧ platform s' = platform s ∧ events s' = events s
  ∧ (∀ p, p ∉ map (λ es, Mesh (fst es)) placed → heap s' !! p = heap s !! p)
  ∧ (∀ p m, heap s !! p = Some m →
       ∃ m', heap s' !! p = Some m' ∧ sameButLightmapUVs m m').
Proof.
  unfold transformLightmapUVs.
  induction placed as [|[entry slot] rest IH]; intros s s' H.
  - inversion H. subst. repeat split; auto.
    intros p m Hp. exists m. split; [exact Hp | apply sameButLightmapUVs_refl].
  - cbn [forM_] in H. apply bind_Some in H as ([] & s1 & Hbody & H).
    apply bind_Some in Hbody as (m0 & s2 & Hread & Hwrite).
    apply readMesh_Some in Hread as [Hm ->].
    unfold writeMesh, modify in Hwrite. inversion Hwrite. subst s1. clear Hwrite.
    apply IH in H as (Hfr & Hpl & Hev & Hout & Hin).
    split; [exact Hfr|]. split; [exact Hpl|]. split; [exact Hev|]. split.
    + intros p Hp. cbn [map fst] in Hp. rewrite not_elem_of_cons in Hp.
      destruct Hp as [Hne Hp]. rewrite Hout by exact Hp.
      simpl. apply lookup_insert_ne. congruence.
    + intros p m Hp. destruct (decide (p = Mesh entry)) as [->|Hne].
      * rewrite Hm in Hp. inversion Hp. subst m0.
        destruct (Hin (Mesh entry) _ (lookup_insert_eq _ _ _)) as (m' & Hm' & Hsame).
        exists m'. split; [exact Hm'|].
        eapply sameButLightmapUVs_trans; [|exact Hsame].
        repeat split. simpl. apply length_map.
      * apply Hin. simpl. rewrite lookup_insert_ne by congruence. exact Hp.
Qed.

(** X15.  On a model with a first LOD of live meshes
    [RepackMeshLightmapUVs] returns, and whatever the packing did: the
    model data and the platform are what they were; a mesh outside the
    first LOD is what it was; every mesh keeps its name, its material
    slot index, its buffers and the number of its lightmap UVs. *)
Theorem RepackMeshLightmapUVs_preserves
    (data : DataRef) (d : ModelData) (lod : ModelLodData) (s : State) :
  frames s !! data = Some d →
  LODs d !! 0%nat = Some lod →
  allocated (heap s) (Meshes lod) →
  ∃ s',
    RepackMeshLightmapUVs data s = Some (tt, s')
    ∧ frames s' = frames s ∧ platform s' = platform s
    ∧ (∀ p, p ∉ Meshes lod → heap s' !! p = heap s !! p)
    ∧ (∀ p m, heap s !! p = Some m →
         ∃ m', heap s' !! p = Some m' ∧ sameButLightmapUVs m m').
Proof.
  intros Hd Hlod Hall.
  assert (Hsame : ∀ p m, heap s !! p = Some m →
            ∃ m', heap s !! p = Some m' ∧ sameButLightmapUVs m m').
  { intros p m Hp. exists m. split; [exact Hp | apply sameButLightmapUVs_refl]. }
  assert (Hrun : RepackMeshLightmapUVs data s
                 = (if fgt (totalArea (heap s) (Meshes lod)) ZeroTolerance
                    then packLoop 10
                           (fmul (fsqrt (totalArea (heap s) (Meshes lod))) (flit (102 # 100)%Q))
                           (entriesOf (heap s) (Meshes lod))
                    else ret tt) s).
  { unfold RepackMeshLightmapUVs.
    rewrite (bind_eq _ _ _ _ _ (readModel_eq _ _ _ Hd)).
    rewrite (bind_eq _ _ _ _ _ (Array_at_eq _ 0%nat _ _ Hlod)).
    rewrite (bind_eq _ _ _ _ _ (buildEntries_eq _ _ Hall)). reflexivity. }
  rewrite Hrun. destruct (fgt _ _).
  - destruct (packLoop_spec 10
                (fmul (fsqrt (totalArea (heap s) (Meshes lod))) (flit (102 # 100)%Q))
                (entriesOf (heap s) (Meshes lod)) s (entriesOf_allocated _ _ Hall))
      as (n & s' & Hloop & _ & _ & Hfr & Hpl & _ & Hcases).
    exists s'. split; [exact Hloop|]. split; [exact Hfr|]. split; [exact Hpl|].
    destruct Hcases as [(_ & _ & Hheap)|(a & placed & s0 & _ & _ & Hp & Ht & Hheap)];
      rewrite Hheap.
    + split; [reflexivity | exact Hsame].
    + apply insertEntries_fst in Hp.
      apply transformLightmapUVs_keeps in Ht as (_ & _ & _ & Hout & Hin).
      split; [|exact Hin].
      intros p Hnot. apply Hout.
      replace (map (λ es : MeshEntry * RectSlot, Mesh (fst es)) placed)
        with (map Mesh (map fst placed)) by (rewrite map_map; reflexivity).
      rewrite Hp. unfold entriesOf. rewrite map_map. simpl. rewrite map_id. exact Hnot.
  - exists s. split; [reflexivity|]. split; [reflexivity|]. split; [reflexivity|].
    split; [reflexivity | exact Hsame].
Qed.

End Repack_preservation.

(** ** Selecting one object *)

Section Import_select_facts.
Context `{E : Engine}.

Lemma indicesFrom1_one : indicesFrom1 1 = [].
Proof. reflexivity. Qed.

Lemma single_lod (d : ModelData) (lod0 : ModelLodData) :
  LODs d = [lod0] →
  d = mkModelData [mkModelLodData (ScreenSize lod0) (Meshes lod0)]
        (Materials d) (Skeleton d) (Nodes d) (Animations d).
Proof. destruct d, lod0. simpl. intros ->. reflexivity. Qed.

Lemma Array_Remove_elem (x : MeshPtr) l : ∀ p,
  NoDup l → (p ∈ Array_Remove x l ↔ p ∈ l ∧ p ≠ x).
Proof.
  induction l as [|y l IH]; intros p Hnd; simpl.
  - split; [intros H | intros [H _]]; inversion H.
  - inversion Hnd as [|? ? Hy Hl]. subst.
    destruct (Nat.eqb_spec y x) as [->|Hne].
    + split.
      * intros Hp. split; [apply list_elem_of_further; exact Hp|].
        intros ->. apply Hy. exact Hp.
      * intros [Hp Hpx]. apply elem_of_cons in Hp as [Hp|Hp]; [congruence | exact Hp].
    + rewrite !elem_of_cons, (IH p Hl). split.
      * intros [->|[Hp Hpx]]; [split; [left; reflexivity | exact Hne] | auto].
      * intros [[->|Hp] Hpx]; auto.
Qed.

Lemma Array_Remove_NoDup (x : MeshPtr) l : NoDup l → NoDup (Array_Remove x l).
Proof.
  induction l as [|y l IH]; intros Hnd; simpl.
  - constructor.
  - inversion Hnd as [|? ? Hy Hl]. subst.
    destruct (Nat.eqb_spec y x) as [->|Hne]; [exact Hl|].
    constructor; [|apply IH; exact Hl].
    intros Hin. apply Array_Remove_elem in Hin as [Hin _]; [|exact Hl]. apply Hy. exact Hin.
Qed.

(** What is left of distinct meshes once a group went out: the meshes
    that are not of the group. *)
Lemma withoutGroup_elem (group : IGrouping string MeshPtr) : ∀ meshes p,
  NoDup meshes →
  (p ∈ withoutGroup group meshes ↔ p ∈ meshes ∧ p ∉ Members group).
Proof.
  unfold withoutGroup. induction (Members group) as [|x members IH]; intros meshes p Hnd.
  - simpl. split; [intros H; split; [exact H | intros Hin; inversion Hin] | intros [H _]; exact H].
  - cbn [fold_left]. rewrite (IH _ p (Array_Remove_NoDup x meshes Hnd)).
    rewrite (Array_Remove_elem x meshes p Hnd), not_elem_of_cons. tauto.
Qed.

(** X16.  A call that parsed the scene itself and selects a group of a
    model with one LOD keeps the parsed frame: its LOD holds the meshes
    of the group in the order of the group, the material table is
    rebuilt from the old one with one slot per mesh of the group, and
    the mesh at position [k] of the group points at slot [k].  The
    meshes to delete are those of the LOD, distinct ones, that are not
    of the group. *)
Theorem Import_select_from_parsed
    (this : DataRef) (options : Options) (meshesByName : MeshGroups)
    (group : IGrouping string MeshPtr) (d : ModelData) (lod0 : ModelLodData) (s : State) :
  0 ≤ ObjectIndex options →
  meshesByName !! Z.to_nat (ObjectIndex options) = Some group →
  isModelOrSkinnedModel (Type_ options) = true →
  frames s !! this = Some d →
  LODs d = [lod0] →
  NoDup (Meshes lod0) →
  NoDup (Members group) →
  Forall (slotInRange (heap s) (length (Materials d))) (Members group) →
  ∃ s' added meshesToDelete,
    Import_select this options this meshesByName s = Some ((this, meshesToDelete), s')
    ∧ (∀ p, p ∈ meshesToDelete ↔ p ∈ Meshes lod0 ∧ p ∉ Members group)
    ∧ platform s' = platform s ∧ events s' = events s
    ∧ frames s'
      = <[this := mkModelData [mkModelLodData (ScreenSize lod0) (Members group)] added
                    (Skeleton d) (Nodes d) (Animations d)]> (frames s)
    ∧ Forall2 (slotUsedBy (heap s) (Materials d)) (Members group) added
    ∧ (∀ k mesh m, Members group !! k = Some mesh → heap s !! mesh = Some m →
         heap s' !! mesh = Some (MeshData_setMaterialSlotIndex m (Z.of_nat k)))
    ∧ (∀ p, p ∉ Members group → heap s' !! p = heap s !! p).
Proof.
  intros H0 Hgroup Htype Hd Hlods Hlod0 Hnd Hall.
  set (d1 := ModelData_setLODs d [ModelLodData_setMeshes lod0 (Members group)]).
  set (d2 := ModelData_setMaterials d1 []).
  set (s2 := State_setFrames s (<[this := d2]> (frames s))).
  assert (Hd2 : frames s2 !! this = Some d2) by apply lookup_insert_eq.
  assert (Hmeshes : meshesOf d2 = Members group).
  { unfold meshesOf. simpl. apply app_nil_r. }
  destruct (SetupMaterialSlots_one_slot_per_mesh this (Materials d) d2 s2 Hd2)
    as (s' & added & Hrun & Hpl & Hev & Hfr & Hused & Hidx & Hrest).
  { rewrite Hmeshes. exact Hnd. }
  { rewrite Hmeshes. exact Hall. }
  rewrite Hmeshes in Hused, Hidx, Hrest.
  exists s', added, (withoutGroup group (Meshes lod0)). split.
  { unfold Import_select.
    assert (Hlt : (ObjectIndex options <? Z.of_nat (length meshesByName)) = true).
    { apply Z.ltb_lt. apply lookup_lt_Some in Hgroup. lia. }
    assert (Hle : (0 <=? ObjectIndex options) = true) by (apply Z.leb_le; exact H0).
    rewrite Hle, Hlt, Htype.
    cbn [andb].
    assert (Hat : Array_at meshesByName (ObjectIndex options) s = Some (group, s)).
    { apply Array_at_Some. auto. }
    rewrite (bind_eq _ _ _ _ _ Hat).
    destruct (decide (this = this)) as [_|Hne]; [|congruence].
    unfold selectFromParsed.
    assert (Hlod : LODs d !! 0%nat = Some lod0) by (rewrite Hlods; reflexivity).
    unfold bind at 1.
    rewrite (bind_eq _ _ _ _ _ (readModel_eq _ _ _ Hd)).
    rewrite (bind_eq _ _ _ _ _ (Array_at_eq _ 0%nat _ _ Hlod)).
    unfold setLodMeshes. unfold bind at 1 2.
    rewrite (readModel_eq _ _ _ Hd).
    rewrite (bind_eq _ _ _ _ _ (Array_at_eq _ 0%nat _ _ Hlod)).
    unfold writeModel at 1, modify.
    rewrite Hlods. cbn [length indicesFrom1 Nat.sub seq map foldM].
    unfold bind at 1, ret at 1.
    set (s1 := State_setFrames s _).
    assert (Hd1 : frames s1 !! this = Some d1).
    { unfold s1, d1. simpl. rewrite lookup_insert_eq. reflexivity. }
    rewrite (bind_eq _ _ _ _ _ (readModel_eq _ _ _ Hd1)).
    unfold bind at 1, writeModel at 1, modify.
    assert (Hs2 : State_setFrames s1 (<[this := ModelData_setMaterials d1 []]> (frames s1)) = s2).
    { unfold s2, s1, d2. unfold State_setFrames. simpl. rewrite insert_insert_eq. reflexivity. }
    rewrite Hs2. unfold bind at 1.
    replace (Materials d1) with (Materials d) by reflexivity.
    rewrite Hrun. reflexivity. }
  split; [intros p; apply withoutGroup_elem; exact Hlod0|].
  split; [exact Hpl|]. split; [exact Hev|]. split.
  { rewrite Hfr. simpl. rewrite insert_insert_eq. reflexivity. }
  split; [exact Hused|]. split; [|exact Hrest].
  intros k mesh m Hk Hm. rewrite (Hidx k mesh m Hk Hm). reflexivity.
Qed.

(** The loop at lines 345-346 on a shared model of one LOD. *)
Lemma removeFromShared data (d : ModelData) (lod0 : ModelLodData) members : ∀ s meshes,
  frames s !! data
  = Some (ModelData_setLODs d [ModelLodData_setMeshes lod0 meshes]) →
  forM_ members (λ mesh,
    d <- readModel data ;;
    lod0 <- Array_at (LODs d) 0 ;;
    setLodMeshes data 0 (Array_Remove mesh (Meshes lod0))) s
  = Some (tt, State_setFrames s
                (<[data := ModelData_setLODs d
                             [ModelLodData_setMeshes lod0
                                (fold_left (λ meshes mesh, Array_Remove mesh meshes)
                                   members meshes)]]> (frames s))).
Proof.
  induction members as [|mesh rest IH]; intros s meshes Hd.
  - cbn [forM_ fold_left]. rewrite insert_id by exact Hd. destruct s. reflexivity.
  - cbn [forM_ fold_left]. unfold bind at 1.
    rewrite (bind_eq _ _ _ _ _ (readModel_eq _ _ _ Hd)).
    assert (Hat : ∀ s0, Array_at (LODs (ModelData_setLODs d [ModelLodData_setMeshes lod0 meshes]))
                     0 s0 = Some (ModelLodData_setMeshes lod0 meshes, s0)).
    { intros s0. apply (Array_at_eq _ 0%nat). reflexivity. }
    rewrite (bind_eq _ _ _ _ _ (Hat s)).
    unfold setLodMeshes.
    rewrite (bind_eq _ _ _ _ _ (readModel_eq _ _ _ Hd)).
    rewrite (bind_eq _ _ _ _ _ (Hat s)).
    unfold writeModel, modify.
    rewrite (IH _ (Array_Remove mesh meshes)).
    + unfold State_setFrames. simpl. rewrite insert_insert_eq. reflexivity.
    + simpl. rewrite lookup_insert_eq. reflexivity.
Qed.

(** X17.  A call that selects a group from the shared model of another
    call, a model of one LOD, moves the group: its own frame, empty so
    far, gets the skeleton and the nodes of the shared model and one LOD
    with the screen size of the shared LOD and the meshes of the group;
    the shared LOD, of distinct meshes, keeps the meshes that are not
    of the group and nothing else of the shared model changes.  The call's table gets one slot per mesh of the
    group, copied from the shared table, and nothing is marked for
    deletion. *)
Theorem Import_select_from_shared
    (this data : DataRef) (options : Options) (meshesByName : MeshGroups)
    (group : IGrouping string MeshPtr) (d dataThis : ModelData) (lod0 : ModelLodData)
    (s : State) :
  0 ≤ ObjectIndex options →
  meshesByName !! Z.to_nat (ObjectIndex options) = Some group →
  isModelOrSkinnedModel (Type_ options) = true →
  this ≠ data →
  frames s !! data = Some d →
  LODs d = [lod0] →
  frames s !! this = Some dataThis →
  LODs dataThis = [] →
  NoDup (Meshes lod0) →
  NoDup (Members group) →
  Forall (slotInRange (heap s) (length (Materials d))) (Members group) →
  ∃ s' added remaining,
    Import_select this options data meshesByName s = Some ((this, []), s')
    ∧ (∀ p, p ∈ remaining ↔ p ∈ Meshes lod0 ∧ p ∉ Members group)
    ∧ platform s' = platform s ∧ events s' = events s
    ∧ frames s'
      = <[this := mkModelData [mkModelLodData (ScreenSize lod0) (Members group)]
                    (Materials dataThis ++ added) (Skeleton d) (Nodes d)
                    (Animations dataThis)]>
          (<[data := ModelData_setLODs d [ModelLodData_setMeshes lod0 remaining]]>
             (frames s))
    ∧ Forall2 (slotUsedBy (heap s) (Materials d)) (Members group) added
    ∧ (∀ k mesh m, Members group !! k = Some mesh → heap s !! mesh = Some m →
         heap s' !! mesh
         = Some (MeshData_setMaterialSlotIndex m
                   (Z.of_nat (length (Materials dataThis) + k))))
    ∧ (∀ p, p ∉ Members group → heap s' !! p = heap s !! p).
Proof.
  intros H0 Hgroup Htype Hne Hd Hlods Hthis Hempty Hlod0 Hnd Hall.
  set (dThis := mkModelData [mkModelLodData (ScreenSize lod0) (Members group)]
                  (Materials dataThis) (Skeleton d) (Nodes d) (Animations dataThis)).
  set (dShared := ModelData_setLODs d
                    [ModelLodData_setMeshes lod0 (withoutGroup group (Meshes lod0))]).
  set (s2 := State_setFrames s (<[data := dShared]> (<[this := dThis]> (frames s)))).
  assert (Hd2 : frames s2 !! this = Some dThis).
  { simpl. rewrite lookup_insert_ne by congruence. apply lookup_insert_eq. }
  assert (Hmeshes : meshesOf dThis = Members group).
  { unfold meshesOf. simpl. apply app_nil_r. }
  destruct (SetupMaterialSlots_one_slot_per_mesh this (Materials d) dThis s2 Hd2)
    as (s' & added & Hrun & Hpl & Hev & Hfr & Hused & Hidx & Hrest).
  { rewrite Hmeshes. exact Hnd. }
  { rewrite Hmeshes. exact Hall. }
  rewrite Hmeshes in Hused, Hidx, Hrest.
  exists s', added, (withoutGroup group (Meshes lod0)). split.
  { unfold Import_select.
    assert (Hlt : (ObjectIndex options <? Z.of_nat (length meshesByName)) = true).
    { apply Z.ltb_lt. apply lookup_lt_Some in Hgroup. lia. }
    assert (Hle : (0 <=? ObjectIndex options) = true) by (apply Z.leb_le; exact H0).
    rewrite Hle, Hlt, Htype. cbn [andb].
    assert (Hat : Array_at meshesByName (ObjectIndex options) s = Some (group, s)).
    { apply Array_at_Some. auto. }
    rewrite (bind_eq _ _ _ _ _ Hat).
    destruct (decide (this = data)) as [Heq|_]; [congruence|].
    unfold selectFromShared.
    assert (Hlod : LODs d !! 0%nat = Some lod0) by (rewrite Hlods; reflexivity).
    unfold bind at 1.
    rewrite (bind_eq _ _ _ _ _ (readModel_eq _ _ _ Hd)).
    rewrite (bind_eq _ _ _ _ _ (readModel_eq _ _ _ Hthis)).
    unfold bind at 1, writeModel at 1, modify.
    rewrite (bind_eq _ _ _ _ _ (Array_at_eq _ 0%nat _ _ Hlod)).
    unfold addLod. unfold bind at 1 2.
    set (s0 := State_setFrames s _).
    assert (Hthis0 : frames s0 !! this
                     = Some (ModelData_setNodes (ModelData_setSkeleton dataThis (Skeleton d))
                               (Nodes d))) by apply lookup_insert_eq.
    rewrite (readModel_eq _ _ _ Hthis0).
    unfold writeModel at 1, modify. cbn [LODs ModelData_setNodes ModelData_setSkeleton].
    rewrite Hempty. cbn [app].
    set (s1 := State_setFrames s0 _).
    assert (Hs1 : s1 = State_setFrames s (<[this := dThis]> (frames s))).
    { unfold s1, s0, State_setFrames. simpl. rewrite insert_insert_eq. reflexivity. }
    rewrite Hs1. clear s1 Hs1 Hthis0. clear s0.
    set (s1 := State_setFrames s (<[this := dThis]> (frames s))).
    assert (Hd1 : frames s1 !! data
                  = Some (ModelData_setLODs d [ModelLodData_setMeshes lod0 (Meshes lod0)])).
    { simpl. rewrite lookup_insert_ne by exact Hne. rewrite Hd. f_equal.
      rewrite (single_lod d lod0 Hlods) at 1. reflexivity. }
    unfold bind at 1.
    rewrite (removeFromShared data d lod0 (Members group) s1 (Meshes lod0) Hd1).
    fold (withoutGroup group (Meshes lod0)). fold dShared.
    assert (Hs2 : State_setFrames s1 (<[data := dShared]> (frames s1)) = s2) by reflexivity.
    rewrite Hs2.
    assert (Hshared : frames s2 !! data = Some dShared) by apply lookup_insert_eq.
    rewrite (bind_eq _ _ _ _ _ (readModel_eq _ _ _ Hshared)).
    cbn [LODs dShared ModelData_setLODs length indicesFrom1 Nat.sub seq map transferLODs].
    unfold bind at 1, ret at 1.
    rewrite (bind_eq _ _ _ _ _ (readModel_eq _ _ _ Hshared)).
    replace (Materials dShared) with (Materials d) by reflexivity.
    unfold bind. rewrite Hrun. reflexivity. }
  split; [intros p; apply withoutGroup_elem; exact Hlod0|].
  split; [exact Hpl|]. split; [exact Hev|]. split.
  { rewrite Hfr. simpl.
    rewrite (insert_insert_ne (frames s)) by congruence.
    rewrite insert_insert_eq. reflexivity. }
  split; [exact Hused|]. split; [|exact Hrest].
  intros k mesh m Hk Hm. rewrite (Hidx k mesh m Hk Hm). reflexivity.
Qed.

(** ** The label of a split object *)

Lemma FindLast_from_absent c s : ∀ index last,
  hasChar c s = false → FindLast_from s c index last = last.
Proof.
  induction s as [|d s IH]; intros index last H; simpl in *.
  - reflexivity.
  - apply orb_false_iff in H as [Hd Hs]. rewrite Hd. apply IH. exact Hs.
Qed.

Lemma FindLast_from_last c prefix suffix : ∀ index last,
  hasChar c suffix = false →
  FindLast_from (prefix ++ String c suffix) c index last
  = index + Z.of_nat (String.length prefix).
Proof.
  induction prefix as [|d prefix IH]; intros index last H.
  - simpl. rewrite Ascii.eqb_refl. rewrite FindLast_from_absent by exact H. lia.
  - simpl. rewrite IH by exact H. lia.
Qed.

Lemma substring_all s : String.substring 0 (String.length s) s = s.
Proof. induction s as [|c s IH]; simpl; [reflexivity | rewrite IH; reflexivity]. Qed.

Lemma substring_after prefix c suffix :
  String.substring (S (String.length prefix)) (String.length suffix)
    (prefix ++ String c suffix) = suffix.
Proof.
  induction prefix as [|d prefix IH].
  - simpl. apply substring_all.
  - simpl. exact IH.
Qed.

Lemma length_append_String prefix c suffix :
  String.length (prefix ++ String c suffix)
  = S (String.length prefix + String.length suffix).
Proof.
  induction prefix as [|d prefix IH]; simpl; [reflexivity | rewrite IH; reflexivity].
Qed.

(** X18.  The label a split object gets in its output path is the part
    of its name after the last ['|']: a name without the character is
    its own label, and of a name [prefix|suffix] whose suffix has none
    the label is the suffix. *)
Theorem postFixOf_after_last_bar (prefix suffix : string) :
  hasChar "|" suffix = false →
  postFixOf suffix = suffix
  ∧ postFixOf (prefix ++ String "|" suffix) = suffix.
Proof.
  intros H. unfold postFixOf, FindLast. split.
  - rewrite FindLast_from_absent by exact H. reflexivity.
  - rewrite FindLast_from_last by exact H.
    destruct (Z.eqb_spec (0 + Z.of_nat (String.length prefix)) (-1)) as [Heq|_]; [lia|].
    unfold Substring.
    replace (Z.to_nat (0 + Z.of_nat (String.length prefix) + 1))
      with (S (String.length prefix)) by lia.
    rewrite length_append_String.
    replace (S (String.length prefix + String.length suffix) - S (String.length prefix))%nat
      with (String.length suffix) by lia.
    apply substring_after.
Qed.

End Import_select_facts.

(** ** The further properties on examples *)

Section Further_witnesses.
Import Sample Examples.

Lemma CreateSkinnedModel_chunk_table_witness :
  ∃ c' s',
    frames twoLods !! 0%nat = Some twoLodsModel
    ∧ CreateSkinnedModel (context "a.fbx" "a.flax") 0%nat None twoLods = Some ((Ok, c'), s')
    ∧ Metadata (Data_ c') = Metadata (Data_ (context "a.fbx" "a.flax"))
    ∧ ∃ header,
        ModelData_Pack2SkinnedModelHeader (heap twoLods) twoLodsModel = Some header
        ∧ Header_Chunks (Data_ c') !! 0 = Some header.
Proof.
  set (run := CreateSkinnedModel (context "a.fbx" "a.flax") 0%nat None twoLods).
  assert (H0 : frames twoLods !! 0%nat = Some twoLodsModel) by reflexivity.
  assert (H1 : run = Some ((Ok, contextOf run), stateOf run))
    by (apply returnedOk_eq; vm_compute; reflexivity).
  exists (contextOf run), (stateOf run). split; [exact H0|]. split; [exact H1|].
  destruct (CreateSkinnedModel_chunk_table (E := engine) (context "a.fbx" "a.flax") 0%nat None
              twoLodsModel twoLods (contextOf run) (stateOf run) H0 H1) as (_ & _ & Hmeta & Hheader & _).
  split; [exact Hmeta | exact Hheader].
Defined.

Lemma CreateModel_without_SDF_witness :
  frames twoLods !! 0%nat = Some twoLodsModel
  ∧ sdfOf (context "a.fbx" "a.flax") (Some defaults) (heap twoLods) twoLodsModel = None
  ∧ CreateModel (context "a.fbx" "a.flax") 0%nat (Some defaults) twoLods
    = CreateModel (context "a.fbx" "a.flax") 0%nat None twoLods.
Proof.
  assert (H0 : frames twoLods !! 0%nat = Some twoLodsModel) by reflexivity.
  assert (H1 : sdfOf (context "a.fbx" "a.flax") (Some defaults) (heap twoLods) twoLodsModel
               = None) by reflexivity.
  split; [exact H0|]. split; [exact H1|].
  exact (CreateModel_without_SDF (context "a.fbx" "a.flax") 0%nat defaults
           twoLodsModel twoLods H0 H1).
Defined.

Lemma CreateModel_chunk_table_witness :
  ∃ c' s',
    frames twoLods !! 0%nat = Some twoLodsModel
    ∧ CreateModel (context "a.fbx" "a.flax") 0%nat None twoLods = Some ((Ok, c'), s')
    ∧ Metadata (Data_ c') = Metadata (Data_ (context "a.fbx" "a.flax"))
    ∧ ∃ header,
        ModelData_Pack2ModelHeader (heap twoLods) twoLodsModel = Some header
        ∧ Header_Chunks (Data_ c') !! 0 = Some header.
Proof.
  set (run := CreateModel (context "a.fbx" "a.flax") 0%nat None twoLods).
  assert (H0 : frames twoLods !! 0%nat = Some twoLodsModel) by reflexivity.
  assert (H1 : run = Some ((Ok, contextOf run), stateOf run))
    by (apply returnedOk_eq; vm_compute; reflexivity).
  exists (contextOf run), (stateOf run). split; [exact H0|]. split; [exact H1|].
  destruct (CreateModel_chunk_table (E := engine) (context "a.fbx" "a.flax") 0%nat None
              twoLodsModel twoLods (contextOf run) (stateOf run) H0 H1) as (_ & _ & Hmeta & Hheader & _).
  split; [exact Hmeta | exact Hheader].
Defined.

Lemma create_functions_read_only_witness :
  ∃ c' s',
    (CreateModel = CreateModel ∨ CreateModel = CreateSkinnedModel
     ∨ CreateModel = CreateAnimation)
    ∧ CreateModel (context "a.fbx" "a.flax") 0%nat None twoLods = Some ((Ok, c'), s')
    ∧ heap s' = heap twoLods ∧ frames s' = frames twoLods ∧ platform s' = platform twoLods
    ∧ InputPath c' = InputPath (context "a.fbx" "a.flax")
    ∧ TargetAssetPath c' = TargetAssetPath (context "a.fbx" "a.flax")
    ∧ Metadata (Data_ c') = Metadata (Data_ (context "a.fbx" "a.flax")).
Proof.
  set (run := CreateModel (context "a.fbx" "a.flax") 0%nat None twoLods).
  assert (H0 : CreateModel = CreateModel ∨ CreateModel = CreateSkinnedModel
               ∨ CreateModel = CreateAnimation) by (left; reflexivity).
  assert (H1 : run = Some ((Ok, contextOf run), stateOf run))
    by (apply returnedOk_eq; vm_compute; reflexivity).
  exists (contextOf run), (stateOf run). split; [exact H0|]. split; [exact H1|].
  exact (create_functions_read_only (E := engine) CreateModel (context "a.fbx" "a.flax") 0%nat None
           twoLods Ok (contextOf run) (stateOf run) H0 H1).
Defined.

Lemma CreateAnimation_chunk_witness :
  frames twoLods !! 0%nat = Some twoLodsModel
  ∧ ∃ r c' s',
      CreateAnimation (context "a.fbx" "a.flax") 0%nat (Some defaults) twoLods
      = Some ((r, c'), s')
      ∧ r = Error ∧ s' = twoLods.
Proof.
  assert (H0 : frames twoLods !! 0%nat = Some twoLodsModel) by reflexivity.
  split; [exact H0|].
  destruct (CreateAnimation_chunk (context "a.fbx" "a.flax") 0%nat (Some defaults)
              twoLodsModel twoLods H0) as (r & c' & s' & Hrun & Hcases).
  exists r, c', s'. split; [exact Hrun|].
  destruct Hcases as (Hr & Hs & _). split; [exact Hr | exact Hs].
Defined.

Lemma Create_recomputes_screen_sizes_witness :
  ∃ c' s',
    frames twoLods !! 0%nat = Some twoLodsModel
    ∧ (∃ lod0 rest mesh meshes,
         LODs twoLodsModel = lod0 :: rest ∧ Meshes lod0 = mesh :: meshes)
    ∧ Create (context "a.fbx" "a.flax") (Some 0%nat) twoLods = Some ((Ok, c'), s')
    ∧ frames s'
      = <[0%nat := ModelData_CalculateLODsScreenSizes twoLodsModel]> (frames twoLods)
    ∧ heap s' = heap twoLods.
Proof.
  set (run := Create (context "a.fbx" "a.flax") (Some 0%nat) twoLods).
  assert (H0 : frames twoLods !! 0%nat = Some twoLodsModel) by reflexivity.
  assert (H1 : ∃ lod0 rest mesh meshes,
                 LODs twoLodsModel = lod0 :: rest ∧ Meshes lod0 = mesh :: meshes).
  { do 4 eexists. split; reflexivity. }
  assert (H2 : run = Some ((Ok, contextOf run), stateOf run))
    by (apply returnedOk_eq; vm_compute; reflexivity).
  exists (contextOf run), (stateOf run).
  split; [exact H0|]. split; [exact H1|]. split; [exact H2|].
  destruct (Create_recomputes_screen_sizes (E := engine) (context "a.fbx" "a.flax") 0%nat twoLodsModel
              twoLods Ok (contextOf run) (stateOf run) H0 H1 H2) as (Hfr & Hheap & _).
  split; [exact Hfr | exact Hheap].
Defined.



Lemma Import_parse_failure_witness :
  cachedDataOf defaults = None
  ∧ ModelTool_ImportModel (platform start) (InputPath (context "none.fbx" "out/none.flax"))
      defaults (autoImportOutputOf (context "none.fbx" "out/none.flax") defaults)
    = (∅, inl "cannot open file"%string)
  ∧ Import (context "none.fbx" "out/none.flax") (Some defaults) start
    = Some ((Error, context "none.fbx" "out/none.flax"),
            mkState (heap start)
              (<[fresh (dom (frames start)) := ModelData_empty]> (frames start))
              ∅ (events start)).
Proof.
  assert (H0 : cachedDataOf defaults = None) by reflexivity.
  assert (H1 : ModelTool_ImportModel (platform start)
                 (InputPath (context "none.fbx" "out/none.flax")) defaults
                 (autoImportOutputOf (context "none.fbx" "out/none.flax") defaults)
               = (∅, inl "cannot open file"%string)) by reflexivity.
  split; [exact H0|]. split; [exact H1|].
  exact (Import_parse_failure (context "none.fbx" "out/none.flax") defaults start ∅
           "cannot open file"%string H0 H1).
Defined.

Lemma Import_fresh_target_uses_defaults_witness :
  FileExists (platform start) (TargetAssetPath (context "two.fbx" "out/two.flax")) = false
  ∧ Import (context "two.fbx" "out/two.flax") None start
    = Import (context "two.fbx" "out/two.flax") (Some Options_default) start.
Proof.
  assert (H0 : FileExists (platform start)
                 (TargetAssetPath (context "two.fbx" "out/two.flax")) = false)
    by (vm_compute; reflexivity).
  split; [exact H0|].
  exact (Import_fresh_target_uses_defaults (context "two.fbx" "out/two.flax") start H0).
Defined.

Lemma Import_reimport_restores_options_witness :
  FileExists (platform reimported) (TargetAssetPath (context "two.fbx" "out/two.flax"))
  = true
  ∧ GetStorage (platform reimported) (TargetAssetPath (context "two.fbx" "out/two.flax"))
    = Some previous
  ∧ GetEntriesCount previous = 1
  ∧ LoadAssetHeader previous 0 = Some previousHeader
  ∧ acceptedEntry previous previousHeader
  ∧ Document_Parse (Metadata previousHeader) = Some previousMembers
  ∧ Type_ (Options_Deserialize previousMembers Options_default) = SkinnedModel
  ∧ Import (context "two.fbx" "out/two.flax") None reimported
    = Import (context "two.fbx" "out/two.flax")
        (Some (Options_Deserialize previousMembers Options_default)) reimported.
Proof.
  assert (H0 : FileExists (platform reimported)
                 (TargetAssetPath (context "two.fbx" "out/two.flax")) = true)
    by (vm_compute; reflexivity).
  assert (H1 : GetStorage (platform reimported)
                 (TargetAssetPath (context "two.fbx" "out/two.flax")) = Some previous)
    by (vm_compute; reflexivity).
  assert (H2 : GetEntriesCount previous = 1) by reflexivity.
  assert (H3 : LoadAssetHeader previous 0 = Some previousHeader) by reflexivity.
  assert (H4 : acceptedEntry previous previousHeader).
  { left. split; [reflexivity | simpl; lia]. }
  assert (H5 : Document_Parse (Metadata previousHeader) = Some previousMembers)
    by (vm_compute; reflexivity).
  split; [exact H0|]. split; [exact H1|]. split; [exact H2|]. split; [exact H3|].
  split; [exact H4|]. split; [exact H5|]. split; [vm_compute; reflexivity|].
  exact (Import_reimport_restores_options (context "two.fbx" "out/two.flax") reimported
           previous previousHeader previousMembers H0 H1 H2 H3 H4 H5).
Defined.

Lemma TryRestoreMaterials_skips_witness :
  (FileExists (platform twoLods) (TargetAssetPath (context "a.fbx" "a.flax")) = false
   ∨ Content_LoadAsync (platform twoLods) (TargetAssetPath (context "a.fbx" "a.flax"))
     = None
   ∨ (∃ asset,
        Content_LoadAsync (platform twoLods) (TargetAssetPath (context "a.fbx" "a.flax"))
        = Some asset
        ∧ (Asset_WaitForLoaded asset = true
           ∨ (Asset_GetTypeName asset ≠ Model_TypeName
              ∧ Asset_GetTypeName asset ≠ SkinnedModel_TypeName))))
  ∧ TryRestoreMaterials (context "a.fbx" "a.flax") 0%nat twoLods = Some (tt, twoLods).
Proof.
  assert (H0 : FileExists (platform twoLods) (TargetAssetPath (context "a.fbx" "a.flax"))
               = false
               ∨ Content_LoadAsync (platform twoLods)
                   (TargetAssetPath (context "a.fbx" "a.flax")) = None
               ∨ (∃ asset,
                    Content_LoadAsync (platform twoLods)
                      (TargetAssetPath (context "a.fbx" "a.flax")) = Some asset
                    ∧ (Asset_WaitForLoaded asset = true
                       ∨ (Asset_GetTypeName asset ≠ Model_TypeName
                          ∧ Asset_GetTypeName asset ≠ SkinnedModel_TypeName))))
    by (left; vm_compute; reflexivity).
  split; [exact H0|].
  exact (TryRestoreMaterials_skips (context "a.fbx" "a.flax") 0%nat twoLods H0).
Defined.

Lemma TryRestoreMaterials_positional_witness :
  FileExists (platform reimported) (TargetAssetPath (context "two.fbx" "out/two.flax"))
  = true
  ∧ Content_LoadAsync (platform reimported)
      (TargetAssetPath (context "two.fbx" "out/two.flax")) = Some previous
  ∧ Asset_WaitForLoaded previous = false
  ∧ (Asset_GetTypeName previous = Model_TypeName
     ∨ Asset_GetTypeName previous = SkinnedModel_TypeName)
  ∧ frames reimported !! 0%nat = Some twoLodsModel
  ∧ ∃ materials,
      TryRestoreMaterials (context "two.fbx" "out/two.flax") 0%nat reimported
      = Some (tt, State_setFrames reimported
                    (<[0%nat := ModelData_setMaterials twoLodsModel materials]>
                       (frames reimported)))
      ∧ length materials = length (Materials twoLodsModel).
Proof.
  assert (H0 : FileExists (platform reimported)
                 (TargetAssetPath (context "two.fbx" "out/two.flax")) = true)
    by (vm_compute; reflexivity).
  assert (H1 : Content_LoadAsync (platform reimported)
                 (TargetAssetPath (context "two.fbx" "out/two.flax")) = Some previous)
    by (vm_compute; reflexivity).
  assert (H2 : Asset_WaitForLoaded previous = false) by reflexivity.
  assert (H3 : Asset_GetTypeName previous = Model_TypeName
               ∨ Asset_GetTypeName previous = SkinnedModel_TypeName)
    by (left; reflexivity).
  assert (H4 : frames reimported !! 0%nat = Some twoLodsModel) by reflexivity.
  split; [exact H0|]. split; [exact H1|]. split; [exact H2|]. split; [exact H3|].
  split; [exact H4|].
  destruct (TryRestoreMaterials_positional (context "two.fbx" "out/two.flax") 0%nat
              twoLodsModel previous reimported H0 H1 H2 H3 H4)
    as (materials & Hrun & Hlen & _).
  exists materials. split; [exact Hrun | exact Hlen].
Defined.

(** The run of the witness, spelled out: the first slot takes over the
    name, the shadows mode and the material of the one slot the previous
    asset has; the second slot is the imported one. *)
Example TryRestoreMaterials_positional_run :
  (Materials <$> (stateOf (TryRestoreMaterials (context "two.fbx" "out/two.flax") 0%nat
                             reimported)).(frames) !! 0%nat)
  = Some [mkMaterialSlotEntry "steel" 1 7; slot "hair"].
Proof. vm_compute. reflexivity. Qed.

Lemma fourMeshes_in_range :
  Forall (slotInRange (heap fourMeshes) (length sixSlots)) [0; 1; 2; 3]%nat.
Proof.
  constructor.
  { unfold slotInRange. exists (mesh "a" 0 1%Q). split; [vm_compute; reflexivity | simpl; lia]. }
  constructor.
  { unfold slotInRange. exists (mesh "b" 2 1%Q). split; [vm_compute; reflexivity | simpl; lia]. }
  constructor.
  { unfold slotInRange. exists (mesh "c" 2 1%Q). split; [vm_compute; reflexivity | simpl; lia]. }
  constructor.
  { unfold slotInRange. exists (mesh "d" 5 1%Q). split; [vm_compute; reflexivity | simpl; lia]. }
  constructor.
Defined.

Lemma SetupMaterialSlots_one_slot_per_mesh_witness :
  frames fourMeshes !! 0%nat
  = Some (mkModelData [mkModelLodData 1%Q [0; 1; 2; 3]%nat] [] tt [] [])
  ∧ NoDup (meshesOf (mkModelData [mkModelLodData 1%Q [0; 1; 2; 3]%nat] [] tt [] []))
  ∧ Forall (slotInRange (heap fourMeshes) (length sixSlots))
      (meshesOf (mkModelData [mkModelLodData 1%Q [0; 1; 2; 3]%nat] [] tt [] []))
  ∧ ∃ s' added,
      SetupMaterialSlots 0%nat sixSlots fourMeshes = Some (tt, s')
      ∧ Forall2 (slotUsedBy (heap fourMeshes) sixSlots)
          (meshesOf (mkModelData [mkModelLodData 1%Q [0; 1; 2; 3]%nat] [] tt [] [])) added.
Proof.
  assert (H0 : frames fourMeshes !! 0%nat
               = Some (mkModelData [mkModelLodData 1%Q [0; 1; 2; 3]%nat] [] tt [] []))
    by reflexivity.
  assert (H1 : NoDup (meshesOf (mkModelData [mkModelLodData 1%Q [0; 1; 2; 3]%nat] []
                                  tt [] []))).
  { apply (bool_decide_unpack _). vm_compute. exact I. }
  assert (H2 : Forall (slotInRange (heap fourMeshes) (length sixSlots))
                 (meshesOf (mkModelData [mkModelLodData 1%Q [0; 1; 2; 3]%nat] []
                              tt [] []))) by exact fourMeshes_in_range.
  split; [exact H0|]. split; [exact H1|]. split; [exact H2|].
  destruct (SetupMaterialSlots_one_slot_per_mesh 0%nat sixSlots _ fourMeshes H0 H1 H2)
    as (s' & added & Hrun & _ & _ & _ & Hused & _).
  exists s', added. split; [exact Hrun | exact Hused].
Defined.

Lemma twoCharts_allocated : allocated (heap (twoCharts 4 1)) (Meshes chartsLod).
Proof.
  unfold allocated, chartsLod, Meshes.
  constructor.
  { unfold is_Some. exists (mesh "body" 0 4%Q). vm_compute. reflexivity. }
  constructor.
  { unfold is_Some. exists (mesh "head" 1 1%Q). vm_compute. reflexivity. }
  constructor.
Defined.

Lemma RepackMeshLightmapUVs_preserves_witness :
  frames (twoCharts 4 1) !! 0%nat = Some twoChartsModel
  ∧ LODs twoChartsModel !! 0%nat = Some chartsLod
  ∧ allocated (heap (twoCharts 4 1)) (Meshes chartsLod)
  ∧ ∃ s',
      RepackMeshLightmapUVs 0%nat (twoCharts 4 1) = Some (tt, s')
      ∧ frames s' = frames (twoCharts 4 1) ∧ platform s' = platform (twoCharts 4 1).
Proof.
  assert (H0 : frames (twoCharts 4 1) !! 0%nat = Some twoChartsModel) by reflexivity.
  assert (H1 : LODs twoChartsModel !! 0%nat = Some chartsLod) by reflexivity.
  split; [exact H0|]. split; [exact H1|]. split; [exact twoCharts_allocated|].
  destruct (RepackMeshLightmapUVs_preserves 0%nat twoChartsModel chartsLod (twoCharts 4 1)
              H0 H1 twoCharts_allocated) as (s' & Hrun & Hfr & Hpl & _).
  exists s'. split; [exact Hrun|]. split; [exact Hfr | exact Hpl].
Defined.

Lemma headGroup_in_range :
  Forall (slotInRange (heap (twoCharts 4 1)) (length (Materials twoChartsModel)))
    (Members headGroup).
Proof.
  constructor; [|constructor].
  unfold slotInRange. exists (mesh "head" 1 1%Q). split; [vm_compute; reflexivity | simpl; lia].
Defined.

Lemma headGroup_NoDup : NoDup (Members headGroup).
Proof. apply (bool_decide_unpack _). vm_compute. exact I. Defined.

Lemma chartsLod_NoDup : NoDup (Meshes chartsLod).
Proof. apply (bool_decide_unpack _). vm_compute. exact I. Defined.

Lemma Import_select_from_parsed_witness :
  0 ≤ ObjectIndex (Options_setObjectIndex defaults 1)
  ∧ groupMeshesByName (heap (twoCharts 4 1)) [0; 1]%nat
      !! Z.to_nat (ObjectIndex (Options_setObjectIndex defaults 1)) = Some headGroup
  ∧ isModelOrSkinnedModel (Type_ (Options_setObjectIndex defaults 1)) = true
  ∧ frames (twoCharts 4 1) !! 0%nat = Some twoChartsModel
  ∧ LODs twoChartsModel = [chartsLod]
  ∧ NoDup (Meshes chartsLod)
  ∧ NoDup (Members headGroup)
  ∧ Forall (slotInRange (heap (twoCharts 4 1)) (length (Materials twoChartsModel)))
      (Members headGroup)
  ∧ ∃ s' added meshesToDelete,
      Import_select 0%nat (Options_setObjectIndex defaults 1) 0%nat
        (groupMeshesByName (heap (twoCharts 4 1)) [0; 1]%nat) (twoCharts 4 1)
      = Some ((0%nat, meshesToDelete), s')
      ∧ frames s'
        = <[0%nat := mkModelData [mkModelLodData (ScreenSize chartsLod) (Members headGroup)]
                       added (Skeleton twoChartsModel) (Nodes twoChartsModel)
                       (Animations twoChartsModel)]> (frames (twoCharts 4 1)).
Proof.
  assert (H0 : 0 ≤ ObjectIndex (Options_setObjectIndex defaults 1)) by (simpl; lia).
  assert (H1 : groupMeshesByName (heap (twoCharts 4 1)) [0; 1]%nat
                 !! Z.to_nat (ObjectIndex (Options_setObjectIndex defaults 1))
               = Some headGroup) by (vm_compute; reflexivity).
  assert (H2 : isModelOrSkinnedModel (Type_ (Options_setObjectIndex defaults 1)) = true)
    by reflexivity.
  assert (H3 : frames (twoCharts 4 1) !! 0%nat = Some twoChartsModel) by reflexivity.
  assert (H4 : LODs twoChartsModel = [chartsLod]) by reflexivity.
  split; [exact H0|]. split; [exact H1|]. split; [exact H2|]. split; [exact H3|].
  split; [exact H4|]. split; [exact chartsLod_NoDup|].
  split; [exact headGroup_NoDup|]. split; [exact headGroup_in_range|].
  destruct (Import_select_from_parsed 0%nat (Options_setObjectIndex defaults 1)
              (groupMeshesByName (heap (twoCharts 4 1)) [0; 1]%nat) headGroup
              twoChartsModel chartsLod (twoCharts 4 1) H0 H1 H2 H3 H4
              chartsLod_NoDup headGroup_NoDup headGroup_in_range)
    as (s' & added & meshesToDelete & Hrun & _ & _ & _ & Hfr & _).
  exists s', added, meshesToDelete. split; [exact Hrun | exact Hfr].
Defined.

(** The run of the witness, spelled out: the body goes to the meshes to
    delete, the head stays and points at the one slot left, its own. *)
Example Import_select_from_parsed_run :
  let run := Import_select 0%nat (Options_setObjectIndex defaults 1) 0%nat
               (groupMeshesByName (heap (twoCharts 4 1)) [0; 1]%nat) (twoCharts 4 1) in
  valueOf (0%nat, []) run = (0%nat, [0%nat])
  ∧ lod0Meshes (stateOf run) 0%nat = Some [1%nat]
  ∧ slotNames (stateOf run) 0%nat = Some ["hair"%string]
  ∧ (MaterialSlotIndex <$> heap (stateOf run) !! 1%nat) = Some 0.
Proof. repeat split; vm_compute; reflexivity. Qed.

Lemma Import_select_from_shared_witness :
  0 ≤ ObjectIndex (Options_setObjectIndex defaults 1)
  ∧ groupMeshesByName (heap shared) [0; 1]%nat
      !! Z.to_nat (ObjectIndex (Options_setObjectIndex defaults 1)) = Some headGroup
  ∧ isModelOrSkinnedModel (Type_ (Options_setObjectIndex defaults 1)) = true
  ∧ 1%nat ≠ 0%nat
  ∧ frames shared !! 0%nat = Some twoChartsModel
  ∧ LODs twoChartsModel = [chartsLod]
  ∧ frames shared !! 1%nat = Some ModelData_empty
  ∧ LODs ModelData_empty = []
  ∧ NoDup (Meshes chartsLod)
  ∧ NoDup (Members headGroup)
  ∧ Forall (slotInRange (heap shared) (length (Materials twoChartsModel)))
      (Members headGroup)
  ∧ ∃ s' added,
      Import_select 1%nat (Options_setObjectIndex defaults 1) 0%nat
        (groupMeshesByName (heap shared) [0; 1]%nat) shared
      = Some ((1%nat, []), s')
      ∧ Forall2 (slotUsedBy (heap shared) (Materials twoChartsModel))
          (Members headGroup) added.
Proof.
  assert (H0 : 0 ≤ ObjectIndex (Options_setObjectIndex defaults 1)) by (simpl; lia).
  assert (H1 : groupMeshesByName (heap shared) [0; 1]%nat
                 !! Z.to_nat (ObjectIndex (Options_setObjectIndex defaults 1))
               = Some headGroup) by (vm_compute; reflexivity).
  assert (H2 : isModelOrSkinnedModel (Type_ (Options_setObjectIndex defaults 1)) = true)
    by reflexivity.
  assert (H3 : 1%nat ≠ 0%nat) by discriminate.
  assert (H4 : frames shared !! 0%nat = Some twoChartsModel) by (vm_compute; reflexivity).
  assert (H5 : LODs twoChartsModel = [chartsLod]) by reflexivity.
  assert (H6 : frames shared !! 1%nat = Some ModelData_empty) by (vm_compute; reflexivity).
  assert (H7 : LODs ModelData_empty = []) by reflexivity.
  split; [exact H0|]. split; [exact H1|]. split; [exact H2|]. split; [exact H3|].
  split; [exact H4|]. split; [exact H5|]. split; [exact H6|]. split; [exact H7|].
  split; [exact chartsLod_NoDup|].
  split; [exact headGroup_NoDup|]. split; [exact headGroup_in_range|].
  destruct (Import_select_from_shared 1%nat 0%nat (Options_setObjectIndex defaults 1)
              (groupMeshesByName (heap shared) [0; 1]%nat) headGroup
              twoChartsModel ModelData_empty chartsLod shared H0 H1 H2 H3 H4 H5 H6 H7
              chartsLod_NoDup headGroup_NoDup headGroup_in_range)
    as (s' & added & remaining & Hrun & _ & _ & _ & _ & Hused & _).
  exists s', added. split; [exact Hrun | exact Hused].
Defined.

(** The run of the witness, spelled out: the head left the shared model
    for the frame of the call, with the one slot it uses. *)
Example Import_select_from_shared_run :
  let run := Import_select 1%nat (Options_setObjectIndex defaults 1) 0%nat
               (groupMeshesByName (heap shared) [0; 1]%nat) shared in
  lod0Meshes (stateOf run) 0%nat = Some [0%nat]
  ∧ lod0Meshes (stateOf run) 1%nat = Some [1%nat]
  ∧ slotNames (stateOf run) 0%nat = Some ["skin"; "hair"]%string
  ∧ slotNames (stateOf run) 1%nat = Some ["hair"%string]
  ∧ (MaterialSlotIndex <$> heap (stateOf run) !! 1%nat) = Some 0.
Proof. repeat split; vm_compute; reflexivity. Qed.

Lemma postFixOf_after_last_bar_witness :
  hasChar "|" "Hand" = false
  ∧ postFixOf "Hand" = "Hand"%string
  ∧ postFixOf "Root|Arm|Hand" = "Hand"%string.
Proof.
  assert (H0 : hasChar "|" "Hand" = false) by reflexivity.
  split; [exact H0|].
  exact (postFixOf_after_last_bar "Root|Arm" "Hand" H0).
Defined.

End Further_witnesses.
